(** * Metric extraction and evaluation scoring engine

    A shallow embedding of the scoring core of [eval_metrics_harness.py]
    (value normalisation, prediction canonicalisation, unit reconciliation,
    response extraction, document matching, layout detection and score
    computation), with the properties of the specification stated over it.

    Conventions of the embedding:
    - a Python [str] is a list of Unicode code points ([pystr]);
    - a Python [float] is an IEEE 754 binary64 value ([spec_float] at
      precision 53, maximal exponent 1024), so that conversions round and
      overflow as the interpreter's do;
    - a Python [int] is a [Z];
    - a [dict] with string keys is a [gmap pystr _];
    - an exception is a value of [exn]; fallible functions return
      [result _]. *)

From Stdlib Require Import ZArith NArith List Bool Lia String Ascii.
From Stdlib Require Import Floats.SpecFloat.
From stdpp Require Import base option list gmap.

Open Scope Z_scope.

Set Warnings "-register-all".

(** ** Characters and strings *)

Definition char := N.
Definition pystr := list N.

Definition in_range (lo hi c : N) : bool := ((lo <=? c) && (c <=? hi))%N.

(** [str.isspace] on one character, which is also the regular-expression
    class [\s] and what [str.strip] removes. *)
Definition is_space (c : char) : bool :=
  in_range 9 13 c || in_range 28 32 c || (c =? 133)%N || (c =? 160)%N
  || (c =? 5760)%N || in_range 8192 8202 c || (c =? 8232)%N || (c =? 8233)%N
  || (c =? 8239)%N || (c =? 8287)%N || (c =? 12288)%N.

(** The part of the Unicode character database the code depends on beyond
    ASCII.  Within ASCII the classification below is fixed; for the other
    code points it is read from this table: decimal digits and their
    values, alphanumeric characters, the full lower and upper case
    mappings, the Cased and Case_Ignorable properties (which decide the
    lower case of a capital sigma) and the printable characters (which
    [repr] leaves as they are). *)
Class Unicode := {
  uc_decimal : N -> option N;
  uc_alnum : N -> bool;
  uc_lower : N -> list N;
  uc_upper : N -> list N;
  uc_cased : N -> bool;
  uc_case_ignorable : N -> bool;
  uc_printable : N -> bool
}.

(** A table that knows no letter or digit outside ASCII.  It agrees with
    the interpreter's on every ASCII character and on symbols such as the
    multiplication sign. *)
Definition plain_unicode : Unicode :=
  {| uc_decimal := fun _ => None;
     uc_alnum := fun _ => false;
     uc_lower := fun c => [c];
     uc_upper := fun c => [c];
     uc_cased := fun _ => false;
     uc_case_ignorable := fun _ => false;
     uc_printable := fun _ => true |}.

(** UTF-8 decoding of a literal, used to write Python string constants. *)
Fixpoint utf8_decode (fuel : nat) (bs : list N) : list N :=
  match fuel with
  | O => []
  | S fuel' =>
    match bs with
    | [] => []
    | b :: r =>
      if (b <? 128)%N then b :: utf8_decode fuel' r
      else if (b <? 224)%N then
        match r with
        | b1 :: r' => ((b - 192) * 64 + (b1 - 128))%N :: utf8_decode fuel' r'
        | _ => []
        end
      else if (b <? 240)%N then
        match r with
        | b1 :: b2 :: r' =>
          ((b - 224) * 4096 + (b1 - 128) * 64 + (b2 - 128))%N :: utf8_decode fuel' r'
        | _ => []
        end
      else
        match r with
        | b1 :: b2 :: b3 :: r' =>
          ((b - 240) * 262144 + (b1 - 128) * 4096 + (b2 - 128) * 64 + (b3 - 128))%N
            :: utf8_decode fuel' r'
        | _ => []
        end
    end
  end.

Fixpoint bytes_of_string (s : string) : list N :=
  match s with
  | EmptyString => []
  | String a r => N_of_ascii a :: bytes_of_string r
  end.

Definition u (s : string) : pystr :=
  let bs := bytes_of_string s in utf8_decode (length bs) bs.

Definition ch (s : string) : char :=
  match u s with c :: _ => c | [] => 0%N end.

Definition pystr_eqb (a b : pystr) : bool := bool_decide (a = b).

Section Strings.
Context {U : Unicode}.

(** Value of a decimal digit (class [\d]), [None] for any other character. *)
Definition decimal_value (c : char) : option N :=
  if (c <? 128)%N then
    if in_range 48 57 c then Some (c - 48)%N else None
  else uc_decimal c.

Definition is_digit (c : char) : bool :=
  match decimal_value c with Some _ => true | None => false end.


Definition is_alnum (c : char) : bool :=
  if (c <? 128)%N then in_range 48 57 c || in_range 65 90 c || in_range 97 122 c
  else uc_alnum c.

(** Class [\w] of the regular-expression engine. *)
Definition is_word (c : char) : bool := is_alnum c || (c =? 95)%N.

Definition lower_char (c : char) : list N :=
  if (c <? 128)%N then (if in_range 65 90 c then [(c + 32)%N] else [c])
  else uc_lower c.

Definition upper_char (c : char) : list N :=
  if (c <? 128)%N then (if in_range 97 122 c then [(c - 32)%N] else [c])
  else uc_upper c.

(** The Cased and Case_Ignorable properties. *)
Definition is_cased (c : char) : bool :=
  if (c <? 128)%N then in_range 65 90 c || in_range 97 122 c else uc_cased c.

Definition is_case_ignorable (c : char) : bool :=
  if (c <? 128)%N
  then (c =? 39)%N || (c =? 46)%N || (c =? 58)%N || (c =? 94)%N || (c =? 96)%N
  else uc_case_ignorable c.

(** The nearest character of [s] that is not case-ignorable. *)
Fixpoint skip_ignorable (s : pystr) : option char :=
  match s with
  | [] => None
  | c :: r => if is_case_ignorable c then skip_ignorable r else Some c
  end.

(** A capital sigma is in final position when a cased letter comes before
    it and none after it, case-ignorable characters apart; [before] is the
    text before it, nearest character first. *)
Definition final_sigma (before after : pystr) : bool :=
  match skip_ignorable before with
  | Some c =>
    is_cased c
    && match skip_ignorable after with
       | Some d => negb (is_cased d)
       | None => true
       end
  | None => false
  end.

(** [s.lower()]: character by character, but for the capital sigma
    (U+03A3), which becomes a final sigma (U+03C2) or a small sigma
    (U+03C3) by its context. *)
Fixpoint lower_from (before : pystr) (s : pystr) : pystr :=
  match s with
  | [] => []
  | c :: r =>
    (if (c =? 931)%N then [if final_sigma before r then 962%N else 963%N]
     else lower_char c) ++ lower_from (c :: before) r
  end.

Definition lower (s : pystr) : pystr := lower_from [] s.
Definition upper (s : pystr) : pystr := concat (map upper_char s).
End Strings.

Fixpoint lstrip_by (p : char -> bool) (s : pystr) : pystr :=
  match s with
  | c :: r => if p c then lstrip_by p r else s
  | [] => []
  end.

Definition rstrip_by (p : char -> bool) (s : pystr) : pystr :=
  rev (lstrip_by p (rev s)).

Definition strip (s : pystr) : pystr := rstrip_by is_space (lstrip_by is_space s).

Definition char_in (cs : pystr) (c : char) : bool := bool_decide (c ∈ cs).

(** [s.rstrip(cs)] *)
Definition rstrip_chars (cs : pystr) (s : pystr) : pystr := rstrip_by (char_in cs) s.

(** [s.replace(c, empty)] for a one-character [c]: every [c] is removed. *)
Definition remove_char (c : char) (s : pystr) : pystr :=
  filter (fun x => x ≠ c) s.

Fixpoint starts_with (p s : pystr) : bool :=
  match p, s with
  | [], _ => true
  | a :: p', b :: s' => (a =? b)%N && starts_with p' s'
  | _ :: _, [] => false
  end.

(** [s.find(p)]: index of the first occurrence, [None] for [-1]. *)
Fixpoint str_find_from (p s : pystr) (i : nat) : option nat :=
  if starts_with p s then Some i
  else match s with
       | [] => None
       | _ :: r => str_find_from p r (S i)
       end.

Definition str_find (p s : pystr) : option nat := str_find_from p s 0.

(** [p in s] *)
Definition contains (p s : pystr) : bool :=
  match str_find p s with Some _ => true | None => false end.

(** [s.split()]: the maximal runs of non-whitespace characters. *)
Fixpoint split_ws_aux (cur : pystr) (s : pystr) : list pystr :=
  match s with
  | [] => match cur with [] => [] | _ => [rev cur] end
  | c :: r =>
    if is_space c then
      match cur with
      | [] => split_ws_aux [] r
      | _ => rev cur :: split_ws_aux [] r
      end
    else split_ws_aux (c :: cur) r
  end.

Definition split_ws (s : pystr) : list pystr := split_ws_aux [] s.

(** [sep.join(parts)] *)
Fixpoint str_join (sep : pystr) (parts : list pystr) : pystr :=
  match parts with
  | [] => []
  | [p] => p
  | p :: r => p ++ sep ++ str_join sep r
  end.

(** [s.split("\n")] *)
Fixpoint split_lines_aux (cur : pystr) (s : pystr) : list pystr :=
  match s with
  | [] => [rev cur]
  | c :: r =>
    if (c =? 10)%N then rev cur :: split_lines_aux [] r
    else split_lines_aux (c :: cur) r
  end.

Definition split_lines (s : pystr) : list pystr := split_lines_aux [] s.

(** ** Floating-point numbers and exceptions *)

Definition prec : Z := 53.
Definition emax : Z := 1024.

Definition pyfloat := spec_float.

Inductive exn :=
| OverflowError
| ZeroDivisionError
| AttributeError
| RecursionError
| ValueError (msg : pystr).

Inductive result (A : Type) :=
| Ok (a : A)
| Raise (e : exn).
Arguments Ok {A} a.
Arguments Raise {A} e.

Definition bind {A B} (r : result A) (k : A -> result B) : result B :=
  match r with
  | Ok a => k a
  | Raise e => Raise e
  end.

Notation "'let*' x := r 'in' k" := (bind r (fun x => k))
  (at level 10, x name, r at level 100, k at level 200).

Definition is_nan (x : pyfloat) : bool :=
  match x with S754_nan => true | _ => false end.

Definition is_finite (x : pyfloat) : bool :=
  match x with S754_zero _ | S754_finite _ _ _ => true | _ => false end.

Definition feqb (x y : pyfloat) : bool := SFeqb x y.
Definition fltb (x y : pyfloat) : bool := SFltb x y.
Definition fleb (x y : pyfloat) : bool := SFleb x y.
Definition fabs (x : pyfloat) : pyfloat := SFabs x.
Definition fsub (x y : pyfloat) : pyfloat := SFsub prec emax x y.
Definition fmul (x y : pyfloat) : pyfloat := SFmul prec emax x y.
Definition fdiv (x y : pyfloat) : pyfloat := SFdiv prec emax x y.

(** The double nearest to [p / q] (ties to even), for [0 <= p] and [0 < q],
    with sign [neg]. *)
Definition float_of_ratio (neg : bool) (p q : Z) : pyfloat :=
  if p =? 0 then S754_zero neg
  else
    let '(m, e, l) := SFdiv_core_binary prec emax p 0 q 0 in
    binary_round_aux prec emax neg m e l.

(** The double nearest to the integer [n]. *)
Definition float_of_Z (n : Z) : pyfloat := binary_normalize prec emax n 0 false.

(** [float(n)] for an [int]: raises when [n] is beyond the range of doubles. *)
Definition float_of_int (n : Z) : result pyfloat :=
  let x := float_of_Z n in
  if is_finite x then Ok x else Raise OverflowError.

(** [a / b] on two [int]s (true division, correctly rounded). *)
Definition int_truediv (a b : Z) : result pyfloat :=
  if b =? 0 then Raise ZeroDivisionError
  else
    let neg := xorb (a <? 0) (b <? 0) in
    let x := float_of_ratio neg (Z.abs a) (Z.abs b) in
    if is_finite x then Ok x else Raise OverflowError.

(** Nearest integer to [p / q], ties to even, for [0 <= p] and [0 < q]. *)
Definition round_half_even (p q : Z) : Z :=
  let k := p / q in
  let r := p mod q in
  match Z.compare (2 * r) q with
  | Lt => k
  | Gt => k + 1
  | Eq => if Z.even k then k else k + 1
  end.

(** [round(x, nd)] on a [float] for [0 <= nd]: the exact value of [x] is
    rounded half-even to [nd] decimal places and the decimal obtained is
    converted back to the nearest double. *)
Definition py_round (x : pyfloat) (nd : Z) : result pyfloat :=
  match x with
  | S754_finite s m e =>
    if 323 <? nd then Ok x
    else
      let scale := 10 ^ nd in
      let k :=
        if 0 <=? e then Z.pos m * 2 ^ e * scale
        else round_half_even (Z.pos m * scale) (2 ^ (- e)) in
      let y := float_of_ratio s k scale in
      if is_finite y then Ok y else Raise OverflowError
  | _ => Ok x
  end.

(** ** [float(s)] on a string *)

Section FloatOfStr.
Context {U : Unicode}.

(** What the conversion sees of a character: ASCII is kept, other
    whitespace reads as a blank, other decimal digits as their ASCII
    digit, anything else is invalid. *)
Definition ascii_view (c : char) : option N :=
  if (c <? 128)%N then Some c
  else if is_space c then Some 32%N
  else match uc_decimal c with
       | Some d => Some (48 + d)%N
       | None => None
       end.

Fixpoint ascii_views (s : pystr) : option (list N) :=
  match s with
  | [] => Some []
  | c :: r =>
    match ascii_view c, ascii_views r with
    | Some a, Some r' => Some (a :: r')
    | _, _ => None
    end
  end.
End FloatOfStr.

Definition is_c_space (c : N) : bool := in_range 9 13 c || (c =? 32)%N.
Definition is_ascii_digit (c : N) : bool := in_range 48 57 c.

(** An underscore is accepted only between two digits; accepted ones are
    dropped. *)
Fixpoint drop_underscores (prev : option N) (s : list N) : option (list N) :=
  match s with
  | [] => Some []
  | c :: r =>
    if (c =? 95)%N then
      match prev, r with
      | Some p, n :: _ =>
        if is_ascii_digit p && is_ascii_digit n then drop_underscores (Some c) r
        else None
      | _, _ => None
      end
    else option_map (cons c) (drop_underscores (Some c) r)
  end.

Fixpoint take_digits (s : list N) : list N * list N :=
  match s with
  | c :: r =>
    if is_ascii_digit c then let '(d, t) := take_digits r in (c :: d, t)
    else ([], s)
  | [] => ([], [])
  end.

Definition digits_value (ds : list N) : Z :=
  fold_left (fun acc c => acc * 10 + Z.of_N (c - 48)) ds 0.

Definition take_sign (s : list N) : bool * list N :=
  match s with
  | c :: r =>
    if (c =? 45)%N then (true, r)
    else if (c =? 43)%N then (false, r)
    else (false, s)
  | [] => (false, [])
  end.

Definition ascii_lower (s : list N) : list N :=
  map (fun c => if in_range 65 90 c then (c + 32)%N else c) s.

(** Number of decimal digits of a positive integer is at most its number
    of binary digits; both bounds below are only used to cut off
    exponents that are out of range whatever the mantissa. *)
Definition decimal_to_float (neg : bool) (mant : Z) (exp10 : Z) : pyfloat :=
  if mant =? 0 then S754_zero neg
  else if 400 <? exp10 then S754_infinity neg
  else if exp10 + Z.log2 mant <? -1200 then S754_zero neg
  else if 0 <=? exp10 then float_of_ratio neg (mant * 10 ^ exp10) 1
  else float_of_ratio neg mant (10 ^ (- exp10)).

(** The numeric literal grammar: digits, optional point and digits (one
    digit at least), optional exponent; the whole text must be used. *)
Definition parse_decimal (neg : bool) (s : list N) : option pyfloat :=
  let '(ip, r1) := take_digits s in
  let '(fp, r2) :=
    match r1 with
    | c :: r => if (c =? 46)%N then take_digits r else ([], r1)
    | [] => ([], [])
    end in
  match ip ++ fp with
  | [] => None
  | ds =>
    let mant := digits_value ds in
    let shift := Z.of_nat (length fp) in
    match r2 with
    | [] => Some (decimal_to_float neg mant (- shift))
    | c :: r =>
      if (c =? 101)%N || (c =? 69)%N then
        let '(eneg, r3) := take_sign r in
        match take_digits r3 with
        | (d :: ed, []) =>
          let e := digits_value (d :: ed) in
          Some (decimal_to_float neg mant ((if eneg then - e else e) - shift))
        | _ => None
        end
      else None
    end
  end.

Definition parse_float_ascii (s : list N) : option pyfloat :=
  let s := rstrip_by is_c_space (lstrip_by is_c_space s) in
  match drop_underscores None s with
  | None => None
  | Some s =>
    let '(neg, body) := take_sign s in
    let low := ascii_lower body in
    if bool_decide (low = [105; 110; 102]%N)
       || bool_decide (low = [105; 110; 102; 105; 110; 105; 116; 121]%N)
    then Some (S754_infinity neg)
    else if bool_decide (low = [110; 97; 110]%N) then Some S754_nan
    else parse_decimal neg body
  end.

(** [float(s)]: [None] stands for [ValueError]. *)
Definition float_of_str `{U : Unicode} (s : pystr) : option pyfloat :=
  match ascii_views s with
  | None => None
  | Some a => parse_float_ascii a
  end.

(** ** Python values *)

Inductive pyval :=
| VNone
| VBool (b : bool)
| VInt (n : Z)
| VFloat (x : pyfloat)
| VStr (s : pystr)
| VList (l : list pyval)
| VDict (d : gmap pystr pyval)
| VObj (text : pystr) (truth : bool).

(** [VObj] stands for an object of any other class (a date in a
    spreadsheet cell, say), known by its [str()] and its truth value. *)

(** Decimal digits of an [int]. *)
Fixpoint digits_of_uint (d : Decimal.uint) : pystr :=
  match d with
  | Decimal.Nil => []
  | Decimal.D0 r => 48%N :: digits_of_uint r
  | Decimal.D1 r => 49%N :: digits_of_uint r
  | Decimal.D2 r => 50%N :: digits_of_uint r
  | Decimal.D3 r => 51%N :: digits_of_uint r
  | Decimal.D4 r => 52%N :: digits_of_uint r
  | Decimal.D5 r => 53%N :: digits_of_uint r
  | Decimal.D6 r => 54%N :: digits_of_uint r
  | Decimal.D7 r => 55%N :: digits_of_uint r
  | Decimal.D8 r => 56%N :: digits_of_uint r
  | Decimal.D9 r => 57%N :: digits_of_uint r
  end.

Definition decimal_of_Z (n : Z) : pystr :=
  match n with
  | Z0 => [48%N]
  | Zpos p => digits_of_uint (Pos.to_uint p)
  | Zneg p => 45%N :: digits_of_uint (Pos.to_uint p)
  end.

(** Number of decimal digits of an [int], the sign apart. *)
Definition int_digits (n : Z) : nat :=
  match n with
  | Z0 => 1%nat
  | Zpos p | Zneg p => length (digits_of_uint (Pos.to_uint p))
  end.

(** The interpreter refuses to convert an [int] of more than
    [sys.get_int_max_str_digits()] digits to a string; 4300 is the value it
    starts with. *)
Definition int_max_str_digits : nat := 4300.

Definition int_limit_error : exn :=
  ValueError (u "Exceeds the limit (4300 digits) for integer string conversion; use sys.set_int_max_str_digits() to increase the limit").

(** What [str] and [repr] leave to the interpreter: the shortest
    representation of a [float], which is always produced, and the text of
    a [list] or [dict], whose production can fail (on an [int] beyond the
    limit above among the elements, or on nesting too deep for the
    interpreter's stack). *)
Class Repr := {
  float_repr : pyfloat -> pystr;
  container_repr : pyval -> result pystr
}.

(** [str(v)] *)
Definition py_str `{Repr} (v : pyval) : result pystr :=
  match v with
  | VNone => Ok (u "None")
  | VBool b => Ok (if b then u "True" else u "False")
  | VInt n =>
    if (int_max_str_digits <? int_digits n)%nat then Raise int_limit_error
    else Ok (decimal_of_Z n)
  | VFloat x => Ok (float_repr x)
  | VStr s => Ok s
  | VList _ | VDict _ => container_repr v
  | VObj s _ => Ok s
  end.

Section ReprStr.
Context {U : Unicode}.

Definition is_printable (c : char) : bool :=
  if (c <? 128)%N then in_range 32 126 c else uc_printable c.

Definition hex_digit (n : N) : char :=
  if (n <? 10)%N then (48 + n)%N else (87 + n)%N.

(** [n] in hexadecimal on [width] digits. *)
Fixpoint hex_digits (width : nat) (n : N) : pystr :=
  match width with
  | O => []
  | S w => hex_digits w (n / 16)%N ++ [hex_digit (n mod 16)%N]
  end.

(** One character of a string inside quotes [quote]. *)
Definition repr_char (quote : char) (c : char) : pystr :=
  if (c =? quote)%N || (c =? 92)%N then [92%N; c]
  else if (c =? 9)%N then [92; 116]%N
  else if (c =? 10)%N then [92; 110]%N
  else if (c =? 13)%N then [92; 114]%N
  else if (c <? 32)%N || (c =? 127)%N then [92; 120]%N ++ hex_digits 2 c
  else if (c <? 127)%N then [c]
  else if is_printable c then [c]
  else if (c <=? 255)%N then [92; 120]%N ++ hex_digits 2 c
  else if (c <=? 65535)%N then [92; 117]%N ++ hex_digits 4 c
  else [92; 85]%N ++ hex_digits 8 c.

(** [repr(s)] on a string: single quotes, unless the string holds a single
    quote and no double quote. *)
Definition repr_str (s : pystr) : pystr :=
  let quote := if char_in s 39%N && negb (char_in s 34%N) then 34%N else 39%N in
  [quote] ++ concat (map (repr_char quote) s) ++ [quote].

(** [repr] (and [str]) of a list of strings. *)
Definition repr_str_list (l : list pystr) : pystr :=
  u "[" ++ str_join (u ", ") (map repr_str l) ++ u "]".
End ReprStr.

(** Truth value of an object, as [or], [and], [not] and [if] test it. *)
Definition truthy (v : pyval) : bool :=
  match v with
  | VNone => false
  | VBool b => b
  | VInt n => negb (n =? 0)
  | VFloat x => match x with S754_zero _ => false | _ => true end
  | VStr s => match s with [] => false | _ => true end
  | VList l => match l with [] => false | _ => true end
  | VDict d => match map_to_list d with [] => false | _ => true end
  | VObj _ t => t
  end.

(** [a or b] *)
Definition py_or (a b : pyval) : pyval := if truthy a then a else b.

Definition is_none (v : pyval) : bool :=
  match v with VNone => true | _ => false end.

(** [d.get(k)] on a dictionary of values: [None] when the key is missing. *)
Definition dict_get (d : gmap pystr pyval) (k : pystr) : pyval :=
  default VNone (d !! k).

(** Lookup in a constant table. *)
Fixpoint table_get {A} (t : list (pystr * A)) (k : pystr) : option A :=
  match t with
  | [] => None
  | (k', v) :: r => if pystr_eqb k' k then Some v else table_get r k
  end.

(** ** Value normaliser: [normalize_value] *)

Definition absence_sentinels : list pystr :=
  [[]; u "n/a"; u "na"; u "null"; u "none"].

Section Normalize.
Context {U : Unicode} {R : Repr}.

Definition normalize_str (val : pystr) : option pyfloat :=
  let s := lower (strip val) in
  if bool_decide (s ∈ absence_sentinels) then None
  else float_of_str (strip (rstrip_chars (u "xX%") (remove_char (ch ",") s))).

Definition normalize_value (val : pyval) : result (option pyfloat) :=
  match val with
  | VNone => Ok None
  | VBool b => let* x := float_of_int (if b then 1 else 0) in Ok (Some x)
  | VInt n => let* x := float_of_int n in Ok (Some x)
  | VFloat x => Ok (if feqb x x then Some x else None)
  | VStr s => Ok (normalize_str s)
  | VList _ | VDict _ | VObj _ _ => Ok None
  end.

(** ** Metric canonicaliser *)

Definition CANONICAL_KEYS : list pystr :=
  [u "irr"; u "moic"; u "dpi"; u "tvpi";
   u "current_yield"; u "income_distribution_rate";
   u "gross_annualized_debt_itd_portfolio_yield";
   u "total_distributions"; u "unrealized_value";
   u "closing_date_dec_3_month"; u "yield"; u "ytd_whcm"; u "gmv"].

Definition OTHER_LABEL_TO_CANONICAL : list (pystr * pystr) :=
  [(u "current yield", u "current_yield");
   (u "current_yield", u "current_yield");
   (u "income distribution rate", u "income_distribution_rate");
   (u "income_distribution_rate", u "income_distribution_rate");
   (u "distribution rate", u "income_distribution_rate");
   (u "gross annualized debt itd portfolio yield", u "gross_annualized_debt_itd_portfolio_yield");
   (u "gross_annualized_debt_itd_portfolio_yield", u "gross_annualized_debt_itd_portfolio_yield");
   (u "portfolio yield", u "gross_annualized_debt_itd_portfolio_yield");
   (u "annualized debt portfolio yield", u "gross_annualized_debt_itd_portfolio_yield");
   (u "total distributions", u "total_distributions");
   (u "total_distributions", u "total_distributions");
   (u "unrealized value", u "unrealized_value");
   (u "unrealized_value", u "unrealized_value");
   (u "closing date dec 3 month", u "closing_date_dec_3_month");
   (u "closing_date_dec_3_month", u "closing_date_dec_3_month");
   (u "yield", u "yield");
   (u "ytd whcm", u "ytd_whcm");
   (u "ytd_whcm", u "ytd_whcm");
   (u "ytd whc m", u "ytd_whcm");
   (u "gmv", u "gmv");
   (u "spread", u "yield")].

(** [s.replace(a, b)] for one-character [a] and [b]. *)
Definition replace_char (a b : char) (s : pystr) : pystr :=
  map (fun c => if (c =? a)%N then b else c) s.

Definition canonicalize_label (label : pystr) : pystr :=
  match strip label with
  | [] => []
  | _ =>
    let s := map (fun c => if is_word c || is_space c then c else 32%N) (lower label) in
    strip (str_join (u " ") (split_ws s))
  end.

Definition _normalize_label_for_lookup (label : pystr) : pystr :=
  match canonicalize_label label with
  | [] => []
  | c => replace_char 32%N 95%N c
  end.

Definition canon := gmap pystr (option pyfloat).

Definition all_none : canon :=
  list_to_map (map (fun k => (k, None)) CANONICAL_KEYS).

(** [out.get(k) is None] *)
Definition unset (out : canon) (k : pystr) : bool :=
  match out !! k with
  | Some (Some _) => false
  | _ => true
  end.

Definition core_metric (pred_json : gmap pystr pyval) (new_key old_key : pystr)
  : result (option pyfloat) :=
  normalize_value (py_or (dict_get pred_json new_key) (dict_get pred_json old_key)).

Definition named_fields : list pystr :=
  [u "current_yield"; u "income_distribution_rate";
   u "gross_annualized_debt_itd_portfolio_yield";
   u "total_distributions"; u "unrealized_value";
   u "closing_date_dec_3_month"; u "yield"; u "ytd_whcm"; u "gmv"].

Fixpoint set_named (pred_json : gmap pystr pyval) (keys : list pystr) (out : canon)
  : result canon :=
  match keys with
  | [] => Ok out
  | key :: r =>
    match pred_json !! key with
    | Some v =>
      if is_none v then set_named pred_json r out
      else let* x := normalize_value v in set_named pred_json r (<[key := x]> out)
    | None => set_named pred_json r out
    end
  end.

Definition set_other (pred_json : gmap pystr pyval) (out : canon) : result canon :=
  let ol := dict_get pred_json (u "other_metric_label") in
  let ov := dict_get pred_json (u "other_metric_value") in
  if is_none ol then Ok out
  else
    let* label := py_str ol in
    if bool_decide (strip label ≠ []) && negb (is_none ov) then
      let norm_label := _normalize_label_for_lookup label in
      match table_get OTHER_LABEL_TO_CANONICAL norm_label with
      | Some canonical_key =>
        if unset out canonical_key
        then let* x := normalize_value ov in Ok (<[canonical_key := x]> out)
        else Ok out
      | None =>
        let space_key := replace_char 95%N 32%N norm_label in
        match table_get OTHER_LABEL_TO_CANONICAL space_key with
        | Some canonical_key =>
          if unset out canonical_key
          then let* x := normalize_value ov in Ok (<[canonical_key := x]> out)
          else Ok out
        | None => Ok out
        end
      end
    else Ok out.

Definition normalize_prediction (pred_json : gmap pystr pyval) : result canon :=
  match map_to_list pred_json with
  | [] => Ok all_none
  | _ =>
    let out := all_none in
    let* irr := core_metric pred_json (u "irr") (u "net_irr") in
    let out := <[u "irr" := irr]> out in
    let* moic := core_metric pred_json (u "moic") (u "net_moic") in
    let out := <[u "moic" := moic]> out in
    let* dpi := core_metric pred_json (u "dpi") (u "net_dpi") in
    let out := <[u "dpi" := dpi]> out in
    let* tvpi := core_metric pred_json (u "tvpi") (u "net_tvpi") in
    let out := <[u "tvpi" := tvpi]> out in
    let* out := set_named pred_json named_fields out in
    set_other pred_json out
  end.
End Normalize.

(** ** Unit reconciler: [unit_normalize_pred] *)

Definition f100 : pyfloat := float_of_Z 100.
Definition f1 : pyfloat := float_of_Z 1.

Definition rate_metrics : list pystr :=
  [u "irr"; u "current_yield"; u "income_distribution_rate";
   u "gross_annualized_debt_itd_portfolio_yield";
   u "yield"; u "ytd_whcm"; u "total_distributions"; u "unrealized_value";
   u "closing_date_dec_3_month"].

Section UnitNormalize.
Context {U : Unicode}.

(** [label_hint and ("bp" in label_hint.lower() or "bps" in label_hint.lower())] *)
Definition hint_is_bps (label_hint : option pystr) : bool :=
  match label_hint with
  | None | Some [] => false
  | Some h => contains (u "bp") (lower h) || contains (u "bps") (lower h)
  end.

Definition unit_normalize_pred
    (pred_val gt_val : option pyfloat) (metric_kind : pystr)
    (label_hint : option pystr) : option pyfloat :=
  match pred_val with
  | None => None
  | Some pred_val =>
    let pred_val := if hint_is_bps label_hint then fdiv pred_val f100 else pred_val in
    if negb (bool_decide (metric_kind ∈ rate_metrics)) then Some pred_val
    else
      match gt_val with
      | None => Some pred_val
      | Some gt_val =>
        if fltb f1 (fabs gt_val) && fleb (fabs pred_val) f1
        then Some (fmul pred_val f100)
        else
          if fltb (fabs gt_val) f1 && fltb f1 (fabs pred_val)
             && (let pred_as_fraction := fdiv pred_val f100 in
                 fltb (fabs (fsub gt_val pred_as_fraction))
                      (fabs (fsub gt_val pred_val)))
          then Some (fdiv pred_val f100)
          else Some pred_val
      end
  end.
End UnitNormalize.

(** ** Scorer: [compute_score_from_gt_and_matches] *)

Record score :=
  { irr_in_scope : bool;
    moic_in_scope : bool;
    dpi_in_scope : bool;
    other_in_scope : bool;
    score_denom : Z;
    score_num : Z;
    overall_score : pyval;
    no_metrics_in_scope : bool;
    overall_score_is_na : Z }.

(** [gt.get(k) is not None] *)
Definition present (gt : gmap pystr pyval) (k : pystr) : bool :=
  negb (is_none (dict_get gt k)).

Definition b2z (b : bool) : Z := if b then 1 else 0.

Definition compute_score_from_gt_and_matches
    (gt : gmap pystr pyval) (irr_match moic_match dpi_match other_match : Z)
  : result score :=
  let irr_in_scope := present gt (u "net_irr") in
  let moic_in_scope := present gt (u "net_moic") in
  let dpi_in_scope := present gt (u "net_dpi") in
  let other_in_scope := present gt (u "other_metric_value") in
  let score_denom :=
    b2z irr_in_scope + b2z moic_in_scope + b2z dpi_in_scope + b2z other_in_scope in
  let no_metrics_in_scope := score_denom =? 0 in
  if no_metrics_in_scope then
    Ok {| irr_in_scope := irr_in_scope; moic_in_scope := moic_in_scope;
          dpi_in_scope := dpi_in_scope; other_in_scope := other_in_scope;
          score_denom := 0; score_num := 0; overall_score := VStr [];
          no_metrics_in_scope := true; overall_score_is_na := 1 |}
  else
    let score_num :=
      (if irr_in_scope then irr_match else 0)
      + (if moic_in_scope then moic_match else 0)
      + (if dpi_in_scope then dpi_match else 0)
      + (if other_in_scope then other_match else 0) in
    let* q := int_truediv score_num score_denom in
    let* overall_score := py_round q 4 in
    Ok {| irr_in_scope := irr_in_scope; moic_in_scope := moic_in_scope;
          dpi_in_scope := dpi_in_scope; other_in_scope := other_in_scope;
          score_denom := score_denom; score_num := score_num;
          overall_score := VFloat overall_score;
          no_metrics_in_scope := false; overall_score_is_na := 0 |}.

(** ** Candidate numbers: [_numbers_from_string], [extract_all_performance_numbers] *)

Fixpoint take_while (p : char -> bool) (s : pystr) : pystr * pystr :=
  match s with
  | c :: r => if p c then let '(a, b) := take_while p r in (c :: a, b) else ([], s)
  | [] => ([], [])
  end.

Section Numbers.
Context {U : Unicode} {R : Repr}.

(** Repetitions of [,\d{3}] at the head of [s]. *)
Fixpoint take_groups (fuel : nat) (s : pystr) : pystr * pystr :=
  match fuel, s with
  | S fuel', c0 :: c1 :: c2 :: c3 :: r =>
    if (c0 =? 44)%N && is_digit c1 && is_digit c2 && is_digit c3 then
      let '(a, b) := take_groups fuel' r in (c0 :: c1 :: c2 :: c3 :: a, b)
    else ([], s)
  | _, _ => ([], s)
  end.

(** An optional [\.\d+] at the head of [s]. *)
Definition take_fraction (s : pystr) : pystr * pystr :=
  match s with
  | c :: r =>
    if (c =? 46)%N then
      match take_while is_digit r with
      | ([], _) => ([], s)
      | (ds, t) => (c :: ds, t)
      end
    else ([], s)
  | [] => ([], [])
  end.

(** An optional one of [%], [x], [×] at the head of [s]. *)
Definition take_unit (s : pystr) : pystr * pystr :=
  match s with
  | c :: r => if char_in (u "%x×") c then ([c], r) else ([], s)
  | [] => ([], [])
  end.

(** The text [_RE_NUMERIC_IN_TEXT] matches at the head of [s], if any.
    Every part after the leading digits is optional, so the greedy choice
    is the engine's answer and the second alternative of the pattern is
    never reached. *)
Definition match_numeric (s : pystr) : option pystr :=
  let '(sign, s1) :=
    match s with
    | c :: r => if (c =? 45)%N && match r with d :: _ => is_digit d | [] => false end
                then ([c], r) else ([], s)
    | [] => ([], [])
    end in
  match take_while is_digit s1 with
  | ([], _) => None
  | (ds, s2) =>
    let '(gs, s3) := take_groups (length s2) s2 in
    let '(fr, s4) := take_fraction s3 in
    let '(ws, s5) := take_while is_space s4 in
    let '(un, _) := take_unit s5 in
    Some (sign ++ ds ++ gs ++ fr ++ ws ++ un)
  end.

(** [finditer]: the matches from left to right, the search resuming where
    the previous match ended ([skip] counts the characters still covered
    by it). *)
Fixpoint finditer_numeric (skip : nat) (s : pystr) : list pystr :=
  match s with
  | [] => []
  | _ :: r =>
    match skip with
    | S k => finditer_numeric k r
    | O =>
      match match_numeric s with
      | Some m => m :: finditer_numeric (length m - 1) r
      | None => finditer_numeric 0 r
      end
    end
  end.

Definition number_of_match (m : pystr) : option pyfloat :=
  float_of_str (strip (remove_char (ch ",") (rstrip_chars (u "%x×X") (strip m)))).

Definition _numbers_from_string (s : pystr) : list pyfloat :=
  omap number_of_match (finditer_numeric 0 s).

Definition top_level_keys : list pystr := [u "net_irr"; u "net_moic"; u "net_dpi"].
Definition array_keys : list pystr :=
  [u "investment_performance"; u "key_takeaways"; u "business_updates"].

Fixpoint top_level_numbers (data : gmap pystr pyval) (keys : list pystr)
  : result (list pyfloat) :=
  match keys with
  | [] => Ok []
  | key :: r =>
    let* n := normalize_value (dict_get data key) in
    let* rest := top_level_numbers data r in
    Ok (match n with Some x => x :: rest | None => rest end)
  end.

Definition item_numbers (item : pyval) : result (list pyfloat) :=
  match item with
  | VStr s => Ok (_numbers_from_string s)
  | VBool b => let* x := float_of_int (b2z b) in Ok [x]
  | VInt n => let* x := float_of_int n in Ok [x]
  | VFloat x => Ok (if feqb x x then [x] else [])
  | _ => Ok []
  end.

Fixpoint items_numbers (arr : list pyval) : result (list pyfloat) :=
  match arr with
  | [] => Ok []
  | item :: r =>
    let* a := item_numbers item in
    let* b := items_numbers r in
    Ok (a ++ b)
  end.

Fixpoint array_numbers (data : gmap pystr pyval) (keys : list pystr)
  : result (list pyfloat) :=
  match keys with
  | [] => Ok []
  | key :: r =>
    let* a := match dict_get data key with
              | VList arr => items_numbers arr
              | _ => Ok []
              end in
    let* b := array_numbers data r in
    Ok (a ++ b)
  end.

Definition extract_all_performance_numbers (data : gmap pystr pyval)
  : result (list pyfloat) :=
  match map_to_list data with
  | [] => Ok []
  | _ =>
    let* a := top_level_numbers data top_level_keys in
    let* b := array_numbers data array_keys in
    Ok (a ++ b)
  end.

Definition extract_numbers_from_raw_response (raw_response : pystr) : list pyfloat :=
  _numbers_from_string raw_response.

(** The pool [evaluate_one] scores against:
    [extract_all_performance_numbers(data) + extract_numbers_from_raw_response(raw_response)]. *)
Definition candidate_pool (data : gmap pystr pyval) (raw_response : pystr)
  : result (list pyfloat) :=
  let* numbers := extract_all_performance_numbers data in
  Ok (numbers ++ extract_numbers_from_raw_response raw_response).
End Numbers.

(** ** Document matcher: [_normalize_for_match], [_match_pdf_to_ground_truth] *)

(** A ground-truth dictionary: numbers or [None] under the metric keys, a
    string or [None] under the label key. *)
Definition metrics := gmap pystr pyval.

(** Truth value of a metrics dictionary: false when it has no key. *)
Definition dict_truthy (m : metrics) : bool :=
  match map_to_list m with [] => false | _ => true end.

Section Matcher.
Context {U : Unicode}.

Definition _normalize_for_match (s : pystr) : pystr :=
  let t := strip (map (fun c => if is_alnum c || is_space c then c else 32%N) (lower s)) in
  str_join (u " ") (split_ws t).

(** [gt_lookup.get(pdf_name) or gt_lookup.get(pdf_stem)] *)
Definition exact_lookup (gt_lookup : gmap pystr metrics) (pdf_name pdf_stem : pystr)
  : option metrics :=
  match gt_lookup !! pdf_name with
  | Some m => if dict_truthy m then Some m else
                match gt_lookup !! pdf_stem with
                | Some m' => Some m'
                | None => None
                end
  | None => gt_lookup !! pdf_stem
  end.

(** Rule (2) of the loop body: equality after normalisation. *)
Definition normalized_equal (pdf_name pdf_stem excel_key excel_stem : pystr) : bool :=
  let pdf_name_norm := _normalize_for_match pdf_name in
  let pdf_stem_norm := _normalize_for_match pdf_stem in
  let key_norm := _normalize_for_match excel_key in
  let stem_norm := _normalize_for_match excel_stem in
  (pystr_eqb key_norm pdf_name_norm || pystr_eqb key_norm pdf_stem_norm)
  || (pystr_eqb stem_norm pdf_name_norm || pystr_eqb stem_norm pdf_stem_norm).

(** Rule (3) of the loop body: containment of the lower-cased texts. *)
Definition substring_match (pdf_stem excel_key excel_stem : pystr) : bool :=
  let pdf_lower := lower pdf_stem in
  let key_lower := lower excel_key in
  let stem_lower := lower excel_stem in
  (contains stem_lower pdf_lower || contains pdf_lower stem_lower)
  || (contains key_lower pdf_lower || contains pdf_lower key_lower).

(** Rule (4) of the loop body: every word of at least three characters
    of the normalised key occurs in the normalised stem of the file. *)
Definition word_match (pdf_stem excel_key : pystr) : bool :=
  let pdf_norm := _normalize_for_match pdf_stem in
  let key_norm := _normalize_for_match excel_key in
  let excel_words := filter (fun w => (3 <= length w)%nat) (split_ws key_norm) in
  match excel_words with
  | [] => false
  | _ => forallb (fun w => contains w pdf_norm) excel_words
  end.

Fixpoint match_loop (pdf_name pdf_stem : pystr)
    (gtpdf_values : list (pystr * pystr * metrics)) : option metrics :=
  match gtpdf_values with
  | [] => None
  | (excel_key, excel_stem, m) :: rest =>
    if normalized_equal pdf_name pdf_stem excel_key excel_stem then Some m
    else if (length excel_stem <? 3)%nat then match_loop pdf_name pdf_stem rest
    else if substring_match pdf_stem excel_key excel_stem then Some m
    else if word_match pdf_stem excel_key then Some m
    else match_loop pdf_name pdf_stem rest
  end.

Definition _match_pdf_to_ground_truth (pdf_name pdf_stem : pystr)
    (gt_lookup : gmap pystr metrics)
    (gtpdf_values : list (pystr * pystr * metrics)) : option metrics :=
  match exact_lookup gt_lookup pdf_name pdf_stem with
  | Some gt => Some gt
  | None => match_loop pdf_name pdf_stem gtpdf_values
  end.

(** *** The matcher as the specification words it

    Four rules in one global order of priority, each tried over all the
    aliases in source order before the next rule is considered. *)

Definition first_entry (p : pystr -> pystr -> bool)
    (gtpdf_values : list (pystr * pystr * metrics)) : option metrics :=
  match list_find (fun e : pystr * pystr * metrics => p e.1.1 e.1.2 = true) gtpdf_values with
  | Some (_, (_, _, m)) => Some m
  | None => None
  end.

Definition spec_contained (a b : pystr) : bool :=
  (3 <=? Nat.min (length a) (length b))%nat && (contains a b || contains b a).

Definition spec_substring (pdf_name pdf_stem excel_key excel_stem : pystr) : bool :=
  let cands := [_normalize_for_match pdf_name; _normalize_for_match pdf_stem] in
  let aliases := [_normalize_for_match excel_key; _normalize_for_match excel_stem] in
  existsb (fun c => existsb (fun a => spec_contained a c) aliases) cands.

Definition spec_tokens (pdf_stem alias : pystr) : bool :=
  let cand_tokens := split_ws (_normalize_for_match pdf_stem) in
  let toks := filter (fun w => (3 <= length w)%nat) (split_ws (_normalize_for_match alias)) in
  match toks with
  | [] => false
  | _ => forallb (fun w => bool_decide (w ∈ cand_tokens)) toks
  end.

Definition spec_match (pdf_name pdf_stem : pystr)
    (gt_lookup : gmap pystr metrics)
    (gtpdf_values : list (pystr * pystr * metrics)) : option metrics :=
  match gt_lookup !! pdf_name, gt_lookup !! pdf_stem with
  | Some m, _ => Some m
  | None, Some m => Some m
  | None, None =>
    match first_entry (normalized_equal pdf_name pdf_stem) gtpdf_values with
    | Some m => Some m
    | None =>
      match first_entry (spec_substring pdf_name pdf_stem) gtpdf_values with
      | Some m => Some m
      | None =>
        first_entry (fun k s => spec_tokens pdf_stem k || spec_tokens pdf_stem s)
                    gtpdf_values
      end
    end
  end.
End Matcher.

(** ** Structured-response extractor *)

(** What [json.loads] does with a text: it returns the parsed value, or
    raises [JSONDecodeError] with a message, or raises another exception
    (a plain [ValueError] on an integer literal beyond the interpreter's
    digit limit, [RecursionError] on nesting too deep for its stack). *)
Inductive json_outcome :=
| JValue (v : pyval)
| JDecodeError (msg : pystr)
| JRaise (e : exn).

Class Json := { json_loads : pystr -> json_outcome }.

Definition type_name (v : pyval) : pystr :=
  match v with
  | VNone => u "NoneType"
  | VBool _ => u "bool"
  | VInt _ => u "int"
  | VFloat _ => u "float"
  | VStr _ => u "str"
  | VList _ => u "list"
  | VDict _ => u "dict"
  | VObj _ _ => u "object"
  end.

(** [text.find(p, start)] *)
Definition find_at (p s : pystr) (start : nat) : option nat :=
  if (length s <? start)%nat then None
  else match str_find p (drop start s) with
       | Some i => Some (start + i)%nat
       | None => None
       end.

(** [text[a:b]] for [0 <= a] and [0 <= b] *)
Definition slice (s : pystr) (a b : nat) : pystr := take (b - a) (drop a s).

Definition is_hex (c : char) : bool :=
  in_range 48 57 c || in_range 97 102 c || in_range 65 70 c.

(** The lookahead of [_repair_invalid_escapes]: what may follow a backslash. *)
Definition valid_escape (t : pystr) : bool :=
  match t with
  | c :: r =>
    char_in [34; 92; 47; 98; 102; 110; 114; 116]%N c
    || ((c =? 117)%N
        && match r with
           | h1 :: h2 :: h3 :: h4 :: _ => is_hex h1 && is_hex h2 && is_hex h3 && is_hex h4
           | _ => false
           end)
  | [] => false
  end.

Fixpoint _repair_invalid_escapes (snippet : pystr) : pystr :=
  match snippet with
  | [] => []
  | b :: t =>
    if (b =? 92)%N then
      match t with
      | c :: r =>
        if negb (valid_escape t) && negb (c =? 10)%N then c :: _repair_invalid_escapes r
        else b :: _repair_invalid_escapes t
      | [] => [b]
      end
    else b :: _repair_invalid_escapes t
  end.

(** [re.sub(r",\s*X", "X", s)] for a closing bracket [X]. *)
Fixpoint drop_trailing_commas (close : char) (skip : nat) (s : pystr) : pystr :=
  match s with
  | [] => []
  | c :: r =>
    match skip with
    | S k => drop_trailing_commas close k r
    | O =>
      if (c =? 44)%N then
        let '(ws, t) := take_while is_space r in
        match t with
        | d :: _ =>
          if (d =? close)%N then close :: drop_trailing_commas close (S (length ws)) r
          else c :: drop_trailing_commas close 0 r
        | [] => c :: drop_trailing_commas close 0 r
        end
      else c :: drop_trailing_commas close 0 r
    end
  end.

Definition fix_trailing_commas (snippet : pystr) : pystr :=
  drop_trailing_commas 93%N 0 (drop_trailing_commas 125%N 0 snippet).

(** The brace scan of [_extract_first_json_object], from the first brace on:
    [acc] holds the text read so far, reversed. *)
Fixpoint scan_braces (depth : nat) (acc : pystr) (s : pystr) : option pystr :=
  match s with
  | [] => None
  | c :: r =>
    if (c =? 123)%N then scan_braces (S depth) (c :: acc) r
    else if (c =? 125)%N then
      match depth with
      | 1%nat => Some (rev (c :: acc))
      | _ => scan_braces (depth - 1) (c :: acc) r
      end
    else scan_braces depth (c :: acc) r
  end.

Section Extractor.
Context {U : Unicode} {R : Repr} {J : Json}.

Definition junk_lines : list pystr :=
  [u "[json]"; u "json"; u "json:"; u "here is the json:"; u "here is the data:"].

(** The [while] loop of [_strip_json_prefixed_junk]; [None] when [fuel]
    does not suffice. *)
Fixpoint junk_loop (fuel : nat) (lines : list pystr) : option (list pystr) :=
  match fuel with
  | O => None
  | S fuel' =>
    match lines with
    | [] => Some []
    | l0 :: rest =>
      let line := lower (strip l0) in
      if bool_decide (line = []) || bool_decide (line ∈ junk_lines) then junk_loop fuel' rest
      else if starts_with (u "json:") line || starts_with (u "```json") line then
        match str_find (u "json") line with
        | Some i =>
          let l0' := strip (drop (i + 4) (strip l0)) in
          match l0' with
          | [] => junk_loop fuel' rest
          | _ => junk_loop fuel' (l0' :: rest)
          end
        | None => Some lines (* not reached: [line] starts with one of the two *)
        end
      else Some lines
    end
  end.

(** A bound on the number of iterations of the loop. *)
Definition junk_bound (lines : list pystr) : nat :=
  S (length lines + length (concat lines)).

Definition _strip_json_prefixed_junk (text : pystr) : pystr :=
  match text with
  | [] => text
  | _ =>
    let lines := split_lines text in
    match junk_loop (junk_bound lines) lines with
    | Some lines' => strip (str_join [10%N] lines')
    | None => text
    end
  end.

Definition fence : pystr := [96; 96; 96]%N.

Definition unfence (text : pystr) : pystr :=
  match str_find (u "```json") (lower text) with
  | Some i =>
    let start := (i + 7)%nat in
    let stop := default (length text) (find_at fence text start) in
    strip (slice text start stop)
  | None =>
    match str_find fence text with
    | Some i =>
      let start := (i + 3)%nat in
      let stop := default (length text) (find_at fence text start) in
      strip (slice text start stop)
    | None => text
    end
  end.

Definition _extract_first_json_object (text : pystr) : option pystr :=
  let text := strip text in
  let text := unfence text in
  let text := _strip_json_prefixed_junk text in
  match str_find [123%N] text with
  | None => None
  | Some start => scan_braces 0 [] (drop start text)
  end.

(** Only [JSONDecodeError] (and [TypeError], which a string argument never
    gives) is caught; any other exception of [json.loads] goes through. *)
Definition _try_parse_json (snippet : pystr)
  : result (option (gmap pystr pyval) * option pystr) :=
  match json_loads snippet with
  | JValue (VDict d) => Ok (Some d, None)
  | JValue v => Ok (None, Some (u "Parsed value is not a dict: " ++ type_name v))
  | JDecodeError e => Ok (None, Some e)
  | JRaise e => Raise e
  end.

(** The number alternative [-?\d+\.?\d*] at the head of [s]. *)
Definition match_partial_number (s : pystr) : option pystr :=
  let '(sign, s1) :=
    match s with
    | c :: r => if (c =? 45)%N then ([c], r) else ([], s)
    | [] => ([], [])
    end in
  match take_while is_digit s1 with
  | ([], _) => None
  | (ds, s2) =>
    match s2 with
    | c :: r =>
      if (c =? 46)%N then Some (sign ++ ds ++ [c] ++ (take_while is_digit r).1)
      else Some (sign ++ ds)
    | [] => Some (sign ++ ds)
    end
  end.

(** The pattern ["key"\s*:\s*(-?\d+\.?\d*|null)] at the head of [s]:
    the text of the group.  No digit being white space, the engine has
    nothing to give back from the greedy [\s*]. *)
Definition match_partial_at (key : pystr) (s : pystr) : option pystr :=
  let quoted := [34%N] ++ key ++ [34%N] in
  if starts_with quoted s then
    let s1 := (take_while is_space (drop (length quoted) s)).2 in
    match s1 with
    | c :: s2 =>
      if (c =? 58)%N then
        let s3 := (take_while is_space s2).2 in
        match match_partial_number s3 with
        | Some n => Some n
        | None => if starts_with (u "null") s3 then Some (u "null") else None
        end
      else None
    | [] => None
    end
  else None.

(** [re.search]: the group of the leftmost match. *)
Fixpoint search_partial (key : pystr) (s : pystr) : option pystr :=
  match match_partial_at key s with
  | Some g => Some g
  | None =>
    match s with
    | [] => None
    | _ :: r => search_partial key r
    end
  end.

Definition partial_keys : list pystr := [u "net_irr"; u "net_moic"; u "net_dpi"].

Fixpoint partial_fill (keys : list pystr) (raw : pystr) (out : gmap pystr pyval)
  : gmap pystr pyval :=
  match keys with
  | [] => out
  | key :: r =>
    let out' :=
      match search_partial key raw with
      | Some val =>
        if pystr_eqb val (u "null") then <[key := VNone]> out
        else match float_of_str val with
             | Some x => <[key := VFloat x]> out
             | None => out
             end
      | None => out
      end in
    partial_fill r raw out'
  end.

Definition _extract_partial_json (raw : pystr) : gmap pystr pyval :=
  partial_fill partial_keys raw ∅.

Definition truncated_error : pystr := u "Truncated JSON; extracted partial metrics".
Definition no_object_error : pystr := u "No JSON object found in response".

(** [err and ("escape" in err.lower() or "Invalid" in err)] *)
Definition is_escape_error (err : option pystr) : bool :=
  match err with
  | None | Some [] => false
  | Some e => contains (u "escape") (lower e) || contains (u "Invalid") e
  end.

Definition extract_json_from_response (content : pystr)
  : result (gmap pystr pyval * option pystr) :=
  let raw := strip content in
  match _extract_first_json_object raw with
  | None | Some [] =>
    let partial := _extract_partial_json raw in
    match map_to_list partial with
    | _ :: _ => Ok (partial, Some truncated_error)
    | [] => Ok (∅, Some no_object_error)
    end
  | Some snippet =>
    let* first := _try_parse_json snippet in
    match first with
    | (Some data, _) => Ok (data, None)
    | (None, err) =>
      let* repaired :=
        if is_escape_error err
        then let* r := _try_parse_json (_repair_invalid_escapes snippet) in Ok r.1
        else Ok None in
      match repaired with
      | Some data => Ok (data, None)
      | None =>
        let fixed := fix_trailing_commas snippet in
        let* second := _try_parse_json fixed in
        match second with
        | (Some data, _) => Ok (data, None)
        | (None, _) =>
          let* fixed_repaired :=
            if is_escape_error err
            then let* r := _try_parse_json (_repair_invalid_escapes fixed) in Ok r.1
            else Ok None in
          match fixed_repaired with
          | Some data => Ok (data, None)
          | None => Ok (∅, err)
          end
        end
      end
    end
  end.
End Extractor.

(** ** Ground-truth loader: layout detection of [load_ground_truth_from_excel] *)

Record sheet := { title : pystr; sheet_rows : list (list pyval) }.

Definition gt_dict := metrics.

Definition gt_tables : Type :=
  gmap pystr gt_dict * list (pystr * pystr * gt_dict) * list gt_dict.

(** The parsers of the layouts whose document names go through
    [pathlib]: one tab per document, the standard table, the transposed
    table.  The detection below does not depend on what they return. *)
Class LayoutParsers := {
  parse_tabs : list sheet -> result gt_tables;
  parse_standard : list pystr -> nat -> list (list pyval) -> result gt_tables;
  _parse_transposed_ground_truth : list (list pyval) -> result gt_tables
}.

(** [a and b] and [a or b] on tests that may raise: [b] is evaluated only
    when [a] does not decide. *)
Definition and_then (a b : result bool) : result bool :=
  let* x := a in if x then b else Ok false.

Definition or_else (a b : result bool) : result bool :=
  let* x := a in if x then Ok true else b.

Section Loader.
Context {U : Unicode} {R : Repr} {P : LayoutParsers}.

Definition _cell_looks_like_metric_label (cell : pyval) : result bool :=
  match cell with
  | VNone => Ok false
  | _ =>
    let* text := py_str cell in
    let s := upper (strip text) in
    match s with
    | [] => Ok false
    | _ => Ok (contains (u "MOIC") s || contains (u "TVPI") s
               || contains (u "IRR") s || contains (u "DPI") s)
    end
  end.

Definition _cell_looks_like_value (cell : pyval) : result bool :=
  match cell with
  | VNone => Ok false
  | VBool _ | VInt _ | VFloat _ => Ok true
  | _ =>
    let* text := py_str cell in
    let s := strip text in
    if bool_decide (s = []) || bool_decide (lower s ∈ absence_sentinels) then Ok false
    else
      match float_of_str
              (strip (remove_char (ch "x") (remove_char (ch "%") (remove_char (ch ",") s)))) with
      | Some _ => Ok true
      | None => Ok false
      end
  end.

Definition _value_in_row (row : list pyval) : result bool :=
  match row with
  | [] => Ok false
  | c0 :: r =>
    or_else (_cell_looks_like_value c0)
            (match r with c1 :: _ => _cell_looks_like_value c1 | [] => Ok false end)
  end.

Fixpoint _value_cells_in_row (row : list pyval) : result nat :=
  match row with
  | [] => Ok 0%nat
  | c :: r =>
    let* b := _cell_looks_like_value c in
    let* n := _value_cells_in_row r in
    Ok (if b then S n else n)
  end.

(** [rows[i][0] if rows[i] else None], [None] also when there is no row [i]. *)
Definition first_cell (rows : list (list pyval)) (i : nat) : pyval :=
  match rows !! i with
  | Some (c :: _) => c
  | _ => VNone
  end.

Definition row_at (rows : list (list pyval)) (i : nat) : list pyval :=
  default [] (rows !! i).

(** [[str(c).strip().lower() if c is not None else "" for c in row0]] *)
Fixpoint header_of (row0 : list pyval) : result (list pystr) :=
  match row0 with
  | [] => Ok []
  | c :: r =>
    let* h := match c with
              | VNone => Ok []
              | _ => let* text := py_str c in Ok (lower (strip text))
              end in
    let* hs := header_of r in
    Ok (h :: hs)
  end.

Definition id_cols : list pystr :=
  [u "pdf"; u "filename"; u "pdf_filename"; u "test_case_id"; u "name"; u "gtpdf"].

(** [header.index(name)] *)
Fixpoint index_of (name : pystr) (header : list pystr) : option nat :=
  match header with
  | [] => None
  | h :: r => if pystr_eqb h name then Some 0%nat else option_map S (index_of name r)
  end.

Fixpoint find_id_col (names : list pystr) (header : list pystr) : option nat :=
  match names with
  | [] => None
  | id_name :: r =>
    match index_of id_name header with
    | Some i => Some i
    | None => find_id_col r header
    end
  end.

Definition n_cols (rows : list (list pyval)) : nat :=
  foldr (fun r acc => Nat.max (length r) acc) 0%nat rows.

(** The three tests made on the first rows when there is no identifier
    column, in the order the loader makes them. *)
Definition reads_label_then_value (rows : list (list pyval)) : result bool :=
  and_then (_cell_looks_like_metric_label (first_cell rows 0))
    (if (1 <? length rows)%nat then _value_in_row (row_at rows 1) else Ok false).

Definition reads_header_label_value (rows : list (list pyval)) : result bool :=
  and_then (_cell_looks_like_metric_label (first_cell rows 1))
    (if (2 <? length rows)%nat then _value_in_row (row_at rows 2) else Ok false).

Definition reads_label_column (rows : list (list pyval)) : result bool :=
  and_then (_cell_looks_like_metric_label (first_cell rows 1))
    (Ok (2 <? n_cols rows)%nat).

Definition layout_message : pystr :=
  u "Excel must have a GTPDF (or pdf/filename) column for document names, or use label-value layout. Found header: ".

Definition layout_error (header : list pystr) : exn :=
  ValueError (layout_message ++ repr_str_list header).

Definition empty_gt_dict : gt_dict :=
  <[u "net_irr" := VNone]> (<[u "net_moic" := VNone]> (<[u "net_dpi" := VNone]>
    (<[u "other_metric_label" := VNone]> (<[u "other_metric_value" := VNone]> ∅)))).

Definition number_value (val : option pyfloat) : pyval :=
  match val with Some x => VFloat x | None => VNone end.

(** The value cell of a pair of rows: the second cell of the value row
    when it is there and not [None], else its first cell. *)
Definition value_cell_of (value_row : list pyval) : pyval :=
  match value_row with
  | [] => VNone
  | c0 :: r =>
    match r with
    | c1 :: _ => if is_none c1 then c0 else c1
    | [] => c0
    end
  end.

(** The dictionary of one pair of rows of the alternating layout. *)
Definition pair_metrics (label_row value_row : list pyval) : result gt_dict :=
  let label_cell := match label_row with c :: _ => c | [] => VNone end in
  let value_cell := value_cell_of value_row in
  let* val := normalize_value value_cell in
  let metrics := empty_gt_dict in
  let* label_str := if truthy label_cell
                    then let* text := py_str label_cell in Ok (strip text)
                    else Ok [] in
  let label_upper := upper label_str in
  let* is_label := match label_str with
                   | [] => Ok false
                   | _ => _cell_looks_like_metric_label label_cell
                   end in
  if is_label then
    if contains (u "IRR") label_upper && negb (contains (u "MOIC") label_upper)
       && negb (contains (u "TVPI") label_upper)
    then Ok (<[u "net_irr" := number_value val]> metrics)
    else if contains (u "MOIC") label_upper || contains (u "TVPI") label_upper
    then Ok (<[u "net_moic" := number_value val]> metrics)
    else if contains (u "DPI") label_upper
    then Ok (<[u "net_dpi" := number_value val]> metrics)
    else Ok (<[u "other_metric_value" := number_value val]>
               (<[u "other_metric_label" := VStr label_str]> metrics))
  else
    match label_str, val with
    | [], None => Ok metrics
    | _, _ =>
      Ok (<[u "other_metric_value" := number_value val]>
            (<[u "other_metric_label" :=
                 match label_str with [] => VNone | _ => VStr label_str end]> metrics))
    end.

(** The loop [for i in range(0, len(rows) - 1, 2)]: one dictionary for
    each pair of rows whose label row is not empty. *)
Fixpoint pairs_metrics (rows : list (list pyval)) : result (list gt_dict) :=
  match rows with
  | label_row :: value_row :: rest =>
    match label_row with
    | [] => pairs_metrics rest
    | _ =>
      let* m := pair_metrics label_row value_row in
      let* ms := pairs_metrics rest in
      Ok (m :: ms)
    end
  | _ => Ok []
  end.

Definition _parse_alternating_label_value_ground_truth (rows : list (list pyval))
  : result gt_tables :=
  match rows with
  | [] => Ok (∅, [], [])
  | _ =>
    let* is_label := _cell_looks_like_metric_label (first_cell rows 0) in
    let rows := if is_label then rows else drop 1 rows in
    let* ordered_metrics := pairs_metrics rows in
    Ok (∅, map (fun m => ([], [], m)) ordered_metrics, ordered_metrics)
  end.

(** The single-sheet part of the loader, on the rows of the active sheet. *)
Definition load_single_sheet (rows : list (list pyval)) : result gt_tables :=
  match rows with
  | [] => Ok (∅, [], [])
  | row0 :: _ =>
    let* header := header_of row0 in
    match find_id_col id_cols header with
    | Some id_col => parse_standard header id_col rows
    | None =>
      let* alternating := reads_label_then_value rows in
      if alternating then _parse_alternating_label_value_ground_truth rows
      else
        let* labelled := reads_header_label_value rows in
        if labelled then
          let* n := _value_cells_in_row (row_at rows 2) in
          if (2 <=? n)%nat
          then _parse_transposed_ground_truth rows
          else _parse_alternating_label_value_ground_truth rows
        else
          let* transposed := reads_label_column rows in
          if transposed then _parse_transposed_ground_truth rows
          else Raise (layout_error header)
    end
  end.

(** [load_ground_truth_from_excel] on the sheets of an opened workbook.
    The active sheet of a one-sheet workbook is that sheet; a workbook
    without any sheet has no active sheet to iterate over. *)
Definition load_ground_truth_from_excel (sheets : list sheet) : result gt_tables :=
  match sheets with
  | [] => Raise AttributeError
  | [ws] => load_single_sheet (sheet_rows ws)
  | _ => parse_tabs sheets
  end.
End Loader.


(** ** Further functions of the harness *)

(** [values_match]: both absent, or both numbers within the tolerance. *)
Definition values_match (gt pred : option pyfloat) (tolerance : pyfloat) : bool :=
  match gt, pred with
  | None, None => true
  | None, Some _ | Some _, None => false
  | Some g, Some p => fleb (fabs (fsub g p)) tolerance
  end.

(** [gt_value_appears_in_set] *)
Fixpoint value_in_numbers (g : pyfloat) (numbers : list pyfloat) (tolerance : pyfloat)
    (allow_scale_flex : bool) : bool :=
  match numbers with
  | [] => false
  | n :: rest =>
    if values_match (Some g) (Some n) tolerance then true
    else if allow_scale_flex
            && (values_match (Some g) (Some (fmul n f100)) tolerance
                || values_match (Some g) (Some (fdiv n f100)) tolerance)
    then true
    else value_in_numbers g rest tolerance allow_scale_flex
  end.

Definition gt_value_appears_in_set (gt_val : option pyfloat) (numbers : list pyfloat)
    (tolerance : pyfloat) (allow_scale_flex : bool) : bool :=
  match gt_val with
  | None => true
  | Some g => value_in_numbers g numbers tolerance allow_scale_flex
  end.

(** The match flag [evaluate_one] computes for one metric:
    [1 if gt is None else (1 if gt_value_appears_in_set(...) else 0)]. *)
Definition match_flag (gt_val : option pyfloat) (numbers : list pyfloat)
    (tolerance : pyfloat) (allow_scale_flex : bool) : Z :=
  match gt_val with
  | None => 1
  | Some _ => if gt_value_appears_in_set gt_val numbers tolerance allow_scale_flex then 1 else 0
  end.

Section Further.
Context {U : Unicode} {R : Repr}.

(** The canonical key of a label: the table is tried with the label joined
    by underscores, then with the underscores turned back into blanks. *)
Definition label_key (label : pystr) : option pystr :=
  let norm := _normalize_label_for_lookup label in
  match table_get OTHER_LABEL_TO_CANONICAL norm with
  | Some key => Some key
  | None => table_get OTHER_LABEL_TO_CANONICAL (replace_char 95%N 32%N norm)
  end.

(** [resolve_other_pred_from_canon] *)
Definition resolve_other_pred_from_canon (canon : gmap pystr (option pyfloat))
    (gt_other_label : option pystr) : option pyfloat :=
  match gt_other_label with
  | None => None
  | Some label =>
    match strip label with
    | [] => None
    | _ =>
      match label_key label with
      | Some key => default None (canon !! key)
      | None => None
      end
    end
  end.

(** The kind and the label hint [evaluate_one] passes to the unit
    reconciler for the other metric: the kind is the canonical key of the
    ground-truth label, ["yield"] when the label has none. *)
Definition other_label_text (ol : pyval) : result pystr :=
  if truthy ol then py_str ol else Ok [].

Definition other_metric_kind (ol : pyval) : result pystr :=
  if truthy ol then
    let* text := py_str ol in
    let norm := _normalize_label_for_lookup text in
    match table_get OTHER_LABEL_TO_CANONICAL norm with
    | Some (c :: key) => Ok (c :: key)
    | _ =>
      match table_get OTHER_LABEL_TO_CANONICAL
              (replace_char 32%N 95%N (canonicalize_label text)) with
      | Some (c :: key) => Ok (c :: key)
      | _ => Ok (u "yield")
      end
    end
  else Ok (u "yield").

(** [re.sub(r"\s+", "_", s)]: every run of whitespace becomes one underscore. *)
Fixpoint underscore_runs (in_run : bool) (s : pystr) : pystr :=
  match s with
  | [] => []
  | c :: r =>
    if is_space c then
      if in_run then underscore_runs true r else 95%N :: underscore_runs true r
    else c :: underscore_runs false r
  end.

Definition is_underscore (c : char) : bool := (c =? 95)%N.

(** [_sanitize_metric_column_name] *)
Definition _sanitize_metric_column_name (label : pystr) : pystr :=
  match strip label with
  | [] => u "other"
  | _ =>
    let s := filter (fun c => is_word c || is_space c = true) (lower label) in
    let s := rstrip_by is_underscore (lstrip_by is_underscore (underscore_runs false s)) in
    match s with
    | [] => u "other"
    | _ => s
    end
  end.

Definition _PROJECTED_DOC_KEYWORDS : list pystr :=
  [u "estimate"; u "projection"; u "forecast"].

(** [_is_projected_document] *)
Definition _is_projected_document (pdf_text test_case_id : pystr) : bool :=
  let combined := lower pdf_text ++ [32%N] ++ lower test_case_id in
  existsb (fun kw => contains kw combined) _PROJECTED_DOC_KEYWORDS.
End Further.

(** ** Ground truth from JSON: [_metrics_dict_from_json_metrics] *)

(** The dictionary the function fills: its five keys are fixed. *)
Record json_metrics :=
  { net_irr : option pyfloat;
    net_moic : option pyfloat;
    net_dpi : option pyfloat;
    other_metric_label : option pystr;
    other_metric_value : option pyfloat }.

Definition empty_json_metrics : json_metrics :=
  {| net_irr := None; net_moic := None; net_dpi := None;
     other_metric_label := None; other_metric_value := None |}.

(** [s.endswith(p)] *)
Definition ends_with (p s : pystr) : bool := starts_with (rev p) (rev s).

Definition f2 : pyfloat := float_of_Z 2.
Definition fzero : pyfloat := float_of_Z 0.

Definition id_keys : list pystr := [u "GTPDF"; u "gtpdf"; u "pdf"; u "filename"].

Section JsonMetrics.
Context {U : Unicode}.

(** [num]: a string loses its unit marker, then [normalize_value]. *)
Definition metric_number (val : pyval) : result (option pyfloat) :=
  let v := match val with
           | VStr s => VStr (strip (rstrip_chars (u "xX%") (strip s)))
           | _ => val
           end in
  normalize_value v.

(** A non-zero rate of magnitude 2 at most is read as a fraction and turned
    into a percentage. *)
Definition irr_number (num : option pyfloat) : result (option pyfloat) :=
  match num with
  | Some n =>
    if fleb (fabs n) f2 && negb (feqb n fzero)
    then let* r := py_round (fmul n f100) 2 in Ok (Some r)
    else Ok num
  | None => Ok None
  end.

(** The tests of the [if]/[elif] chain on the upper-cased key. *)
Definition names_irr (key_upper : pystr) : bool :=
  (contains (u "IRR") key_upper || ends_with (u " IR") (strip key_upper))
  && negb (contains (u "MOIC") key_upper) && negb (contains (u "TVPI") key_upper).

Definition names_moic (key_upper : pystr) : bool :=
  contains (u "MOIC") key_upper || contains (u "TVPI") key_upper.

Definition names_dpi (key_upper : pystr) : bool := contains (u "DPI") key_upper.

(** One turn of the loop over the items of [raw]. *)
Definition metrics_step (out : json_metrics) (item : pystr * pyval)
  : result json_metrics :=
  let '(key, val) := item in
  if bool_decide (key ∈ id_keys) then Ok out
  else
    let key_upper := upper (strip key) in
    match val with
    | VNone => Ok out
    | _ =>
      let* num := metric_number val in
      if names_irr key_upper then
        let* num := irr_number num in
        Ok {| net_irr := num; net_moic := net_moic out; net_dpi := net_dpi out;
              other_metric_label := other_metric_label out;
              other_metric_value := other_metric_value out |}
      else if names_moic key_upper then
        Ok {| net_irr := net_irr out; net_moic := num; net_dpi := net_dpi out;
              other_metric_label := other_metric_label out;
              other_metric_value := other_metric_value out |}
      else if names_dpi key_upper then
        Ok {| net_irr := net_irr out; net_moic := net_moic out; net_dpi := num;
              other_metric_label := other_metric_label out;
              other_metric_value := other_metric_value out |}
      else
        match other_metric_value out, other_metric_label out with
        | None, None =>
          Ok {| net_irr := net_irr out; net_moic := net_moic out; net_dpi := net_dpi out;
                other_metric_label := Some (strip key);
                other_metric_value := num |}
        | _, _ => Ok out
        end
    end.

Fixpoint metrics_loop (out : json_metrics) (items : list (pystr * pyval))
  : result json_metrics :=
  match items with
  | [] => Ok out
  | item :: rest => let* out := metrics_step out item in metrics_loop out rest
  end.

(** [raw] is the JSON object with its items in the order of the file. *)
Definition _metrics_dict_from_json_metrics (raw : list (pystr * pyval))
  : result json_metrics :=
  metrics_loop empty_json_metrics raw.
End JsonMetrics.

(** ** Vocabulary of the properties *)

(** Every expected value of the ground truth is absent. *)
Definition no_expected (gt : gmap pystr pyval) : Prop :=
  dict_get gt (u "net_irr") = VNone /\ dict_get gt (u "net_moic") = VNone
  /\ dict_get gt (u "net_dpi") = VNone /\ dict_get gt (u "other_metric_value") = VNone.

(** Number of metrics in scope, and number of those that matched. *)
Definition scope_count (gt : gmap pystr pyval) : Z :=
  b2z (present gt (u "net_irr")) + b2z (present gt (u "net_moic"))
  + b2z (present gt (u "net_dpi")) + b2z (present gt (u "other_metric_value")).

Definition match_count (gt : gmap pystr pyval) (i m d o : Z) : Z :=
  (if present gt (u "net_irr") then i else 0)
  + (if present gt (u "net_moic") then m else 0)
  + (if present gt (u "net_dpi") then d else 0)
  + (if present gt (u "other_metric_value") then o else 0).

Definition is_flag (z : Z) : Prop := z = 0 \/ z = 1.

(** Ground truth of a document whose only expected value is a fund-specific
    figure, and of a document with no expected value at all. *)
Definition minus_0_045 : pyfloat := float_of_ratio true 45 1000.

Definition gt_other_only : gmap pystr pyval :=
  <[u "net_irr" := VNone]> (<[u "net_moic" := VNone]> (<[u "net_dpi" := VNone]>
  (<[u "other_metric_label" := VStr (u "YTD WHCM")]>
  (<[u "other_metric_value" := VFloat minus_0_045]> ∅)))).

Definition gt_nothing : gmap pystr pyval :=
  <[u "net_irr" := VNone]> (<[u "net_moic" := VNone]> (<[u "net_dpi" := VNone]>
  (<[u "other_metric_label" := VNone]> (<[u "other_metric_value" := VNone]> ∅)))).

(** Some doubles by name. *)
Definition f150 : pyfloat := float_of_Z 150.
Definition f1_5 : pyfloat := float_of_ratio false 15 10.
Definition f1_2 : pyfloat := float_of_ratio false 12 10.
Definition f0 : pyfloat := S754_zero false.

(** A prediction that reports no distribution yet under the new key and
    a stale figure under the old one. *)
Definition pred_zero_dpi : gmap pystr pyval :=
  <[u "dpi" := VFloat f0]> (<[u "net_dpi" := VFloat f1_5]> ∅).

Definition is_multiple (metric_kind : pystr) : Prop :=
  metric_kind = u "moic" \/ metric_kind = u "dpi" \/ metric_kind = u "tvpi".

(** An interpreter that prints every float and every container alike.  The
    statements made at one concrete input below involve string labels only
    and never consult it. *)
Definition const_repr : Repr :=
  {| float_repr := fun _ => u "<float>";
     container_repr := fun _ => Ok (u "<value>") |}.

(** The keys of a canonical dictionary are those of the vocabulary. *)
Definition has_canonical_keys (out : gmap pystr (option pyfloat)) : Prop :=
  forall k, is_Some (out !! k) <-> k ∈ CANONICAL_KEYS.


(** The call returns, and what it returns satisfies [P]. *)
Definition returns {A} (r : result A) (P : A -> Prop) : Prop :=
  match r with
  | Ok a => P a
  | Raise _ => False
  end.

(** A result that, if it is an exception, is [OverflowError]. *)
Definition only_overflow {A} (r : result A) : Prop :=
  forall e, r = Raise e -> e = OverflowError.



(** *** Candidate pool *)

(** The number an element of a free-text array contributes: the numbers
    scanned from a string, a number that is not NaN itself. *)
Definition item_number `{U : Unicode} (item : pyval) (x : pyfloat) : Prop :=
  match item with
  | VStr s => x ∈ _numbers_from_string s
  | VFloat y => y = x /\ is_nan y = false
  | VInt n => float_of_int n = Ok x
  | VBool b => float_of_int (b2z b) = Ok x
  | _ => False
  end.

(** The pool as the specification words it: every numeric field at the top
    level, every number found in a string of any array field, every number
    found in the raw text. *)
Definition in_spec_pool `{U : Unicode}
    (data : gmap pystr pyval) (raw : pystr) (x : pyfloat) : Prop :=
  (exists k, data !! k = Some (VFloat x) /\ is_nan x = false)
  \/ (exists k n, data !! k = Some (VInt n) /\ float_of_int n = Ok x)
  \/ (exists k arr s, data !! k = Some (VList arr) /\ VStr s ∈ arr
        /\ x ∈ _numbers_from_string s)
  \/ x ∈ _numbers_from_string raw.

(** The pool as the code builds it. *)
Definition in_code_pool `{U : Unicode}
    (data : gmap pystr pyval) (raw : pystr) (x : pyfloat) : Prop :=
  (exists k, k ∈ top_level_keys /\ normalize_value (dict_get data k) = Ok (Some x))
  \/ (exists k arr item, k ∈ array_keys /\ dict_get data k = VList arr
        /\ item ∈ arr /\ item_number item x)
  \/ x ∈ _numbers_from_string raw.

(** Every integer the pool converts is within the range of doubles. *)
Definition pool_ints_in_float_range (data : gmap pystr pyval) : Prop :=
  (forall k n, data !! k = Some (VInt n) -> is_finite (float_of_Z n) = true)
  /\ (forall k arr n, data !! k = Some (VList arr) -> VInt n ∈ arr ->
        is_finite (float_of_Z n) = true).

(** A response whose only metric is written with an exponent, and its parse. *)
Definition f10 : pyfloat := float_of_Z 10.
Definition raw_exponent : pystr := [123; 34; 105; 114; 114; 34; 58; 32; 49; 101; 49; 125]%N.
Definition data_exponent : gmap pystr pyval := <[u "irr" := VFloat f10]> ∅.

(** *** Document matcher *)

(** Two ground-truth entries: the words of the first all occur in the name
    of the file, the second is the name of the file up to case. *)
Definition metrics_alpha : metrics := <[u "net_irr" := VFloat f1]> ∅.
Definition metrics_alpha_q3 : metrics := <[u "net_irr" := VFloat f10]> ∅.

Definition two_entries : list (pystr * pystr * metrics) :=
  [(u "Alpha Fund", u "Alpha Fund", metrics_alpha);
   (u "Fund Alpha Q3", u "Fund Alpha Q3", metrics_alpha_q3)].

Definition two_lookup : gmap pystr metrics :=
  <[u "Alpha Fund" := metrics_alpha]> (<[u "Fund Alpha Q3" := metrics_alpha_q3]> ∅).

(** *** Extractor *)



(** Number of occurrences of a character. *)
Definition count_char (c : char) (s : pystr) : nat :=
  length (List.filter (fun x => N.eqb x c) s).

(** The text the brace scan of [_extract_first_json_object] runs over. *)
Definition scanned_text `{U : Unicode} (text : pystr) : pystr :=
  _strip_json_prefixed_junk (unfence (strip text)).

(** The first complete object of a text: the piece that starts at the
    first opening brace and ends at the closing brace that balances it.
    Its body, between the two, is balanced, and no part of the body read
    from its start closes more braces than it opens. *)
Definition first_object (t snippet : pystr) : Prop :=
  exists before body after,
    t = before ++ snippet ++ after
    /\ count_char 123%N before = 0%nat
    /\ snippet = [123%N] ++ body ++ [125%N]
    /\ count_char 123%N body = count_char 125%N body
    /\ forall k, (k <= length body)%nat ->
         (count_char 125%N (take k body) <= count_char 123%N (take k body))%nat.


Section PartialFields.
Context {U : Unicode}.






End PartialFields.



(** A response with an integer of 4301 digits, and an interpreter whose
    parser refuses it as the interpreter's does, with a plain
    [ValueError]. *)
Definition long_int_response : pystr :=
  [123; 34; 110; 34; 58; 32]%N ++ repeat 49%N 4301 ++ [125%N].

Definition json_int_limit_error : exn :=
  ValueError (u "Exceeds the limit (4300 digits) for integer string conversion: value has 4301 digits; use sys.set_int_max_str_digits() to increase the limit").

Definition limit_json : Json :=
  {| json_loads := fun text =>
       if (4300 <? length text)%nat then JRaise json_int_limit_error
       else JDecodeError (u "Expecting value") |}.

(** *** Loader *)

(** Parsers that load nothing, and a sheet that is neither a table with an
    identifier column nor a label/value layout. *)
Definition empty_parsers : LayoutParsers :=
  {| parse_tabs := fun _ => Ok (∅, [], []);
     parse_standard := fun _ _ _ => Ok (∅, [], []);
     _parse_transposed_ground_truth := fun _ => Ok (∅, [], []) |}.

Definition unreadable_sheet : sheet :=
  {| title := u "Sheet1";
     sheet_rows := [[VStr (u "Fund"); VStr (u "Value")];
                    [VStr (u "Alpha"); VStr (u "n/a")]] |}.

(** The entry of the header for a cell of the first row: empty for a blank
    cell, the text of the cell stripped and lower-cased otherwise. *)
Definition names_cell `{U : Unicode} `{R : Repr} (c : pyval) (h : pystr) : Prop :=
  (c = VNone /\ h = [])
  \/ (c <> VNone /\ exists text, py_str c = Ok text /\ h = lower (strip text)).

(** The header observed on the first row: one entry for each cell. *)
Definition observed_header `{U : Unicode} `{R : Repr}
    (row0 : list pyval) (header : list pystr) : Prop :=
  Forall2 names_cell row0 header.

(** A sheet with a title row, a label row and a value row whose value
    stands in the second column, and the dictionary it is read as. *)
Definition titled_pair_sheet : sheet :=
  {| title := u "Sheet1";
     sheet_rows := [[VStr (u "Fund A"); VNone];
                    [VStr (u "Gross IRR"); VNone];
                    [VStr (u "n/a"); VStr (u "12%")]] |}.

Definition gross_irr_12 : gt_dict :=
  <[u "net_irr" := VFloat (float_of_Z 12)]> empty_gt_dict.

(** *** Further properties *)

(** The candidate [n], or one of its rescalings when they are allowed, is
    within the tolerance of the expected value [g]. *)
Definition number_matches (g n tolerance : pyfloat) (allow_scale_flex : bool) : Prop :=
  values_match (Some g) (Some n) tolerance = true
  \/ (allow_scale_flex = true
      /\ (values_match (Some g) (Some (fmul n f100)) tolerance = true
          \/ values_match (Some g) (Some (fdiv n f100)) tolerance = true)).

(** Two sets of match flags that agree on every metric in scope. *)
Definition agree_in_scope (gt : gmap pystr pyval) (i m d o i' m' d' o' : Z) : Prop :=
  (present gt (u "net_irr") = true -> i = i')
  /\ (present gt (u "net_moic") = true -> m = m')
  /\ (present gt (u "net_dpi") = true -> d = d')
  /\ (present gt (u "other_metric_value") = true -> o = o').

Definition f0_01 : pyfloat := float_of_ratio false 1 100.
Definition huge_int : Z := 10 ^ 400.

(** The core metrics with their new-schema and old-schema keys. *)
Definition core_pairs : list (pystr * pystr) :=
  [(u "irr", u "net_irr"); (u "moic", u "net_moic");
   (u "dpi", u "net_dpi"); (u "tvpi", u "net_tvpi")].

Definition pred_current_yield : gmap pystr pyval :=
  <[u "other_metric_label" := VStr (u "Current Yield")]>
    (<[u "other_metric_value" := VFloat f1_5]> ∅).

Definition canon_zero_dpi : gmap pystr (option pyfloat) :=
  <[u "tvpi" := None]> (<[u "dpi" := Some f1_5]> (<[u "moic" := None]>
    (<[u "irr" := None]> all_none))).

Definition canon_current_yield : gmap pystr (option pyfloat) :=
  <[u "current_yield" := Some f1_5]> (<[u "tvpi" := None]> (<[u "dpi" := None]>
    (<[u "moic" := None]> (<[u "irr" := None]> all_none)))).

(** What is left of a text once the characters of a class are taken out. *)
Definition without (dropped : char -> bool) (s : pystr) : pystr :=
  List.filter (fun c => negb (dropped c)) s.

Definition is_backslash (c : char) : bool := (c =? 92)%N.
Definition comma_or_space (c : char) : bool := (c =? 44)%N || is_space c.

(** The prediction as [unit_normalize_pred] reads it: divided by 100 under
    a basis-point hint. *)
Definition hinted `{U : Unicode} (pred_val : pyfloat) (label_hint : option pystr)
  : pyfloat :=
  if hint_is_bps label_hint then fdiv pred_val f100 else pred_val.

(** Both magnitudes above 1, or both below 1. *)
Definition same_side_of_one (p g : pyfloat) : Prop :=
  (fltb f1 (fabs g) = true /\ fltb f1 (fabs p) = true)
  \/ (fltb (fabs g) f1 = true /\ fltb (fabs p) f1 = true).

(** One of the keywords of a projected document occurs in the lower-cased
    text. *)
Definition names_projection `{U : Unicode} (s : pystr) : bool :=
  existsb (fun kw => contains kw (lower s)) _PROJECTED_DOC_KEYWORDS.

(** *** Ground truth from JSON *)

(** The first and the last element of a list that pass a test. *)
Fixpoint first_where {A} (p : A -> bool) (l : list A) : option A :=
  match l with
  | [] => None
  | x :: r => if p x then Some x else first_where p r
  end.

Fixpoint last_where {A} (p : A -> bool) (l : list A) : option A :=
  match l with
  | [] => None
  | x :: r =>
    match last_where p r with
    | Some y => Some y
    | None => if p x then Some x else None
    end
  end.

Definition is_null (v : pyval) : bool :=
  match v with VNone => true | _ => false end.

(** An item the loop reads: not an identifier key, not a null value. *)
Definition read_item (item : pystr * pyval) : bool :=
  negb (bool_decide (item.1 ∈ id_keys)) && negb (is_null item.2).

Section ItemKinds.
Context {U : Unicode}.

Definition irr_item (item : pystr * pyval) : bool :=
  read_item item && names_irr (upper (strip item.1)).

Definition moic_item (item : pystr * pyval) : bool :=
  read_item item && negb (names_irr (upper (strip item.1)))
  && names_moic (upper (strip item.1)).

Definition dpi_item (item : pystr * pyval) : bool :=
  read_item item && negb (names_irr (upper (strip item.1)))
  && negb (names_moic (upper (strip item.1))) && names_dpi (upper (strip item.1)).

Definition other_item (item : pystr * pyval) : bool :=
  read_item item && negb (names_irr (upper (strip item.1)))
  && negb (names_moic (upper (strip item.1))) && negb (names_dpi (upper (strip item.1))).

(** The number stored for an item of each kind. *)
Definition irr_of (item : pystr * pyval) : result (option pyfloat) :=
  let* num := metric_number item.2 in irr_number num.

Definition number_of (item : pystr * pyval) : result (option pyfloat) :=
  metric_number item.2.
End ItemKinds.

Definition f10_3 : pyfloat := float_of_ratio false 103 10.
Definition f0_103 : pyfloat := float_of_ratio false 103 1000.
Definition f1_09 : pyfloat := float_of_ratio false 109 100.

Definition raw_two_rates : list (pystr * pyval) :=
  [(u "GTPDF", VStr (u "alpha.pdf"));
   (u "Net IRR", VFloat f0_103);
   (u "Net MOIC", VStr (u "1.09x"));
   (u "Current Yield", VFloat f1_5);
   (u "Gross IRR", VStr (u "n/a"));
   (u "Vintage", VInt 2019)].

(** * Properties *)

(** ** Helper facts *)

Lemma present_false (gt : gmap pystr pyval) (k : pystr) :
  present gt k = false <-> dict_get gt k = VNone.
Proof.
  unfold present. destruct (dict_get gt k); simpl; split; intros H; congruence.
Qed.

Lemma present_true (gt : gmap pystr pyval) (k : pystr) :
  present gt k = true <-> dict_get gt k <> VNone.
Proof.
  unfold present. destruct (dict_get gt k); simpl; split; intros H; congruence.
Qed.

(** ** Scorer *)

Lemma no_expected_scope (gt : gmap pystr pyval) :
  no_expected gt <-> scope_count gt = 0.
Proof.
  unfold no_expected, scope_count. rewrite <- !present_false.
  destruct (present gt (u "net_irr")), (present gt (u "net_moic")),
    (present gt (u "net_dpi")), (present gt (u "other_metric_value"));
    simpl; split; intros H; try lia; try tauto; intuition congruence.
Qed.

Lemma small_ratio_rounds (num den : Z) :
  0 <= num <= den -> 1 <= den <= 4 ->
  exists q x, int_truediv num den = Ok q /\ py_round q 4 = Ok x.
Proof.
  intros Hn Hd.
  assert (Hden : den = 1 \/ den = 2 \/ den = 3 \/ den = 4) by lia.
  assert (Hnum : num = 0 \/ num = 1 \/ num = 2 \/ num = 3 \/ num = 4) by lia.
  destruct Hden as [-> | [-> | [-> | ->]]];
    destruct Hnum as [-> | [-> | [-> | [-> | ->]]]]; try lia;
    eexists; eexists; (split; [vm_compute; reflexivity | vm_compute; reflexivity]).
Qed.

(** C1. When all four expected values of the ground truth are absent the
    score is the not-applicable marker (empty score field, flag set, no
    number at all, so neither 0 nor 1); when one at least is present the
    score is the ratio of matched to in-scope metrics rounded to four
    places, with the not-applicable flag cleared, and with binary match
    flags that number is always produced. *)
Theorem C1_score_not_applicable_or_ratio
    (gt : gmap pystr pyval) (irr_match moic_match dpi_match other_match : Z) :
  let r := compute_score_from_gt_and_matches gt irr_match moic_match dpi_match other_match in
  let num := match_count gt irr_match moic_match dpi_match other_match in
  let den := scope_count gt in
  (no_expected gt ->
     exists s, r = Ok s
       /\ no_metrics_in_scope s = true /\ overall_score_is_na s = 1
       /\ overall_score s = VStr []
       /\ (forall x, overall_score s <> VFloat x) /\ (forall n, overall_score s <> VInt n)
       /\ score_denom s = 0 /\ score_num s = 0)
  /\ (~ no_expected gt ->
        1 <= den <= 4
        /\ (forall s, r = Ok s ->
              exists q x, int_truediv num den = Ok q /\ py_round q 4 = Ok x
                /\ overall_score s = VFloat x
                /\ no_metrics_in_scope s = false /\ overall_score_is_na s = 0
                /\ score_denom s = den /\ score_num s = num)
        /\ (is_flag irr_match -> is_flag moic_match -> is_flag dpi_match ->
            is_flag other_match -> exists s, r = Ok s)).
Proof.
  intros r num den. split.
  - intros Hne. apply no_expected_scope in Hne.
    subst r. unfold compute_score_from_gt_and_matches.
    fold (scope_count gt). rewrite Hne. simpl.
    eexists. split; [reflexivity|]. simpl. repeat split; intros; congruence.
  - intros Hne. rewrite no_expected_scope in Hne.
    assert (Hden : 1 <= den <= 4).
    { subst den. revert Hne. unfold scope_count.
      destruct (present gt (u "net_irr")), (present gt (u "net_moic")),
        (present gt (u "net_dpi")), (present gt (u "other_metric_value"));
        simpl; lia. }
    assert (Hr : r = (let* q := int_truediv num den in
                      let* x := py_round q 4 in
                      Ok {| irr_in_scope := present gt (u "net_irr");
                            moic_in_scope := present gt (u "net_moic");
                            dpi_in_scope := present gt (u "net_dpi");
                            other_in_scope := present gt (u "other_metric_value");
                            score_denom := den; score_num := num;
                            overall_score := VFloat x;
                            no_metrics_in_scope := false;
                            overall_score_is_na := 0 |})).
    { subst r. unfold compute_score_from_gt_and_matches.
      fold (scope_count gt). fold den.
      destruct (den =? 0) eqn:E; [apply Z.eqb_eq in E; lia|]. reflexivity. }
    split; [exact Hden|]. split.
    + intros s Hs. rewrite Hr in Hs.
      destruct (int_truediv num den) as [q|e]; cbn [bind] in Hs; [|discriminate].
      destruct (py_round q 4) as [x|e] eqn:Ex; cbn [bind] in Hs; [|discriminate].
      injection Hs as <-. exists q, x. cbn. repeat split; [exact Ex].
    + intros Hi Hm Hd Ho.
      assert (Hnum : 0 <= num <= den).
      { subst num den. unfold match_count, scope_count.
        destruct Hi as [-> | ->], Hm as [-> | ->], Hd as [-> | ->], Ho as [-> | ->];
          destruct (present gt (u "net_irr")), (present gt (u "net_moic")),
            (present gt (u "net_dpi")), (present gt (u "other_metric_value"));
          simpl; lia. }
      destruct (small_ratio_rounds num den Hnum Hden) as (q & x & Hq & Hx).
      rewrite Hr, Hq. simpl. rewrite Hx. simpl. eexists; reflexivity.
Qed.

Lemma C1_score_witness :
  (exists s, compute_score_from_gt_and_matches gt_nothing 0 0 0 0 = Ok s
     /\ overall_score s = VStr [] /\ overall_score_is_na s = 1)
  /\ (exists s, compute_score_from_gt_and_matches gt_other_only 0 0 0 0 = Ok s).
Proof.
  split.
  - destruct (C1_score_not_applicable_or_ratio gt_nothing 0 0 0 0) as [H _].
    destruct H as (s & Hs & _ & Hna & Hsc & _).
    + repeat split; vm_compute; reflexivity.
    + exists s. auto.
  - destruct (C1_score_not_applicable_or_ratio gt_other_only 0 0 0 0) as [_ H].
    destruct H as (_ & _ & H).
    + intros (_ & _ & _ & H). vm_compute in H. discriminate H.
    + apply H; left; reflexivity.
Defined.

(** ** Unit reconciler *)

(** Without a basis-point hint a multiple is returned as it came. *)
Lemma unit_normalize_multiple_no_hint `{U : Unicode}
    (pred_val gt_val : option pyfloat) (metric_kind : pystr) (label_hint : option pystr) :
  is_multiple metric_kind -> hint_is_bps label_hint = false ->
  unit_normalize_pred pred_val gt_val metric_kind label_hint = pred_val.
Proof.
  intros Hk Hh. unfold unit_normalize_pred. destruct pred_val as [p|]; [|reflexivity].
  rewrite Hh. destruct Hk as [-> | [-> | ->]]; reflexivity.
Qed.

(** No label of the table stands for a multiple. *)
Lemma table_kind_not_multiple (label key : pystr) :
  table_get OTHER_LABEL_TO_CANONICAL label = Some key -> ~ is_multiple key.
Proof.
  assert (H : Forall (fun p : pystr * pystr =>
                p.2 <> u "moic" /\ p.2 <> u "dpi" /\ p.2 <> u "tvpi")
                OTHER_LABEL_TO_CANONICAL).
  { apply (bool_decide_unpack _). vm_compute. reflexivity. }
  induction H as [|[k v] t Hv _ IH]; cbn [table_get]; [discriminate|].
  destruct (pystr_eqb k label); [|exact IH].
  intros [= <-] [Hm | [Hm | Hm]]; cbn [snd] in Hv; tauto.
Qed.

(** The kind [evaluate_one] derives from the label of the other metric is
    never a multiple. *)
Lemma other_metric_kind_not_multiple `{U : Unicode} `{R : Repr} (ol : pyval) (kind : pystr) :
  other_metric_kind ol = Ok kind -> ~ is_multiple kind.
Proof.
  assert (Hyield : ~ is_multiple (u "yield")).
  { intros [H | [H | H]]; vm_compute in H; discriminate H. }
  unfold other_metric_kind. destruct (truthy ol); [|intros [= <-]; exact Hyield].
  destruct (py_str ol) as [text|e]; cbn [bind]; [|discriminate].
  destruct (table_get _ _) as [[|c key]|] eqn:E1.
  - destruct (table_get OTHER_LABEL_TO_CANONICAL (replace_char _ _ _)) as [[|c key]|] eqn:E2;
      intros [= <-]; try exact Hyield.
    eapply table_kind_not_multiple; exact E2.
  - intros [= <-]. eapply table_kind_not_multiple; exact E1.
  - destruct (table_get OTHER_LABEL_TO_CANONICAL (replace_char _ _ _)) as [[|c key]|] eqn:E2;
      intros [= <-]; try exact Hyield.
    eapply table_kind_not_multiple; exact E2.
Qed.

(** The claim as stated fails: called with the multiple 150.0 of kind
    "moic" and the label hint "bps", the reconciler returns 1.5, because
    the division for basis points is made before the kind of the metric is
    looked at. *)
Lemma C3_bps_hint_counterexample :
  @unit_normalize_pred plain_unicode (Some f150) None (u "moic") (Some (u "bps"))
  = Some f1_5
  /\ Some f1_5 <> Some f150.
Proof.
  split; [vm_compute; reflexivity | vm_compute; discriminate].
Qed.

(** C3 (as amended). For a label hint that holds no basis-point marker,
    and so when no hint is passed, reconciling a multiple (moic, dpi or
    tvpi) returns the predicted value unchanged, whatever the predicted
    and the expected values are, and reconciling again changes nothing.
    The harness passes a hint only together with the kind it derives from
    the label of the other metric, and that kind is never a multiple. *)
Theorem C3_multiple_unchanged_without_bps_hint `{U : Unicode} `{R : Repr}
    (pred_val gt_val : option pyfloat) (metric_kind : pystr) (label_hint : option pystr) :
  is_multiple metric_kind -> hint_is_bps label_hint = false ->
  unit_normalize_pred pred_val gt_val metric_kind label_hint = pred_val
  /\ unit_normalize_pred (unit_normalize_pred pred_val gt_val metric_kind label_hint)
       gt_val metric_kind label_hint = pred_val
  /\ hint_is_bps None = false
  /\ (forall ol kind, other_metric_kind ol = Ok kind -> ~ is_multiple kind).
Proof.
  intros Hk Hh.
  rewrite !(unit_normalize_multiple_no_hint pred_val gt_val metric_kind label_hint Hk Hh).
  repeat split; try reflexivity.
  intros ol kind. apply other_metric_kind_not_multiple.
Qed.

Lemma C3_multiple_unchanged_witness :
  @unit_normalize_pred plain_unicode (Some f150) (Some f1_5) (u "moic")
    (Some (u "Gross MOIC")) = Some f150.
Proof.
  apply (@C3_multiple_unchanged_without_bps_hint plain_unicode const_repr
           (Some f150) (Some f1_5) (u "moic") (Some (u "Gross MOIC"))).
  - left. reflexivity.
  - vm_compute. reflexivity.
Defined.
(** ** Value normaliser *)

(** C6. The string "1.2×" normalises to absent, although the multiplication
    sign is a unit marker: [normalize_value] strips "x", "X" and "%" only,
    while the number scan of the scorer strips "×" as well and reads 1.2
    from the same text. *)
Theorem C6_multiplication_sign_not_stripped :
  @normalize_value plain_unicode (VStr (u "1.2×")) = Ok None
  /\ @normalize_value plain_unicode (VStr (u "1.2x")) = Ok (Some f1_2)
  /\ @_numbers_from_string plain_unicode (u "1.2×") = [f1_2].
Proof.
  repeat split; vm_compute; reflexivity.
Qed.

(** ** Metric canonicaliser *)

(** C7. With "dpi": 0.0 under the new key and "net_dpi": 1.5 under the old
    one, the canonical dpi is 1.5: [a or b] passes over a new-schema value
    that is zero. *)
Theorem C7_zero_under_new_key_loses `{U : Unicode} `{R : Repr} :
  dict_get pred_zero_dpi (u "dpi") = VFloat f0
  /\ dict_get pred_zero_dpi (u "net_dpi") = VFloat f1_5
  /\ returns (normalize_prediction pred_zero_dpi)
       (fun out => out !! u "dpi" = Some (Some f1_5)).
Proof.
  split; [vm_compute; reflexivity|].
  split; [vm_compute; reflexivity|].
  vm_compute. reflexivity.
Qed.

(** *** Results of fallible steps *)

Lemma bind_ok {A B} (r : result A) (k : A -> result B) (b : B) :
  bind r k = Ok b -> exists a, r = Ok a /\ k a = Ok b.
Proof. destruct r as [a|e]; simpl; intros H; [eauto | discriminate]. Qed.

Lemma only_overflow_ok {A} (a : A) : only_overflow (Ok a).
Proof. intros e H. discriminate. Qed.

Lemma only_overflow_bind {A B} (r : result A) (k : A -> result B) :
  only_overflow r -> (forall a, r = Ok a -> only_overflow (k a)) ->
  only_overflow (bind r k).
Proof.
  intros Hr Hk e. destruct r as [a|e']; simpl.
  - apply Hk. reflexivity.
  - intros [= <-]. apply Hr. reflexivity.
Qed.

Lemma float_of_int_overflow (n : Z) : only_overflow (float_of_int n).
Proof.
  unfold float_of_int. intros e. destruct (is_finite _); intros [= <-]. reflexivity.
Qed.

Lemma normalize_value_overflow `{U : Unicode} (v : pyval) :
  only_overflow (normalize_value v).
Proof.
  destruct v; simpl; try apply only_overflow_ok;
    (apply only_overflow_bind; [apply float_of_int_overflow | intros; apply only_overflow_ok]).
Qed.

Lemma normalize_value_total `{U : Unicode} (v : pyval) :
  (forall n, v = VInt n -> is_finite (float_of_Z n) = true) ->
  exists x, normalize_value v = Ok x.
Proof.
  intros H. destruct v; simpl; eauto.
  - destruct b; vm_compute; eauto.
  - unfold float_of_int. rewrite (H n eq_refl). simpl. eauto.
Qed.

(** *** Keys of the canonical dictionary *)

Lemma all_none_keys : has_canonical_keys all_none.
Proof.
  intros k. unfold all_none.
  rewrite <- not_eq_None_Some, <- not_elem_of_list_to_map.
  assert (E : (map (fun k0 : pystr => (k0, @None pyfloat)) CANONICAL_KEYS).*1
              = CANONICAL_KEYS) by (vm_compute; reflexivity).
  rewrite E. split; [apply dec_stable | tauto].
Qed.






Lemma core_metric_overflow `{U : Unicode} (pred_json : gmap pystr pyval) (a b : pystr) :
  only_overflow (core_metric pred_json a b).
Proof. apply normalize_value_overflow. Qed.

Lemma dict_get_int (pred_json : gmap pystr pyval) (k : pystr) (n : Z) :
  dict_get pred_json k = VInt n -> pred_json !! k = Some (VInt n).
Proof.
  unfold dict_get. destruct (pred_json !! k) as [v|]; simpl; [congruence | discriminate].
Qed.


Lemma set_named_overflow `{U : Unicode} (pred_json : gmap pystr pyval) (keys : list pystr)
    (out : gmap pystr (option pyfloat)) :
  only_overflow (set_named pred_json keys out).
Proof.
  revert out. induction keys as [|key r IH]; intros out; cbn [set_named]; [apply only_overflow_ok|].
  destruct (pred_json !! key) as [v|]; [|apply IH].
  destruct (is_none v); [apply IH|].
  apply only_overflow_bind; [apply normalize_value_overflow | intros; apply IH].
Qed.





(** ** Candidate pool *)

Lemma feqb_refl (x : pyfloat) : feqb x x = negb (is_nan x).
Proof.
  destruct x as [s|s| |s m e]; try reflexivity.
  - destruct s; reflexivity.
  - unfold feqb, SFeqb, SFcompare.
    destruct s; rewrite Z.compare_refl, Pos.compare_cont_refl; reflexivity.
Qed.

Lemma item_numbers_spec `{U : Unicode} (item : pyval) (ns : list pyfloat) (x : pyfloat) :
  item_numbers item = Ok ns -> (x ∈ ns <-> item_number item x).
Proof.
  destruct item; cbn [item_numbers item_number].
  - intros [= <-]. split; [intros H; inversion H | tauto].
  - intros H. apply bind_ok in H as (y & Hy & [= <-]). rewrite Hy.
    rewrite list_elem_of_singleton. split; congruence.
  - intros H. apply bind_ok in H as (y & Hy & [= <-]). rewrite Hy.
    rewrite list_elem_of_singleton. split; congruence.
  - intros [= <-]. rewrite feqb_refl. destruct (is_nan x0) eqn:E; cbn [negb].
    + split; [intros H; inversion H | intros [_ ?]; discriminate].
    + rewrite list_elem_of_singleton. split; [intros ->; auto | intros [-> _]; reflexivity].
  - intros [= <-]. tauto.
  - intros [= <-]. split; [intros H; inversion H | tauto].
  - intros [= <-]. split; [intros H; inversion H | tauto].
  - intros [= <-]. split; [intros H; inversion H | tauto].
Qed.

Lemma items_numbers_spec `{U : Unicode} (arr : list pyval) (ns : list pyfloat) (x : pyfloat) :
  items_numbers arr = Ok ns ->
  (x ∈ ns <-> exists item, item ∈ arr /\ item_number item x).
Proof.
  revert ns. induction arr as [|item r IH]; intros ns; cbn [items_numbers].
  - intros [= <-]. split; [intros H; inversion H | intros (i & H & _); inversion H].
  - intros H. apply bind_ok in H as (a & Ha & H). apply bind_ok in H as (b & Hb & [= <-]).
    rewrite elem_of_app, (item_numbers_spec item a x Ha), (IH b Hb).
    split.
    + intros [H | (i & Hi & Hx)]; [exists item | exists i]; split; auto; constructor; auto.
    + intros (i & Hi & Hx). apply elem_of_cons in Hi as [-> | Hi]; [left; auto | right; eauto].
Qed.

Lemma top_level_numbers_spec `{U : Unicode} (data : gmap pystr pyval) (keys : list pystr)
    (ns : list pyfloat) (x : pyfloat) :
  top_level_numbers data keys = Ok ns ->
  (x ∈ ns <-> exists k, k ∈ keys /\ normalize_value (dict_get data k) = Ok (Some x)).
Proof.
  revert ns. induction keys as [|key r IH]; intros ns; cbn [top_level_numbers].
  - intros [= <-]. split; [intros H; inversion H | intros (k & H & _); inversion H].
  - intros H. apply bind_ok in H as (n & Hn & H). apply bind_ok in H as (rest & Hr & [= <-]).
    specialize (IH rest Hr). split.
    + intros Hx. destruct n as [y|].
      * apply elem_of_cons in Hx as [-> | Hx].
        -- exists key. split; [constructor | exact Hn].
        -- apply IH in Hx as (k & Hk & Hv). exists k. split; [constructor; exact Hk | exact Hv].
      * apply IH in Hx as (k & Hk & Hv). exists k. split; [constructor; exact Hk | exact Hv].
    + intros (k & Hk & Hv). apply elem_of_cons in Hk as [-> | Hk].
      * rewrite Hn in Hv. injection Hv as ->. constructor.
      * assert (Hx : x ∈ rest) by (apply IH; eauto).
        destruct n; [constructor|]; exact Hx.
Qed.

Lemma array_numbers_spec `{U : Unicode} (data : gmap pystr pyval) (keys : list pystr)
    (ns : list pyfloat) (x : pyfloat) :
  array_numbers data keys = Ok ns ->
  (x ∈ ns <-> exists k arr item, k ∈ keys /\ dict_get data k = VList arr
                /\ item ∈ arr /\ item_number item x).
Proof.
  revert ns. induction keys as [|key r IH]; intros ns; cbn [array_numbers].
  - intros [= <-]. split; [intros H; inversion H | intros (k & ? & ? & H & _); inversion H].
  - intros H. apply bind_ok in H as (a & Ha & H). apply bind_ok in H as (b & Hb & [= <-]).
    specialize (IH b Hb). rewrite elem_of_app, IH. split.
    + intros [Hx | (k & arr & item & Hk & Hrest)].
      * destruct (dict_get data key) as [| | | | |arr| |] eqn:E;
          try (injection Ha as <-; inversion Hx).
        apply (items_numbers_spec arr a x Ha) in Hx as (item & Hi & Hx).
        exists key, arr, item. repeat split; auto. constructor.
      * exists k, arr, item. split; [constructor; exact Hk | exact Hrest].
    + intros (k & arr & item & Hk & Hd & Hi & Hx).
      apply elem_of_cons in Hk as [-> | Hk].
      * left. rewrite Hd in Ha. apply (items_numbers_spec arr a x Ha). eauto.
      * right. exists k, arr, item. auto.
Qed.

Lemma dict_get_empty (data : gmap pystr pyval) (k : pystr) :
  map_to_list data = [] -> dict_get data k = VNone.
Proof.
  intros H. apply map_to_list_empty_iff in H. subst data.
  unfold dict_get. rewrite lookup_empty. reflexivity.
Qed.

Lemma extract_all_spec `{U : Unicode} (data : gmap pystr pyval) (ns : list pyfloat)
    (x : pyfloat) :
  extract_all_performance_numbers data = Ok ns ->
  (x ∈ ns <->
   (exists k, k ∈ top_level_keys /\ normalize_value (dict_get data k) = Ok (Some x))
   \/ (exists k arr item, k ∈ array_keys /\ dict_get data k = VList arr
         /\ item ∈ arr /\ item_number item x)).
Proof.
  unfold extract_all_performance_numbers.
  destruct (map_to_list data) as [|p l] eqn:E.
  - intros [= <-]. split; [intros H; inversion H|].
    intros [(k & _ & H) | (k & arr & item & _ & H & _)];
      rewrite (dict_get_empty data k E) in H; discriminate.
  - intros H. apply bind_ok in H as (a & Ha & H). apply bind_ok in H as (b & Hb & [= <-]).
    rewrite elem_of_app, (top_level_numbers_spec data _ a x Ha),
      (array_numbers_spec data _ b x Hb). reflexivity.
Qed.

Lemma item_numbers_overflow `{U : Unicode} (item : pyval) : only_overflow (item_numbers item).
Proof.
  destruct item; cbn [item_numbers]; try apply only_overflow_ok;
    (apply only_overflow_bind; [apply float_of_int_overflow | intros; apply only_overflow_ok]).
Qed.

Lemma items_numbers_overflow `{U : Unicode} (arr : list pyval) :
  only_overflow (items_numbers arr).
Proof.
  induction arr as [|item r IH]; cbn [items_numbers]; [apply only_overflow_ok|].
  apply only_overflow_bind; [apply item_numbers_overflow | intros].
  apply only_overflow_bind; [exact IH | intros; apply only_overflow_ok].
Qed.

Lemma candidate_pool_overflow `{U : Unicode} (data : gmap pystr pyval) (raw : pystr) :
  only_overflow (candidate_pool data raw).
Proof.
  unfold candidate_pool. apply only_overflow_bind; [|intros; apply only_overflow_ok].
  unfold extract_all_performance_numbers.
  destruct (map_to_list data); [apply only_overflow_ok|].
  apply only_overflow_bind.
  - generalize top_level_keys. intros keys.
    induction keys as [|key r IH]; cbn [top_level_numbers]; [apply only_overflow_ok|].
    apply only_overflow_bind; [apply normalize_value_overflow | intros].
    apply only_overflow_bind; [exact IH | intros; apply only_overflow_ok].
  - intros a _. apply only_overflow_bind; [|intros; apply only_overflow_ok].
    generalize array_keys. intros keys.
    induction keys as [|key r IH]; cbn [array_numbers]; [apply only_overflow_ok|].
    apply only_overflow_bind.
    + destruct (dict_get data key); try apply only_overflow_ok. apply items_numbers_overflow.
    + intros. apply only_overflow_bind; [exact IH | intros; apply only_overflow_ok].
Qed.

Lemma items_numbers_total `{U : Unicode} (arr : list pyval) :
  (forall n, VInt n ∈ arr -> is_finite (float_of_Z n) = true) ->
  exists ns, items_numbers arr = Ok ns.
Proof.
  induction arr as [|item r IH]; intros H; cbn [items_numbers]; [eauto|].
  assert (Hi : exists a, item_numbers item = Ok a).
  { destruct item; cbn [item_numbers]; eauto.
    - destruct b; vm_compute; eauto.
    - unfold float_of_int. rewrite (H n) by constructor. cbn [bind]. eauto. }
  destruct Hi as [a ->]. cbn [bind].
  destruct IH as [b ->]; [intros n Hn; apply H; constructor; exact Hn|].
  cbn [bind]. eauto.
Qed.

Lemma candidate_pool_total `{U : Unicode} (data : gmap pystr pyval) (raw : pystr) :
  pool_ints_in_float_range data -> exists pool, candidate_pool data raw = Ok pool.
Proof.
  intros [Htop Harr]. unfold candidate_pool, extract_all_performance_numbers.
  destruct (map_to_list data); [cbn [bind]; eauto|].
  assert (H1 : forall keys, exists a, top_level_numbers data keys = Ok a).
  { induction keys as [|key r [a IH]]; cbn [top_level_numbers]; [eauto|].
    destruct (normalize_value_total (dict_get data key)) as [n ->].
    { intros n Hn. apply dict_get_int in Hn. eapply Htop. exact Hn. }
    cbn [bind]. rewrite IH. cbn [bind]. eauto. }
  assert (H2 : forall keys, exists b, array_numbers data keys = Ok b).
  { induction keys as [|key r [b IH]]; cbn [array_numbers]; [eauto|].
    assert (Hk : exists a, match dict_get data key with
                           | VList arr => items_numbers arr
                           | _ => Ok []
                           end = Ok a).
    { destruct (dict_get data key) as [| | | | |arr| |] eqn:E; eauto.
      apply items_numbers_total. intros n Hn. apply (Harr key arr n); [|exact Hn].
      unfold dict_get in E. destruct (data !! key) as [v|]; simpl in E; [congruence|discriminate]. }
    destruct Hk as [a ->]. cbn [bind]. rewrite IH. cbn [bind]. eauto. }
  destruct (H1 top_level_keys) as [a ->]. destruct (H2 array_keys) as [b ->].
  cbn [bind]. eauto.
Qed.

(** C2 (as amended). Whenever the pool is built, a number is in it exactly
    when it is the normalised value of one of the three top-level fields
    net_irr, net_moic, net_dpi, or comes from an element of one of the
    three arrays investment_performance, key_takeaways, business_updates
    (scanned from a string element, or a numeric element itself), or is
    scanned from the raw response text.  Building the pool can only fail
    with an overflow, and does not fail when the integers of the mapping
    are within the range of floats. *)
Theorem C2_candidate_pool_members `{U : Unicode}
    (data : gmap pystr pyval) (raw_response : pystr) :
  (forall pool, candidate_pool data raw_response = Ok pool ->
     forall x, x ∈ pool <-> in_code_pool data raw_response x)
  /\ only_overflow (candidate_pool data raw_response)
  /\ (pool_ints_in_float_range data ->
      exists pool, candidate_pool data raw_response = Ok pool).
Proof.
  split; [|split].
  - intros pool H x. unfold candidate_pool in H.
    apply bind_ok in H as (ns & Hns & [= <-]).
    unfold in_code_pool, extract_numbers_from_raw_response.
    rewrite elem_of_app, (extract_all_spec data ns x Hns). tauto.
  - apply candidate_pool_overflow.
  - apply candidate_pool_total.
Qed.

(** The claim as stated fails: the response [{"irr": 1e1}] parses to the
    top-level numeric field irr = 10.0, which is not in the pool; the scan
    of the raw text only finds 1 and 1. *)
Lemma C2_top_level_field_counterexample :
  @in_spec_pool plain_unicode data_exponent raw_exponent f10
  /\ returns (@candidate_pool plain_unicode data_exponent raw_exponent)
       (fun pool => (f10 ∉ pool) /\ pool = [f1; f1]).
Proof.
  split.
  - left. exists (u "irr"). split; vm_compute; reflexivity.
  - vm_compute. split; [|reflexivity].
    intros H. apply elem_of_cons in H as [H | H]; [discriminate|].
    apply elem_of_cons in H as [H | H]; [discriminate | inversion H].
Qed.

Lemma C2_candidate_pool_witness :
  exists pool, @candidate_pool plain_unicode data_exponent raw_exponent = Ok pool
    /\ forall x, x ∈ pool <-> @in_code_pool plain_unicode data_exponent raw_exponent x.
Proof.
  destruct (@C2_candidate_pool_members plain_unicode data_exponent raw_exponent)
    as (Hm & _ & Ht).
  destruct Ht as [pool Hp].
  - split.
    + intros k n Hn. unfold data_exponent in Hn.
      apply lookup_insert_Some in Hn as [[_ Hn] | [_ Hn]]; [discriminate|].
      rewrite lookup_empty in Hn. discriminate.
    + intros k arr n Hn. unfold data_exponent in Hn.
      apply lookup_insert_Some in Hn as [[_ Hn] | [_ Hn]]; [discriminate|].
      rewrite lookup_empty in Hn. discriminate.
  - exists pool. split; [exact Hp | apply Hm; exact Hp].
Defined.

(** ** Document matcher *)

(** C4. For the file "fund alpha q3.pdf" and the entries "Alpha Fund" and
    "Fund Alpha Q3", in that order, no exact lookup succeeds; the second
    entry equals the name of the file after normalisation (rule 2), the
    first entry is accepted by the word rule only (rule 4).  The matcher
    returns the first entry, because it tries every rule on one entry
    before it moves to the next, where the priority of the rules as the
    specification and the documentation of the function give it selects
    the second. *)
Theorem C4_word_match_beats_normalized_equality `{U : Unicode} :
  exact_lookup two_lookup (u "fund alpha q3.pdf") (u "fund alpha q3") = None
  /\ normalized_equal (u "fund alpha q3.pdf") (u "fund alpha q3")
       (u "Fund Alpha Q3") (u "Fund Alpha Q3") = true
  /\ normalized_equal (u "fund alpha q3.pdf") (u "fund alpha q3")
       (u "Alpha Fund") (u "Alpha Fund") = false
  /\ substring_match (u "fund alpha q3") (u "Alpha Fund") (u "Alpha Fund") = false
  /\ word_match (u "fund alpha q3") (u "Alpha Fund") = true
  /\ _match_pdf_to_ground_truth
       (u "fund alpha q3.pdf") (u "fund alpha q3") two_lookup two_entries
     = Some metrics_alpha
  /\ spec_match (u "fund alpha q3.pdf") (u "fund alpha q3") two_lookup two_entries
     = Some metrics_alpha_q3
  /\ metrics_alpha !! u "net_irr" <> metrics_alpha_q3 !! u "net_irr".
Proof.
  repeat split; try (vm_compute; reflexivity).
  vm_compute. discriminate.
Qed.
(** ** Structured-response extractor *)

Lemma lstrip_by_length (p : char -> bool) (s : pystr) :
  (length (lstrip_by p s) <= length s)%nat.
Proof.
  induction s as [|c r IH]; cbn [lstrip_by length]; [lia|].
  destruct (p c); cbn [length]; lia.
Qed.

Lemma strip_length (s : pystr) : (length (strip s) <= length s)%nat.
Proof.
  unfold strip, rstrip_by. rewrite length_rev.
  etransitivity; [apply lstrip_by_length|]. rewrite length_rev. apply lstrip_by_length.
Qed.

Lemma junk_line_shorter (l0 : pystr) (i : nat) :
  strip (drop (i + 4) (strip l0)) <> [] ->
  (length (strip (drop (i + 4) (strip l0))) < length l0)%nat.
Proof.
  intros H.
  assert (H1 := strip_length (drop (i + 4) (strip l0))).
  assert (H2 := strip_length l0).
  rewrite length_drop in H1.
  destruct (strip (drop (i + 4) (strip l0))) as [|c r] eqn:E; [contradiction|].
  cbn [length] in *. lia.
Qed.

Lemma junk_loop_terminates `{U : Unicode} (fuel : nat) (lines : list pystr) :
  (length lines + length (concat lines) < fuel)%nat ->
  exists lines', junk_loop fuel lines = Some lines'.
Proof.
  revert lines. induction fuel as [|fuel IH]; intros lines Hm; [lia|].
  cbn [junk_loop]. destruct lines as [|l0 rest]; [eauto|].
  cbn [length concat] in Hm. rewrite length_app in Hm.
  destruct (_ || _); [apply IH; lia|].
  destruct (_ || _); [|eauto].
  destruct (str_find _ _) as [i|]; [|eauto].
  destruct (strip (drop (i + 4) (strip l0))) as [|c r] eqn:E; [apply IH; lia|].
  apply IH. cbn [length concat]. rewrite length_app.
  assert (Hs := junk_line_shorter l0 i). rewrite E in Hs.
  specialize (Hs ltac:(discriminate)). cbn [length] in *. lia.
Qed.

Lemma scan_braces_nonempty (depth : nat) (acc s r : pystr) :
  scan_braces depth acc s = Some r -> r <> [].
Proof.
  revert depth acc. induction s as [|c t IH]; intros depth acc; cbn [scan_braces];
    [discriminate|].
  destruct (c =? 123)%N; [apply IH|].
  destruct (c =? 125)%N; [|apply IH].
  destruct depth as [|[|d]]; try apply IH.
  intros [= <-] H. apply (f_equal (@length N)) in H. cbn [rev] in H.
  rewrite ?length_app, ?length_rev in H. cbn [length] in H. lia.
Qed.

Lemma first_object_nonempty `{U : Unicode} (text snippet : pystr) :
  _extract_first_json_object text = Some snippet -> snippet <> [].
Proof.
  unfold _extract_first_json_object.
  destruct (str_find _ _) as [start|]; [|discriminate].
  apply scan_braces_nonempty.
Qed.

(** *** The first object of a text *)

Lemma count_char_app (c : char) (a b : pystr) :
  count_char c (a ++ b) = (count_char c a + count_char c b)%nat.
Proof. unfold count_char. rewrite List.filter_app, length_app. reflexivity. Qed.

Lemma count_char_cons (c x : char) (s : pystr) :
  count_char c (x :: s) = ((if (x =? c)%N then 1 else 0) + count_char c s)%nat.
Proof.
  unfold count_char. cbn [List.filter].
  destruct (x =? c)%N; reflexivity.
Qed.

Lemma take_while_spec (p : char -> bool) (s a b : pystr) :
  take_while p s = (a, b) -> s = a ++ b /\ Forall (fun c => p c = true) a.
Proof.
  revert a b. induction s as [|c r IH]; intros a b; cbn [take_while].
  - intros [= <- <-]. split; [reflexivity | constructor].
  - destruct (p c) eqn:Hc.
    + destruct (take_while p r) as [a' b'] eqn:E. intros [= <- <-].
      destruct (IH a' b' eq_refl) as [-> HF].
      split; [reflexivity | constructor; assumption].
    + intros [= <- <-]. split; [reflexivity | constructor].
Qed.


Lemma count_char_nil (c : char) : count_char c [] = 0%nat.
Proof. reflexivity. Qed.

Lemma str_find_from_char (c : char) (s : pystr) (i j : nat) :
  str_find_from [c] s i = Some j <->
  exists before rest,
    s = before ++ c :: rest /\ j = (i + length before)%nat /\ count_char c before = 0%nat.
Proof.
  revert i. induction s as [|x r IH]; intros i; cbn [str_find_from starts_with].
  - split; [discriminate|]. intros (before & rest & E & _). destruct before; discriminate.
  - destruct (N.eqb_spec c x) as [<- | Hne]; cbn [andb].
    + split.
      * intros [= <-]. exists [], r. rewrite Nat.add_0_r. repeat split.
      * intros (before & rest & E & -> & Hc). destruct before as [|b before].
        -- rewrite Nat.add_0_r. reflexivity.
        -- injection E as <- _. rewrite count_char_cons, N.eqb_refl in Hc. discriminate.
    + rewrite IH. split.
      * intros (before & rest & -> & -> & Hc). exists (x :: before), rest.
        cbn [app length]. split; [reflexivity|]. split; [lia|].
        rewrite count_char_cons. destruct (N.eqb_spec x c); [congruence | exact Hc].
      * intros (before & rest & E & -> & Hc). destruct before as [|b before].
        -- injection E as -> _. contradiction.
        -- injection E as <- ->. exists before, rest. cbn [length].
           split; [reflexivity|]. split; [lia|].
           rewrite count_char_cons in Hc. destruct (N.eqb_spec x c); [congruence | exact Hc].
Qed.

Lemma drop_app_exact {A} (a b : list A) : drop (length a) (a ++ b) = b.
Proof. induction a as [|x a IH]; [reflexivity | exact IH]. Qed.

Lemma take_app_exact {A} (a b : list A) (k : nat) :
  (k <= length a)%nat -> take k (a ++ b) = take k a.
Proof.
  revert k. induction a as [|x a IH]; intros [|k] Hk; cbn [length] in *; try reflexivity;
    [lia|]. cbn [take app]. rewrite IH by lia. reflexivity.
Qed.

(** What the brace scan returns: the text up to the closing brace at which
    the depth comes back to zero, the depth staying positive before it. *)
Lemma scan_braces_sound (depth : nat) (acc s r : pystr) :
  (1 <= depth)%nat -> scan_braces depth acc s = Some r ->
  exists pre post,
    s = pre ++ [125%N] ++ post /\ r = rev acc ++ pre ++ [125%N]
    /\ (count_char 123%N pre + depth = count_char 125%N pre + 1)%nat
    /\ forall k, (k <= length pre)%nat ->
         (count_char 125%N (take k pre) + 1 <= count_char 123%N (take k pre) + depth)%nat.
Proof.
  revert depth acc. induction s as [|c t IH]; intros depth acc Hd; cbn [scan_braces];
    [discriminate|].
  destruct (N.eqb_spec c 123) as [-> | H123].
  - intros H. apply IH in H as (pre & post & -> & -> & Hc & Hmin); [|lia].
    exists (123%N :: pre), post. split; [reflexivity|]. split; [|split].
    + cbn [rev]. rewrite <- !app_assoc. reflexivity.
    + rewrite !count_char_cons. cbn. lia.
    + intros [|k] Hk; cbn [take length] in *; [rewrite !count_char_nil; lia|].
      rewrite !count_char_cons. specialize (Hmin k ltac:(lia)). cbn. lia.
  - destruct (N.eqb_spec c 125) as [-> | H125].
    + destruct depth as [|[|d]]; [lia| |].
      * intros [= <-]. exists [], t. split; [reflexivity|]. split; [|split].
        -- cbn [rev app]. reflexivity.
        -- reflexivity.
        -- intros k Hk. cbn [length] in Hk. replace k with 0%nat by lia.
           cbn [take]. rewrite !count_char_nil. lia.
      * intros H. apply IH in H as (pre & post & -> & -> & Hc & Hmin); [|cbn; lia].
        exists (125%N :: pre), post. split; [reflexivity|]. split; [|split].
        -- cbn [rev]. rewrite <- !app_assoc. reflexivity.
        -- rewrite !count_char_cons. cbn in *. lia.
        -- intros [|k] Hk; cbn [take length] in *; [rewrite !count_char_nil; lia|].
           rewrite !count_char_cons. specialize (Hmin k ltac:(lia)). cbn in *. lia.
    + intros H. apply IH in H as (pre & post & -> & -> & Hc & Hmin); [|lia].
      exists (c :: pre), post. split; [reflexivity|]. split; [|split].
      * cbn [rev]. rewrite <- !app_assoc. reflexivity.
      * rewrite !count_char_cons.
        destruct (N.eqb_spec c 123); [contradiction|].
        destruct (N.eqb_spec c 125); [contradiction|]. cbn. lia.
      * intros [|k] Hk; cbn [take length] in *; [rewrite !count_char_nil; lia|].
        rewrite !count_char_cons. specialize (Hmin k ltac:(lia)).
        destruct (N.eqb_spec c 123); [contradiction|].
        destruct (N.eqb_spec c 125); [contradiction|]. cbn. lia.
Qed.

Lemma scan_braces_complete (pre post : pystr) (depth : nat) (acc : pystr) :
  (1 <= depth)%nat ->
  (count_char 123%N pre + depth = count_char 125%N pre + 1)%nat ->
  (forall k, (k <= length pre)%nat ->
     (count_char 125%N (take k pre) + 1 <= count_char 123%N (take k pre) + depth)%nat) ->
  scan_braces depth acc (pre ++ [125%N] ++ post) = Some (rev acc ++ pre ++ [125%N]).
Proof.
  revert depth acc. induction pre as [|c p IH]; intros depth acc Hd Hc Hmin.
  - cbn [app scan_braces]. cbn. rewrite !count_char_nil in Hc.
    replace depth with 1%nat by lia. cbn [rev]. reflexivity.
  - cbn [app scan_braces]. rewrite count_char_cons in Hc. rewrite (count_char_cons 125%N) in Hc.
    assert (Hstep : forall k, (k <= length p)%nat ->
              (count_char 125%N (c :: take k p) + 1
               <= count_char 123%N (c :: take k p) + depth)%nat).
    { intros k Hk. apply (Hmin (S k)). cbn [length]. lia. }
    destruct (N.eqb_spec c 123) as [-> | H123].
    + rewrite IH; [cbn [rev]; rewrite <- !app_assoc; reflexivity | lia | cbn in Hc; lia |].
      intros k Hk. specialize (Hstep k Hk). rewrite !count_char_cons in Hstep.
      cbn in Hstep. lia.
    + destruct (N.eqb_spec c 125) as [-> | H125].
      * assert (H1 := Hstep 0%nat ltac:(lia)). cbn [take] in H1.
        rewrite !count_char_cons, !count_char_nil in H1. cbn in H1.
        destruct depth as [|[|d]]; [lia | lia |].
        change (S (S d) - 1)%nat with (S d).
        rewrite IH; [cbn [rev]; rewrite <- !app_assoc; reflexivity | lia | cbn in Hc; lia |].
        intros k Hk. specialize (Hstep k Hk). rewrite !count_char_cons in Hstep.
        cbn in Hstep. lia.
      * destruct (N.eqb_spec c 123); [contradiction|].
        destruct (N.eqb_spec c 125); [contradiction|].
        rewrite IH; [cbn [rev]; rewrite <- !app_assoc; reflexivity | lia | cbn in Hc; lia |].
        intros k Hk. specialize (Hstep k Hk). rewrite !count_char_cons in Hstep.
        destruct (N.eqb_spec c 123); [contradiction|].
        destruct (N.eqb_spec c 125); [contradiction|]. cbn in Hstep. lia.
Qed.

(** The extractor finds exactly the first object of the text it scans. *)
Lemma first_object_iff `{U : Unicode} (text snippet : pystr) :
  _extract_first_json_object text = Some snippet <-> first_object (scanned_text text) snippet.
Proof.
  unfold _extract_first_json_object. fold (scanned_text text).
  generalize (scanned_text text). intros t. unfold str_find. split.
  - destruct (str_find_from [123%N] t 0) as [start|] eqn:E; [|discriminate].
    apply str_find_from_char in E as (before & rest & -> & -> & Hb).
    cbn [Nat.add]. rewrite drop_app_exact. cbn [scan_braces]. cbn.
    intros H. apply scan_braces_sound in H as (pre & post & -> & -> & Hc & Hmin); [|lia].
    exists before, pre, post. cbn [rev app].
    split; [rewrite <- !app_assoc; reflexivity|].
    split; [exact Hb|]. split; [reflexivity|]. split; [lia|].
    intros k Hk. specialize (Hmin k Hk). lia.
  - intros (before & body & after & -> & Hb & -> & Hc & Hmin).
    assert (E : str_find_from [123%N] (before ++ ([123%N] ++ body ++ [125%N]) ++ after) 0
                = Some (length before)).
    { apply str_find_from_char. exists before, (body ++ [125%N] ++ after).
      split; [cbn [app]; rewrite <- !app_assoc; reflexivity|]. split; [reflexivity | exact Hb]. }
    rewrite E. rewrite drop_app_exact. cbn [app scan_braces]. cbn.
    rewrite <- app_assoc.
    rewrite (scan_braces_complete body after 1 [123%N]); [reflexivity | lia | lia |].
    intros k Hk. specialize (Hmin k Hk). lia.
Qed.



(** *** Reading a field by its pattern *)



















(** *** What the extractor returns *)



Lemma try_parse_raises `{J : Json} (text : pystr) (e : exn) :
  json_loads text = JRaise e -> _try_parse_json text = Raise e.
Proof. unfold _try_parse_json. intros ->. reflexivity. Qed.

Lemma uncaught_error_escapes `{U : Unicode} `{J : Json} (content snippet : pystr) (e : exn) :
  _extract_first_json_object (strip content) = Some snippet ->
  json_loads snippet = JRaise e ->
  extract_json_from_response content = Raise e.
Proof.
  intros Hs He. unfold extract_json_from_response. rewrite Hs.
  assert (Hne := first_object_nonempty _ _ Hs).
  destruct snippet as [|c sn]; [contradiction|].
  rewrite (try_parse_raises _ _ He). reflexivity.
Qed.

(** C10. On a response whose object holds an integer of 4301 digits the
    extractor finds the object, hands it to [json.loads], and raises
    whatever [json.loads] raises there that is not a [JSONDecodeError]:
    the interpreter's parser raises a plain [ValueError] on such an
    integer, which the handler of [_try_parse_json] does not catch, so the
    extractor does not return a pair. *)
Theorem C10_uncaught_parser_error_escapes `{U : Unicode} `{J : Json} (e : exn) :
  json_loads long_int_response = JRaise e ->
  first_object (scanned_text (strip long_int_response)) long_int_response
  /\ extract_json_from_response long_int_response = Raise e.
Proof.
  intros He.
  assert (Hs : _extract_first_json_object (strip long_int_response)
               = Some long_int_response) by (vm_compute; reflexivity).
  split; [apply first_object_iff; exact Hs|].
  exact (uncaught_error_escapes _ _ _ Hs He).
Qed.

Lemma C10_uncaught_parser_error_witness :
  @extract_json_from_response plain_unicode limit_json long_int_response
  = Raise json_int_limit_error.
Proof.
  apply (@C10_uncaught_parser_error_escapes plain_unicode limit_json json_int_limit_error).
  vm_compute. reflexivity.
Defined.


(** ** Ground-truth loader *)

Lemma index_of_none (name : pystr) (header : list pystr) :
  index_of name header = None <-> name ∉ header.
Proof.
  induction header as [|h r IH]; cbn [index_of].
  - split; [intros _ H; inversion H | reflexivity].
  - unfold pystr_eqb. rewrite not_elem_of_cons.
    destruct (bool_decide_reflect (h = name)) as [-> | Hne].
    + split; [discriminate | intros [H _]; contradiction].
    + destruct (index_of name r); cbn [option_map].
      * split; [discriminate|]. intros [_ H]. apply IH in H. discriminate.
      * split; [|reflexivity]. intros _. split; [congruence | apply IH; reflexivity].
Qed.

Lemma find_id_col_none (names header : list pystr) :
  find_id_col names header = None <-> forall name, name ∈ names -> name ∉ header.
Proof.
  induction names as [|n r IH]; cbn [find_id_col].
  - split; [intros _ name H; inversion H | reflexivity].
  - destruct (index_of n header) as [i|] eqn:E.
    + split; [discriminate|]. intros H.
      assert (Hn : n ∉ header) by (apply H; constructor).
      apply index_of_none in Hn. congruence.
    + rewrite IH. apply index_of_none in E. split.
      * intros H name Hin. apply elem_of_cons in Hin as [-> | Hin]; auto.
      * intros H name Hin. apply H. constructor. exact Hin.
Qed.

(** The header the loader computes is the header observed on the first
    row, when every cell of the row can be turned into text. *)
Lemma header_of_observed `{U : Unicode} `{R : Repr} (row0 : list pyval) (header : list pystr) :
  header_of row0 = Ok header <-> observed_header row0 header.
Proof.
  unfold observed_header. revert header. induction row0 as [|c r IH]; intros header;
    cbn [header_of].
  - split; [intros [= <-]; constructor | intros H; inversion H; reflexivity].
  - split.
    + intros H. apply bind_ok in H as (h & Hh & H). apply bind_ok in H as (hs & Hhs & H).
      injection H as <-. constructor; [|apply IH; exact Hhs].
      destruct c; [injection Hh as <-; left; split; reflexivity | ..];
        (apply bind_ok in Hh as (txt & Ht & Hh); injection Hh as <-;
         right; split; [discriminate | exists txt; split; [exact Ht | reflexivity]]).
    + intros H. inversion H as [|c' h r' hs Hc Hr]; subst.
      apply IH in Hr. rewrite Hr.
      destruct Hc as [[-> ->] | (Hne & text & Ht & ->)]; [reflexivity|].
      destruct c; try contradiction; rewrite Ht; reflexivity.
Qed.

(** C8 (as amended). For a one-sheet workbook whose header names no
    identifier column and whose rows pass none of the three layout tests
    of the loader (a metric label heading the first row and a value in the
    second; a metric label heading the second row and a value in the
    third; a metric label heading the second row of a sheet more than two
    columns wide), the loader raises the configuration error, and the
    message of that error ends with the list of the header entries as
    [repr] prints it, one entry for each cell of the first row: the text
    of the cell stripped and lower-cased, empty for a blank cell. *)
Theorem C8_layout_failure_raises_with_header
    `{U : Unicode} `{R : Repr} `{P : LayoutParsers}
    (ws : sheet) (row0 : list pyval) (rest : list (list pyval)) (header : list pystr) :
  sheet_rows ws = row0 :: rest ->
  observed_header row0 header ->
  (forall name, name ∈ id_cols -> name ∉ header) ->
  reads_label_then_value (row0 :: rest) = Ok false ->
  reads_header_label_value (row0 :: rest) = Ok false ->
  reads_label_column (row0 :: rest) = Ok false ->
  load_ground_truth_from_excel [ws]
  = Raise (ValueError (layout_message ++ repr_str_list header)).
Proof.
  intros Hrows Hh Hid H1 H2 H3.
  cbn [load_ground_truth_from_excel]. rewrite Hrows. cbn [load_single_sheet].
  apply header_of_observed in Hh. rewrite Hh. cbn [bind].
  apply find_id_col_none in Hid. rewrite Hid, H1. cbn [bind].
  rewrite H2. cbn [bind]. rewrite H3. reflexivity.
Qed.

(** The claim as stated fails: on a sheet with a title row, the label
    "Gross IRR" on the second row and the value "12%" in the second column
    of the third row, the header names no identifier column and none of the
    layout tests passes on the first two rows, yet the loader does not
    raise: the second test looks at the third row, and the sheet is read as
    label and value. *)
Lemma C8_third_row_counterexample :
  @header_of plain_unicode const_repr [VStr (u "Fund A"); VNone] = Ok [u "fund a"; []]
  /\ find_id_col id_cols [u "fund a"; []] = None
  /\ @reads_label_then_value plain_unicode const_repr
       (take 2 (sheet_rows titled_pair_sheet)) = Ok false
  /\ @reads_header_label_value plain_unicode const_repr
       (take 2 (sheet_rows titled_pair_sheet)) = Ok false
  /\ @reads_label_column plain_unicode const_repr
       (take 2 (sheet_rows titled_pair_sheet)) = Ok false
  /\ @load_ground_truth_from_excel plain_unicode const_repr empty_parsers [titled_pair_sheet]
     = Ok (∅, [([], [], gross_irr_12)], [gross_irr_12]).
Proof.
  repeat split; vm_compute; reflexivity.
Qed.

Lemma C8_layout_failure_witness :
  @load_ground_truth_from_excel plain_unicode const_repr empty_parsers [unreadable_sheet]
  = Raise (ValueError (u "Excel must have a GTPDF (or pdf/filename) column for document names, or use label-value layout. Found header: ['fund', 'value']")).
Proof.
  etransitivity.
  - apply (@C8_layout_failure_raises_with_header plain_unicode const_repr empty_parsers
             unreadable_sheet
             [VStr (u "Fund"); VStr (u "Value")]
             [[VStr (u "Alpha"); VStr (u "n/a")]]
             [u "fund"; u "value"]).
    + reflexivity.
    + apply header_of_observed. vm_compute. reflexivity.
    + apply find_id_col_none. vm_compute. reflexivity.
    + vm_compute. reflexivity.
    + vm_compute. reflexivity.
    + vm_compute. reflexivity.
  - vm_compute. reflexivity.
Defined.
(** * Further properties of the harness *)

(** ** Value normaliser *)

(** X1. [normalize_value] raises exactly on an integer that does not fit
    in a float, and then the exception is [OverflowError]; on every other
    value it returns. *)
Theorem normalize_value_raises_iff_int_overflows `{U : Unicode} (v : pyval) :
  ((exists e, normalize_value v = Raise e)
   <-> exists n, v = VInt n /\ is_finite (float_of_Z n) = false)
  /\ only_overflow (normalize_value v).
Proof.
  split; [|apply normalize_value_overflow]. split.
  - intros [e He]. destruct v; cbn [normalize_value] in He; try discriminate He.
    + destruct b; vm_compute in He; discriminate He.
    + exists n. split; [reflexivity|]. unfold float_of_int in He.
      destruct (is_finite (float_of_Z n)); [discriminate He | reflexivity].
  - intros (n & -> & Hn). cbn [normalize_value]. unfold float_of_int. rewrite Hn.
    cbn [bind]. eauto.
Qed.

Lemma normalize_value_raises_witness :
  exists e, @normalize_value plain_unicode (VInt huge_int) = Raise e.
Proof.
  apply (@normalize_value_raises_iff_int_overflows plain_unicode (VInt huge_int)).
  exists huge_int. split; [reflexivity | vm_compute; reflexivity].
Defined.

(** X2. Normalising is idempotent: feeding the result back (a float, or
    none) gives the same result, for every input that is not a string, and
    for a string whenever the number read from it is not NaN. *)
Theorem normalize_value_idempotent `{U : Unicode} (v : pyval) (r : option pyfloat) :
  normalize_value v = Ok r ->
  (forall s, v <> VStr s) \/ (forall x, r = Some x -> is_nan x = false) ->
  normalize_value (match r with Some x => VFloat x | None => VNone end) = Ok r.
Proof.
  intros Hv Hcase. destruct r as [x|]; [|reflexivity].
  cbn [normalize_value]. rewrite feqb_refl.
  assert (Hx : is_nan x = false); [|rewrite Hx; reflexivity].
  destruct Hcase as [Hns | Hnn]; [|apply Hnn; reflexivity].
  destruct v; cbn [normalize_value] in Hv; try discriminate Hv.
  - apply bind_ok in Hv as (y & Hy & [= <-]). destruct b; vm_compute in Hy;
      injection Hy as <-; reflexivity.
  - apply bind_ok in Hv as (y & Hy & [= <-]). unfold float_of_int in Hy.
    destruct (is_finite (float_of_Z n)) eqn:E; [|discriminate Hy].
    injection Hy as <-. destruct (float_of_Z n); try reflexivity; discriminate E.
  - rewrite feqb_refl in Hv. destruct (is_nan x0) eqn:E; cbn [negb] in Hv; [discriminate Hv|].
    injection Hv as <-. exact E.
  - exfalso. apply (Hns s). reflexivity.
Qed.

Lemma normalize_value_idempotent_witness :
  @normalize_value plain_unicode (VFloat f1_5) = Ok (Some f1_5).
Proof.
  apply (@normalize_value_idempotent plain_unicode (VStr (u "1.5x")) (Some f1_5)).
  - vm_compute. reflexivity.
  - right. intros x [= <-]. reflexivity.
Defined.

(** ** Liberal matching *)

Lemma value_in_numbers_iff (g : pyfloat) (numbers : list pyfloat) (tolerance : pyfloat)
    (allow_scale_flex : bool) :
  value_in_numbers g numbers tolerance allow_scale_flex = true
  <-> exists n, n ∈ numbers /\ number_matches g n tolerance allow_scale_flex.
Proof.
  induction numbers as [|n rest IH]; cbn [value_in_numbers].
  - split; [discriminate | intros (n & H & _); inversion H].
  - unfold number_matches in *.
    destruct (values_match (Some g) (Some n) tolerance) eqn:E1.
    { split; [|reflexivity]. intros _. exists n. split; [constructor | left; exact E1]. }
    destruct allow_scale_flex; cbn [andb].
    + destruct (values_match (Some g) (Some (fmul n f100)) tolerance) eqn:E2; cbn [orb].
      { split; [|reflexivity]. intros _. exists n. split; [constructor|]. right. auto. }
      destruct (values_match (Some g) (Some (fdiv n f100)) tolerance) eqn:E3.
      { split; [|reflexivity]. intros _. exists n. split; [constructor|]. right. auto. }
      rewrite IH. split.
      * intros (k & Hk & Hm). exists k. split; [constructor; exact Hk | exact Hm].
      * intros (k & Hk & Hm). apply elem_of_cons in Hk as [-> | Hk]; [|eauto].
        destruct Hm as [Hm | [_ [Hm | Hm]]]; congruence.
    + rewrite IH. split.
      * intros (k & Hk & Hm). exists k. split; [constructor; exact Hk | exact Hm].
      * intros (k & Hk & Hm). apply elem_of_cons in Hk as [-> | Hk]; [|eauto].
        destruct Hm as [Hm | [Hf _]]; congruence.
Qed.

(** X3. An expected value appears in the candidate numbers exactly when one
    of them is within the tolerance, as it is or, when scale flexibility is
    allowed, multiplied or divided by 100; an absent expected value always
    appears, and a present one never appears among no candidates. *)
Theorem gt_value_appears_iff_some_candidate_matches
    (gt_val : option pyfloat) (numbers : list pyfloat) (tolerance : pyfloat)
    (allow_scale_flex : bool) :
  gt_value_appears_in_set gt_val numbers tolerance allow_scale_flex = true
  <-> match gt_val with
      | None => True
      | Some g => exists n, n ∈ numbers /\ number_matches g n tolerance allow_scale_flex
      end.
Proof.
  destruct gt_val as [g|]; cbn [gt_value_appears_in_set]; [|tauto].
  apply value_in_numbers_iff.
Qed.

Lemma gt_value_appears_witness :
  gt_value_appears_in_set (Some f1_5) [f150] f0_01 true = true.
Proof.
  apply (gt_value_appears_iff_some_candidate_matches (Some f1_5) [f150] f0_01 true).
  exists f150. split; [constructor|]. right. split; [reflexivity|].
  right. vm_compute. reflexivity.
Defined.

(** X4. Liberal matching is monotone: a match flag that is 1 stays 1 when
    more candidate numbers are appended (as the numbers of the raw response
    are to those of the parsed data) and when scale flexibility is
    switched on; and a flag is always 0 or 1. *)
Theorem match_flag_monotone
    (gt_val : option pyfloat) (numbers more : list pyfloat) (tolerance : pyfloat)
    (allow_scale_flex : bool) :
  is_flag (match_flag gt_val numbers tolerance allow_scale_flex)
  /\ (match_flag gt_val numbers tolerance allow_scale_flex = 1 ->
      match_flag gt_val (numbers ++ more) tolerance allow_scale_flex = 1
      /\ match_flag gt_val (more ++ numbers) tolerance allow_scale_flex = 1
      /\ match_flag gt_val numbers tolerance true = 1).
Proof.
  unfold match_flag, is_flag. destruct gt_val as [g|]; [|auto].
  split; [destruct (gt_value_appears_in_set _ _ _ _); auto|].
  destruct (gt_value_appears_in_set (Some g) numbers tolerance allow_scale_flex) eqn:E;
    [|discriminate].
  intros _. cbn [gt_value_appears_in_set] in *. apply value_in_numbers_iff in E as (n & Hn & Hm).
  assert (Hflex : number_matches g n tolerance true).
  { destruct Hm as [Hm | [_ Hm]]; [left; exact Hm | right; auto]. }
  split; [|split].
  - rewrite (proj2 (value_in_numbers_iff g _ _ _)); [reflexivity|]. exists n. split; [apply elem_of_app; auto | exact Hm].
  - rewrite (proj2 (value_in_numbers_iff g _ _ _)); [reflexivity|]. exists n. split; [apply elem_of_app; auto | exact Hm].
  - rewrite (proj2 (value_in_numbers_iff g _ _ _)); [reflexivity|]. exists n. split; [exact Hn | exact Hflex].
Qed.

Lemma match_flag_monotone_witness :
  match_flag (Some f1_5) ([f1_5] ++ [f150]) f0_01 false = 1.
Proof.
  apply (match_flag_monotone (Some f1_5) [f1_5] [f150] f0_01 false).
  vm_compute. reflexivity.
Defined.

(** ** Score *)

Lemma scope_flags_only (gt : gmap pystr pyval) (i m d o i' m' d' o' : Z) :
  agree_in_scope gt i m d o i' m' d' o' ->
  match_count gt i m d o = match_count gt i' m' d' o'.
Proof.
  unfold agree_in_scope, match_count. intros (Hi & Hm & Hd & Ho).
  destruct (present gt (u "net_irr")), (present gt (u "net_moic")),
    (present gt (u "net_dpi")), (present gt (u "other_metric_value"));
    rewrite ?(Hi eq_refl), ?(Hm eq_refl), ?(Hd eq_refl), ?(Ho eq_refl); reflexivity.
Qed.

Lemma compute_score_unfold (gt : gmap pystr pyval) (i m d o : Z) :
  compute_score_from_gt_and_matches gt i m d o
  = if scope_count gt =? 0 then
      Ok {| irr_in_scope := present gt (u "net_irr");
            moic_in_scope := present gt (u "net_moic");
            dpi_in_scope := present gt (u "net_dpi");
            other_in_scope := present gt (u "other_metric_value");
            score_denom := 0; score_num := 0; overall_score := VStr [];
            no_metrics_in_scope := true; overall_score_is_na := 1 |}
    else
      let* q := int_truediv (match_count gt i m d o) (scope_count gt) in
      let* x := py_round q 4 in
      Ok {| irr_in_scope := present gt (u "net_irr");
            moic_in_scope := present gt (u "net_moic");
            dpi_in_scope := present gt (u "net_dpi");
            other_in_scope := present gt (u "other_metric_value");
            score_denom := scope_count gt; score_num := match_count gt i m d o;
            overall_score := VFloat x;
            no_metrics_in_scope := false; overall_score_is_na := 0 |}.
Proof. reflexivity. Qed.

(** X5. The score depends on the match flags of the metrics in scope only:
    two calls whose flags agree on every metric the ground truth provides
    return the same result, whatever the flags of the other metrics are. *)
Theorem score_ignores_out_of_scope_flags
    (gt : gmap pystr pyval) (i m d o i' m' d' o' : Z) :
  agree_in_scope gt i m d o i' m' d' o' ->
  compute_score_from_gt_and_matches gt i m d o
  = compute_score_from_gt_and_matches gt i' m' d' o'.
Proof.
  intros H. rewrite !compute_score_unfold, (scope_flags_only gt _ _ _ _ _ _ _ _ H).
  reflexivity.
Qed.

Lemma score_ignores_out_of_scope_witness :
  compute_score_from_gt_and_matches gt_other_only 1 1 1 0
  = compute_score_from_gt_and_matches gt_other_only 0 0 0 0.
Proof.
  apply score_ignores_out_of_scope_flags.
  repeat split; intros H; vm_compute in H; try discriminate H; reflexivity.
Defined.

(** X6. With the flags [evaluate_one] computes (each 0 or 1, and 1 for a
    metric whose expected value is absent), the score is always produced,
    and the number of matches it reports lies between 0 and the number of
    metrics in scope. *)
Theorem score_of_match_flags_returns
    (gt : gmap pystr pyval) (irr moic dpi other : option pyfloat)
    (numbers : list pyfloat) (tolerance : pyfloat) :
  exists s,
    compute_score_from_gt_and_matches gt
      (match_flag irr numbers tolerance true) (match_flag moic numbers tolerance false)
      (match_flag dpi numbers tolerance false) (match_flag other numbers tolerance true)
    = Ok s
    /\ 0 <= score_num s <= score_denom s /\ score_denom s <= 4.
Proof.
  set (i := match_flag irr numbers tolerance true).
  set (m := match_flag moic numbers tolerance false).
  set (d := match_flag dpi numbers tolerance false).
  set (o := match_flag other numbers tolerance true).
  assert (Hflag : forall g fl, is_flag (match_flag g numbers tolerance fl)).
  { intros g fl. unfold match_flag, is_flag. destruct g; [|auto].
    destruct (gt_value_appears_in_set _ _ _ _); auto. }
  assert (Hi : is_flag i) by apply Hflag. assert (Hm : is_flag m) by apply Hflag.
  assert (Hd : is_flag d) by apply Hflag. assert (Ho : is_flag o) by apply Hflag.
  clearbody i m d o. rewrite compute_score_unfold.
  assert (Hb : 0 <= match_count gt i m d o <= scope_count gt /\ 0 <= scope_count gt <= 4).
  { unfold match_count, scope_count.
    destruct Hi as [-> | ->], Hm as [-> | ->], Hd as [-> | ->], Ho as [-> | ->];
      destruct (present gt (u "net_irr")), (present gt (u "net_moic")),
        (present gt (u "net_dpi")), (present gt (u "other_metric_value"));
      cbn [b2z]; lia. }
  destruct (scope_count gt =? 0) eqn:E.
  - eexists. split; [reflexivity|]. cbn [score_num score_denom]. lia.
  - apply Z.eqb_neq in E.
    destruct (small_ratio_rounds (match_count gt i m d o) (scope_count gt))
      as (q & x & Hq & Hx); [lia | lia |].
    rewrite Hq. cbn [bind]. rewrite Hx. cbn [bind].
    eexists. split; [reflexivity|]. cbn [score_num score_denom]. lia.
Qed.

(** ** Shape of normalised names *)

Lemma lstrip_by_elem (p : char -> bool) (s : pystr) (c : char) :
  c ∈ lstrip_by p s -> c ∈ s.
Proof.
  induction s as [|a r IH]; cbn [lstrip_by]; [auto|].
  destruct (p a); [intros H; right; auto | auto].
Qed.

Lemma rstrip_by_elem (p : char -> bool) (s : pystr) (c : char) :
  c ∈ rstrip_by p s -> c ∈ s.
Proof.
  unfold rstrip_by. rewrite !list_elem_of_In, <- !in_rev, <- !list_elem_of_In.
  intros H. apply lstrip_by_elem in H. rewrite list_elem_of_In, <- in_rev in H.
  apply list_elem_of_In. exact H.
Qed.

Lemma strip_elem (s : pystr) (c : char) : c ∈ strip s -> c ∈ s.
Proof. unfold strip. intros H. apply rstrip_by_elem, lstrip_by_elem in H. exact H. Qed.

Lemma split_ws_aux_elem (cur s tok : pystr) (c : char) :
  tok ∈ split_ws_aux cur s -> c ∈ tok ->
  c ∈ cur \/ (c ∈ s /\ is_space c = false).
Proof.
  revert cur. induction s as [|a r IH]; intros cur; cbn [split_ws_aux].
  - destruct cur as [|x cur']; [intros H; inversion H|].
    intros H Hc. apply list_elem_of_singleton in H. subst tok.
    left. rewrite list_elem_of_In in Hc |- *. apply in_rev. exact Hc.
  - destruct (is_space a) eqn:Ea.
    + destruct cur as [|x cur'].
      * intros H Hc. destruct (IH [] H Hc) as [Hin | [Hin Hs]]; [inversion Hin|].
        right. split; [right; exact Hin | exact Hs].
      * intros H Hc. apply elem_of_cons in H as [-> | H].
        -- left. rewrite list_elem_of_In in Hc |- *. apply in_rev. exact Hc.
        -- destruct (IH [] H Hc) as [Hin | [Hin Hs]]; [inversion Hin|].
           right. split; [right; exact Hin | exact Hs].
    + intros H Hc. destruct (IH (a :: cur) H Hc) as [Hin | [Hin Hs]].
      * apply elem_of_cons in Hin as [-> | Hin]; [|left; exact Hin].
        right. split; [left | exact Ea].
      * right. split; [right; exact Hin | exact Hs].
Qed.

Lemma split_ws_elem (s tok : pystr) (c : char) :
  tok ∈ split_ws s -> c ∈ tok -> c ∈ s /\ is_space c = false.
Proof.
  intros H Hc. destruct (split_ws_aux_elem [] s tok c H Hc) as [Hin | Hr];
    [inversion Hin | exact Hr].
Qed.

Lemma str_join_elem (sep : pystr) (parts : list pystr) (c : char) :
  c ∈ str_join sep parts -> c ∈ sep \/ exists p, p ∈ parts /\ c ∈ p.
Proof.
  induction parts as [|p r IH]; cbn [str_join]; [intros H; inversion H|].
  destruct r as [|q r'].
  - intros H. right. exists p. split; [left | exact H].
  - rewrite !elem_of_app. intros [H | [H | H]].
    + right. exists p. split; [left | exact H].
    + left. exact H.
    + destruct (IH H) as [Hs | (x & Hx & Hc)]; [left; exact Hs|].
      right. exists x. split; [right; exact Hx | exact Hc].
Qed.

(** The characters of [" ".join(s.split())] are the blank and the
    characters of [s] that are not whitespace. *)
Lemma collapsed_elem (s : pystr) (c : char) :
  c ∈ str_join (u " ") (split_ws s) -> c = 32%N \/ (c ∈ s /\ is_space c = false).
Proof.
  intros H. apply str_join_elem in H as [H | (p & Hp & Hc)].
  - left. apply list_elem_of_singleton in H. exact H.
  - right. eapply split_ws_elem; eassumption.
Qed.

(** X7. A canonical label is made of word characters and single blanks
    only, and the lookup form of a label, in which the blanks become
    underscores, of word characters only; a blank label gives the empty
    string in both. *)
Theorem canonical_labels_are_words `{U : Unicode} (label : pystr) :
  (forall c, c ∈ canonicalize_label label -> c = 32%N \/ is_word c = true)
  /\ (forall c, c ∈ _normalize_label_for_lookup label -> is_word c = true)
  /\ (strip label = [] ->
      canonicalize_label label = [] /\ _normalize_label_for_lookup label = []).
Proof.
  assert (H1 : forall c, c ∈ canonicalize_label label -> c = 32%N \/ is_word c = true).
  { intros c. unfold canonicalize_label. destruct (strip label); [intros H; inversion H|].
    intros H. apply strip_elem, collapsed_elem in H as [-> | [Hin Hs]]; [left; reflexivity|].
    right. apply list_elem_of_fmap in Hin as (x & -> & _).
    destruct (is_word x) eqn:Ew; cbn [orb] in *; [exact Ew|].
    destruct (is_space x) eqn:Ex; [congruence|]. vm_compute in Hs. discriminate Hs. }
  split; [exact H1|]. split.
  - intros c. unfold _normalize_label_for_lookup.
    destruct (canonicalize_label label) as [|a r] eqn:E; [intros H; inversion H|].
    intros H. unfold replace_char in H. apply list_elem_of_fmap in H as (x & -> & Hx).
    destruct (N.eqb_spec x 32); [unfold is_word; rewrite orb_true_r; reflexivity|].
    destruct (H1 x Hx) as [-> | Hw]; [contradiction | exact Hw].
  - intros Hs. unfold _normalize_label_for_lookup, canonicalize_label. rewrite Hs. auto.
Qed.

Lemma canonical_labels_witness :
  @canonicalize_label plain_unicode (u "  ") = [].
Proof.
  destruct (@canonical_labels_are_words plain_unicode (u "  ")) as (_ & _ & H).
  destruct H as [H _]; [vm_compute; reflexivity | exact H].
Defined.

(** X8. A name normalised for matching is made of alphanumeric characters
    and single blanks only: punctuation and every kind of whitespace are
    gone. *)
Theorem normalized_names_are_alphanumeric `{U : Unicode} (s : pystr) :
  forall c, c ∈ _normalize_for_match s -> c = 32%N \/ (is_alnum c = true /\ is_space c = false).
Proof.
  intros c H. unfold _normalize_for_match in H.
  apply collapsed_elem in H as [-> | [Hin Hs]]; [left; reflexivity|].
  right. split; [|exact Hs]. apply strip_elem in Hin.
  apply list_elem_of_fmap in Hin as (x & -> & _).
  destruct (is_alnum x) eqn:Ea; cbn [orb] in *; [exact Ea|].
  destruct (is_space x) eqn:Ex; [congruence|]. vm_compute in Hs. discriminate Hs.
Qed.

Lemma underscore_runs_elem (in_run : bool) (s : pystr) (c : char) :
  c ∈ underscore_runs in_run s -> c = 95%N \/ (c ∈ s /\ is_space c = false).
Proof.
  revert in_run. induction s as [|a r IH]; intros in_run; cbn [underscore_runs];
    [intros H; inversion H|].
  destruct (is_space a) eqn:Ea.
  - destruct in_run.
    + intros H. destruct (IH _ H) as [-> | [Hin Hs]]; [left; reflexivity|].
      right. split; [right; exact Hin | exact Hs].
    + intros H. apply elem_of_cons in H as [-> | H]; [left; reflexivity|].
      destruct (IH _ H) as [-> | [Hin Hs]]; [left; reflexivity|].
      right. split; [right; exact Hin | exact Hs].
  - intros H. apply elem_of_cons in H as [-> | H].
    + right. split; [left | exact Ea].
    + destruct (IH _ H) as [-> | [Hin Hs]]; [left; reflexivity|].
      right. split; [right; exact Hin | exact Hs].
Qed.

(** X9. The column name made from a metric label is never empty and holds
    word characters only (letters, digits, underscore): no blank, no
    punctuation. *)
Theorem column_names_are_identifiers `{U : Unicode} (label : pystr) :
  _sanitize_metric_column_name label <> []
  /\ forall c, c ∈ _sanitize_metric_column_name label -> is_word c = true.
Proof.
  assert (Hother : forall c, c ∈ u "other" -> is_word c = true).
  { intros c Hc. apply list_elem_of_In in Hc. vm_compute in Hc.
    destruct Hc as [<- | [<- | [<- | [<- | [<- | []]]]]]; reflexivity. }
  unfold _sanitize_metric_column_name.
  destruct (strip label); [split; [discriminate | exact Hother]|].
  destruct (rstrip_by is_underscore _) as [|a r] eqn:E;
    [split; [discriminate | exact Hother]|].
  split; [discriminate|]. intros c Hc. rewrite <- E in Hc.
  apply rstrip_by_elem, lstrip_by_elem, underscore_runs_elem in Hc as [-> | [Hin Hs]].
  - unfold is_word. rewrite orb_true_r. reflexivity.
  - apply list_elem_of_filter in Hin as [Hw _].
    rewrite Hs, orb_false_r in Hw. exact Hw.
Qed.

Lemma normalized_names_witness :
  97%N = 32%N \/ (@is_alnum plain_unicode 97%N = true /\ is_space 97%N = false).
Proof.
  apply (@normalized_names_are_alphanumeric plain_unicode (u "A.")).
  apply list_elem_of_In. vm_compute. left. reflexivity.
Defined.

Lemma column_names_witness : @is_word plain_unicode 95%N = true.
Proof.
  destruct (@column_names_are_identifiers plain_unicode (u "Gross TVPI")) as [_ H].
  apply H. apply list_elem_of_In. vm_compute. do 5 right. left. reflexivity.
Defined.

(** ** Canonicaliser: where each canonical value comes from *)

Lemma set_named_lookup `{U : Unicode} (pred_json : gmap pystr pyval) (keys : list pystr)
    (out out' : gmap pystr (option pyfloat)) (k : pystr) :
  (k ∈ keys -> is_none (dict_get pred_json k) = true) ->
  set_named pred_json keys out = Ok out' -> out' !! k = out !! k.
Proof.
  revert out. induction keys as [|key r IH]; intros out Hk; cbn [set_named].
  - intros [= <-]. reflexivity.
  - assert (Hr : k ∈ r -> is_none (dict_get pred_json k) = true)
      by (intros H; apply Hk; right; exact H).
    destruct (pred_json !! key) as [v|] eqn:E; [|apply IH; exact Hr].
    destruct (is_none v) eqn:En; [apply IH; exact Hr|].
    intros H. apply bind_ok in H as (x & _ & H).
    rewrite (IH _ Hr H). apply lookup_insert_ne. intros ->.
    assert (Hv : dict_get pred_json k = v) by (unfold dict_get; rewrite E; reflexivity).
    rewrite Hv in Hk. rewrite Hk in En; [discriminate | left].
Qed.

Lemma set_other_lookup `{U : Unicode} `{R : Repr} (pred_json : gmap pystr pyval)
    (out out' : gmap pystr (option pyfloat)) (k : pystr) :
  (forall label, table_get OTHER_LABEL_TO_CANONICAL label <> Some k) ->
  set_other pred_json out = Ok out' -> out' !! k = out !! k.
Proof.
  intros Hk. unfold set_other.
  assert (Hset : forall ck ov, ck <> k ->
            (if unset out ck
             then let* x := normalize_value ov in Ok (<[ck := x]> out)
             else Ok out) = Ok out' -> out' !! k = out !! k).
  { intros ck ov Hne. destruct (unset out ck).
    - intros H. apply bind_ok in H as (x & _ & H). injection H as H. subst out'.
      apply lookup_insert_ne. exact Hne.
    - intros H. injection H as H. subst out'. reflexivity. }
  destruct (is_none _); [intros H; injection H as H; subst out'; reflexivity|].
  destruct (py_str _) as [txt|e]; cbn [bind]; [|discriminate].
  destruct (_ && _); [|intros H; injection H as H; subst out'; reflexivity].
  destruct (table_get _ _) as [ck|] eqn:E1.
  - apply Hset. intros ->. exact (Hk _ E1).
  - destruct (table_get OTHER_LABEL_TO_CANONICAL (replace_char _ _ _)) as [ck|] eqn:E2.
    + apply Hset. intros ->. exact (Hk _ E2).
    + intros H; injection H as H; subst out'; reflexivity.
Qed.

Lemma table_never_gives (k : pystr) :
  k ∉ (OTHER_LABEL_TO_CANONICAL.*2) ->
  forall label, table_get OTHER_LABEL_TO_CANONICAL label <> Some k.
Proof.
  intros Hk label. generalize dependent Hk. generalize OTHER_LABEL_TO_CANONICAL as t.
  induction t as [|[a b] t IH]; cbn [table_get fmap list_fmap snd]; [discriminate|].
  intros Hk. apply not_elem_of_cons in Hk as [Hne Hk].
  destruct (pystr_eqb a label); [intros [= ->]; contradiction | apply IH; exact Hk].
Qed.

(** X10. Each of the four core canonical values comes from its own two keys
    alone: it is the normalised value of the new-schema field when that is
    truthy, else of the old-schema field.  No named field and no
    other-metric label can overwrite irr, moic, dpi or tvpi. *)
Theorem core_metrics_from_core_keys `{U : Unicode} `{R : Repr}
    (pred_json : gmap pystr pyval) (out : gmap pystr (option pyfloat))
    (new_key old_key : pystr) :
  (new_key, old_key) ∈ core_pairs ->
  normalize_prediction pred_json = Ok out ->
  exists x, out !! new_key = Some x
    /\ normalize_value (py_or (dict_get pred_json new_key) (dict_get pred_json old_key)) = Ok x
    /\ (truthy (dict_get pred_json new_key) = true ->
        normalize_value (dict_get pred_json new_key) = Ok x)
    /\ (truthy (dict_get pred_json new_key) = false ->
        normalize_value (dict_get pred_json old_key) = Ok x).
Proof.
  intros Hpair Hout.
  assert (Hgoal : exists x, out !! new_key = Some x
            /\ normalize_value (py_or (dict_get pred_json new_key)
                                      (dict_get pred_json old_key)) = Ok x).
  { unfold normalize_prediction in Hout.
    destruct (map_to_list pred_json) as [|p l] eqn:E.
    - injection Hout as <-. rewrite !(dict_get_empty pred_json _ E).
      exists None. split; [|reflexivity].
      repeat (apply elem_of_cons in Hpair as [[= -> ->] | Hpair];
              [vm_compute; reflexivity|]).
      inversion Hpair.
    - apply bind_ok in Hout as (irr & Hirr & H). apply bind_ok in H as (moic & Hmoic & H).
      apply bind_ok in H as (dpi & Hdpi & H). apply bind_ok in H as (tvpi & Htvpi & H).
      apply bind_ok in H as (out1 & H1 & H2).
      assert (Hk : (new_key ∉ named_fields) /\ (new_key ∉ (OTHER_LABEL_TO_CANONICAL.*2))).
      { repeat (apply elem_of_cons in Hpair as [[= -> ->] | Hpair];
                [split; apply (bool_decide_unpack _); vm_compute; reflexivity|]).
        inversion Hpair. }
      destruct Hk as [Hk1 Hk2].
      rewrite (set_other_lookup pred_json out1 out new_key (table_never_gives _ Hk2) H2).
      rewrite (set_named_lookup pred_json named_fields _ out1 new_key
                 ltac:(intros Hin; contradiction) H1).
      unfold core_metric in *.
      repeat (apply elem_of_cons in Hpair as [[= -> ->] | Hpair];
              [eexists; split; [|eassumption];
               rewrite ?lookup_insert_eq; try reflexivity;
               repeat (rewrite lookup_insert_ne by (intros Hq; vm_compute in Hq; discriminate Hq));
               rewrite ?lookup_insert_eq; reflexivity|]).
      inversion Hpair. }
  destruct Hgoal as (x & Hx & Hv). exists x. split; [exact Hx|]. split; [exact Hv|].
  unfold py_or in Hv. split; intros Ht; rewrite Ht in Hv; exact Hv.
Qed.

Lemma core_metrics_witness :
  exists x, @normalize_value plain_unicode (dict_get pred_zero_dpi (u "net_dpi")) = Ok x.
Proof.
  assert (E : @normalize_prediction plain_unicode const_repr pred_zero_dpi
              = Ok canon_zero_dpi) by (vm_compute; reflexivity).
  destruct (@core_metrics_from_core_keys plain_unicode const_repr pred_zero_dpi
              canon_zero_dpi (u "dpi") (u "net_dpi")) as (x & _ & _ & _ & H).
  - right. right. left.
  - exact E.
  - exists x. apply H. vm_compute. reflexivity.
Defined.

Lemma table_get_value {A} (t : list (pystr * A)) (label : pystr) (v : A) :
  table_get t label = Some v -> v ∈ t.*2.
Proof.
  induction t as [|[a b] t IH]; cbn [table_get fmap list_fmap snd]; [discriminate|].
  destruct (pystr_eqb a label); [intros [= ->]; left | intros H; right; apply IH; exact H].
Qed.

Lemma label_key_value `{U : Unicode} (label key : pystr) :
  label_key label = Some key -> key ∈ OTHER_LABEL_TO_CANONICAL.*2.
Proof.
  unfold label_key. destruct (table_get _ _) as [k|] eqn:E.
  - intros [= <-]. eapply table_get_value. exact E.
  - apply table_get_value.
Qed.

Lemma other_keys_facts (key : pystr) :
  key ∈ OTHER_LABEL_TO_CANONICAL.*2 ->
  key <> u "irr" /\ key <> u "moic" /\ key <> u "dpi" /\ key <> u "tvpi"
  /\ key ∈ CANONICAL_KEYS.
Proof.
  assert (H : Forall (fun k : pystr =>
                k <> u "irr" /\ k <> u "moic" /\ k <> u "dpi" /\ k <> u "tvpi"
                /\ k ∈ CANONICAL_KEYS) (OTHER_LABEL_TO_CANONICAL.*2)).
  { apply (bool_decide_unpack _). vm_compute. reflexivity. }
  rewrite Forall_forall in H. apply H.
Qed.

Lemma all_none_lookup (k : pystr) :
  k ∈ CANONICAL_KEYS -> (all_none : gmap pystr (option pyfloat)) !! k = Some None.
Proof.
  intros Hk. apply all_none_keys in Hk as [v Hv].
  assert (Hn : v = None).
  { unfold all_none in Hv. apply elem_of_list_to_map_2 in Hv.
    apply list_elem_of_fmap in Hv as (k0 & Heq & _). congruence. }
  subst v. exact Hv.
Qed.

(** X11. An other-metric pair survives the round trip through the canonical
    dictionary: when the label of the prediction maps to a canonical key
    and the prediction does not give that key as a named field, the value
    that [resolve_other_pred_from_canon] reads back under the same label is
    the normalised other-metric value. *)
Theorem other_metric_round_trip `{U : Unicode} `{R : Repr}
    (pred_json : gmap pystr pyval) (out : gmap pystr (option pyfloat))
    (label key : pystr) (v : pyval) :
  dict_get pred_json (u "other_metric_label") = VStr label ->
  strip label <> [] ->
  dict_get pred_json (u "other_metric_value") = v -> v <> VNone ->
  label_key label = Some key ->
  is_none (dict_get pred_json key) = true ->
  normalize_prediction pred_json = Ok out ->
  exists x, normalize_value v = Ok x /\ out !! key = Some x
    /\ resolve_other_pred_from_canon out (Some label) = x.
Proof.
  intros Hol Hstrip Hov Hv Hkey Hnamed Hout.
  destruct (other_keys_facts key (label_key_value label key Hkey))
    as (N1 & N2 & N3 & N4 & Hcanon).
  unfold normalize_prediction in Hout.
  destruct (map_to_list pred_json) as [|p l] eqn:E.
  { rewrite (dict_get_empty pred_json _ E) in Hol. discriminate Hol. }
  apply bind_ok in Hout as (irr & _ & H). apply bind_ok in H as (moic & _ & H).
  apply bind_ok in H as (dpi & _ & H). apply bind_ok in H as (tvpi & _ & H).
  apply bind_ok in H as (out1 & H1 & H2).
  assert (Hout1 : out1 !! key = Some None).
  { etransitivity;
      [exact (set_named_lookup pred_json named_fields _ out1 key (fun _ => Hnamed) H1)|].
    do 4 (etransitivity; [apply lookup_insert_ne; congruence|]).
    exact (all_none_lookup key Hcanon). }
  assert (Hunset : unset out1 key = true) by (unfold unset; rewrite Hout1; reflexivity).
  unfold set_other in H2. rewrite Hol, Hov in H2. cbn [py_str is_none bind] in H2.
  rewrite (bool_decide_eq_true_2 _ Hstrip) in H2.
  assert (Hnv : negb (is_none v) = true) by (destruct v; try reflexivity; contradiction).
  rewrite Hnv in H2. cbn [andb] in H2.
  assert (Hins : exists x, normalize_value v = Ok x /\ out = <[key := x]> out1).
  { unfold label_key in Hkey.
    destruct (table_get OTHER_LABEL_TO_CANONICAL (_normalize_label_for_lookup label))
      as [k|] eqn:E1.
    - injection Hkey as ->. rewrite Hunset in H2.
      apply bind_ok in H2 as (x & Hx & [= <-]). eauto.
    - rewrite Hkey, Hunset in H2. apply bind_ok in H2 as (x & Hx & [= <-]). eauto. }
  destruct Hins as (x & Hx & ->). exists x. split; [exact Hx|].
  split; [apply lookup_insert_eq|].
  unfold resolve_other_pred_from_canon.
  destruct (strip label); [contradiction|]. rewrite Hkey.
  etransitivity; [apply (f_equal (default None)); apply lookup_insert_eq | reflexivity].
Qed.

Lemma other_metric_round_trip_witness :
  @resolve_other_pred_from_canon plain_unicode canon_current_yield (Some (u "Current Yield"))
  = Some f1_5.
Proof.
  destruct (@other_metric_round_trip plain_unicode const_repr pred_current_yield
              canon_current_yield (u "Current Yield") (u "current_yield") (VFloat f1_5))
    as (x & Hx & _ & Hr).
  - vm_compute. reflexivity.
  - vm_compute. discriminate.
  - vm_compute. reflexivity.
  - discriminate.
  - vm_compute. reflexivity.
  - vm_compute. reflexivity.
  - vm_compute. reflexivity.
  - vm_compute in Hx. injection Hx as <-. exact Hr.
Defined.

(** ** Extractor: the object that is cut out *)

Lemma scan_braces_shape (depth : nat) (acc s r : pystr) :
  (1 <= depth)%nat -> scan_braces depth acc s = Some r ->
  exists pre post,
    s = pre ++ [125%N] ++ post /\ r = rev acc ++ pre ++ [125%N]
    /\ (count_char 123%N pre + depth = count_char 125%N pre + 1)%nat.
Proof.
  revert depth acc. induction s as [|c t IH]; intros depth acc Hd; cbn [scan_braces];
    [discriminate|].
  destruct (N.eqb_spec c 123) as [-> | H123].
  - intros H. apply IH in H as (pre & post & -> & -> & Hc); [|lia].
    exists (123%N :: pre), post. split; [reflexivity|]. split.
    + cbn [rev]. rewrite <- !app_assoc. reflexivity.
    + rewrite !count_char_cons. cbn. lia.
  - destruct (N.eqb_spec c 125) as [-> | H125].
    + destruct depth as [|[|d]]; [lia| |].
      * intros [= <-]. exists [], t. split; [reflexivity|]. split.
        -- cbn [rev app]. reflexivity.
        -- reflexivity.
      * intros H. apply IH in H as (pre & post & -> & -> & Hc); [|cbn; lia].
        exists (125%N :: pre), post. split; [reflexivity|]. split.
        -- cbn [rev]. rewrite <- !app_assoc. reflexivity.
        -- rewrite !count_char_cons. cbn in *. lia.
    + intros H. apply IH in H as (pre & post & -> & -> & Hc); [|lia].
      exists (c :: pre), post. split; [reflexivity|]. split.
      * cbn [rev]. rewrite <- !app_assoc. reflexivity.
      * rewrite !count_char_cons.
        destruct (N.eqb_spec c 123); [contradiction|].
        destruct (N.eqb_spec c 125); [contradiction|]. cbn. lia.
Qed.

Lemma str_find_from_brace (s : pystr) (i j : nat) :
  str_find_from [123%N] s i = Some j ->
  exists k t, j = (i + k)%nat /\ drop k s = 123%N :: t /\ (k <= length s)%nat.
Proof.
  revert i. induction s as [|c r IH]; intros i; cbn [str_find_from starts_with];
    [discriminate|].
  destruct (N.eqb_spec 123 c) as [<- | Hne]; cbn [andb].
  - intros [= <-]. exists 0%nat, r. rewrite Nat.add_0_r. cbn. repeat split. lia.
  - intros H. apply IH in H as (k & t & -> & Hd & Hk).
    exists (S k), t. cbn [drop length]. repeat split; [lia | exact Hd | lia].
Qed.

(** X12. The object the extractor cuts out is a piece of the text it scans
    that starts with an opening brace, ends with a closing brace and holds
    as many opening as closing braces; the scan begins at the first opening
    brace, so no brace precedes the piece. *)
Theorem first_object_is_balanced `{U : Unicode} (text snippet : pystr) :
  _extract_first_json_object text = Some snippet ->
  exists before body after,
    scanned_text text = before ++ snippet ++ after
    /\ snippet = [123%N] ++ body ++ [125%N]
    /\ count_char 123%N snippet = count_char 125%N snippet
    /\ count_char 123%N before = 0%nat.
Proof.
  unfold _extract_first_json_object. fold (scanned_text text).
  destruct (str_find [123%N] (scanned_text text)) as [start|] eqn:E; [|discriminate].
  intros H. unfold str_find in E.
  assert (Hbefore : count_char 123%N (take start (scanned_text text)) = 0%nat).
  { clear H. revert E. generalize (scanned_text text). intros s.
    assert (G : forall i j, str_find_from [123%N] s i = Some j ->
                  count_char 123%N (take (j - i) s) = 0%nat /\ (i <= j)%nat).
    { induction s as [|c r IH]; intros i j; cbn [str_find_from starts_with];
        [discriminate|].
      destruct (N.eqb_spec 123 c) as [<- | Hne]; cbn [andb].
      - intros [= <-]. rewrite Nat.sub_diag. split; [reflexivity | lia].
      - intros Hf. destruct (IH _ _ Hf) as [Hc Hle]. split; [|lia].
        replace (j - i)%nat with (S (j - S i)) by lia. cbn [take].
        rewrite count_char_cons, Hc.
        destruct (N.eqb_spec c 123); [congruence | reflexivity]. }
    intros E. destruct (G 0%nat start E) as [Hc _]. rewrite Nat.sub_0_r in Hc. exact Hc. }
  apply str_find_from_brace in E as (k & t & Hk & Hd & _). cbn in Hk. subst k.
  rewrite Hd in H. cbn [scan_braces] in H. cbn in H.
  apply scan_braces_shape in H as (pre & post & -> & -> & Hc); [|lia].
  exists (take start (scanned_text text)), pre, post.
  split; [|split; [|split]].
  - rewrite <- (take_drop start (scanned_text text)) at 1. rewrite Hd.
    cbn [rev app]. rewrite <- !app_assoc. reflexivity.
  - reflexivity.
  - cbn [rev app]. rewrite !count_char_cons, !count_char_app, !count_char_cons.
    change (count_char 123%N []) with 0%nat. change (count_char 125%N []) with 0%nat.
    cbn [N.eqb Pos.eqb]. lia.
  - exact Hbefore.
Qed.

Lemma first_object_witness :
  exists before body after,
    @scanned_text plain_unicode (u "see {a{b}c} and {d}") = before ++ u "{a{b}c}" ++ after
    /\ u "{a{b}c}" = [123%N] ++ body ++ [125%N]
    /\ count_char 123%N (u "{a{b}c}") = count_char 125%N (u "{a{b}c}")
    /\ count_char 123%N before = 0%nat.
Proof.
  apply (@first_object_is_balanced plain_unicode (u "see {a{b}c} and {d}")).
  vm_compute. reflexivity.
Defined.

(** ** Extractor: the two repairs of a snippet *)

Lemma repair_only_backslashes (n : nat) (s : pystr) :
  (length s <= n)%nat ->
  without is_backslash (_repair_invalid_escapes s) = without is_backslash s
  /\ (length (_repair_invalid_escapes s) <= length s)%nat.
Proof.
  revert s. induction n as [|n IH]; intros s Hn.
  - destruct s; [split; reflexivity | cbn in Hn; lia].
  - destruct s as [|b t]; [split; reflexivity|].
    cbn [length] in Hn. cbn [_repair_invalid_escapes].
    destruct (N.eqb_spec b 92) as [-> | Hb].
    + destruct t as [|c r]; [split; reflexivity|].
      destruct (negb (valid_escape (c :: r)) && negb (c =? 10)%N).
      * destruct (IH r) as [Hf Hl]; [cbn [length] in Hn; lia|].
        unfold without in *. cbn [List.filter is_backslash N.eqb Pos.eqb negb].
        rewrite Hf. split; [reflexivity | cbn [length]; lia].
      * destruct (IH (c :: r)) as [Hf Hl]; [lia|].
        unfold without in *. cbn [List.filter] in *. rewrite Hf.
        split; [reflexivity | cbn [length] in *; lia].
    + destruct (IH t) as [Hf Hl]; [lia|].
      unfold without in *. cbn [List.filter]. rewrite Hf.
      split; [reflexivity | cbn [length]; lia].
Qed.

Lemma repair_without_backslash (s : pystr) :
  92%N ∉ s -> _repair_invalid_escapes s = s.
Proof.
  induction s as [|b t IH]; [reflexivity|].
  rewrite not_elem_of_cons. intros [Hb Ht]. cbn [_repair_invalid_escapes].
  destruct (N.eqb_spec b 92) as [-> | _]; [contradiction|].
  rewrite (IH Ht). reflexivity.
Qed.

(** X13. The escape repair takes out backslashes and nothing else: the
    text without its backslashes is the same before and after, the result
    is never longer, and a text that holds no backslash comes back as it
    is. *)
Theorem repair_removes_only_backslashes (s : pystr) :
  without is_backslash (_repair_invalid_escapes s) = without is_backslash s
  /\ (length (_repair_invalid_escapes s) <= length s)%nat
  /\ (92%N ∉ s -> _repair_invalid_escapes s = s).
Proof.
  destruct (repair_only_backslashes (length s) s) as [Hf Hl]; [lia|].
  split; [exact Hf|]. split; [exact Hl | apply repair_without_backslash].
Qed.

Lemma repair_removes_only_backslashes_witness :
  _repair_invalid_escapes (u "{a: 1}") = u "{a: 1}".
Proof.
  apply (repair_removes_only_backslashes (u "{a: 1}")).
  apply (bool_decide_unpack _). vm_compute. reflexivity.
Defined.

Lemma drop_trailing_commas_skip (close : char) (skip : nat) (s : pystr) :
  drop_trailing_commas close skip s = drop_trailing_commas close 0 (drop skip s).
Proof.
  revert skip. induction s as [|c r IH]; intros [|k]; try reflexivity.
  cbn [drop_trailing_commas drop]. apply IH.
Qed.

Lemma without_app (p : char -> bool) (a b : pystr) :
  without p (a ++ b) = without p a ++ without p b.
Proof. apply List.filter_app. Qed.

Lemma without_cons (p : char -> bool) (c : char) (s : pystr) :
  without p (c :: s) = (if p c then [] else [c]) ++ without p s.
Proof. unfold without. cbn [List.filter]. destruct (p c); reflexivity. Qed.

Lemma without_spaces (ws : pystr) :
  Forall (fun c => is_space c = true) ws -> without comma_or_space ws = [].
Proof.
  induction 1 as [|c r Hc _ IH]; [reflexivity|].
  unfold without, comma_or_space in *. cbn [List.filter].
  rewrite Hc, orb_true_r. exact IH.
Qed.

Lemma drop_trailing_commas_only (close : char) (n : nat) (s : pystr) :
  (length s <= n)%nat ->
  without comma_or_space (drop_trailing_commas close 0 s) = without comma_or_space s
  /\ (length (drop_trailing_commas close 0 s) <= length s)%nat.
Proof.
  revert s. induction n as [|n IH]; intros s Hn.
  - destruct s; [split; reflexivity | cbn in Hn; lia].
  - destruct s as [|c r]; [split; reflexivity|].
    cbn [length] in Hn. cbn [drop_trailing_commas].
    assert (Hkeep : without comma_or_space (c :: drop_trailing_commas close 0 r)
                    = without comma_or_space (c :: r)
                    /\ (length (c :: drop_trailing_commas close 0 r) <= length (c :: r))%nat).
    { destruct (IH r) as [Hf Hl]; [lia|].
      unfold without in *. cbn [List.filter]. rewrite Hf.
      split; [reflexivity | cbn [length]; lia]. }
    destruct (N.eqb_spec c 44) as [-> | Hc]; [|exact Hkeep].
    destruct (take_while is_space r) as [ws t] eqn:E.
    destruct t as [|d t']; [exact Hkeep|].
    destruct (N.eqb_spec d close) as [-> | Hd]; [|exact Hkeep].
    apply take_while_spec in E as [-> Hws].
    rewrite drop_trailing_commas_skip.
    match goal with
    | |- context [drop ?k ?l] =>
      assert (Hdrop : drop k l = t')
        by (clear; induction ws as [|w ws IHws]; [reflexivity | exact IHws]);
      rewrite Hdrop; clear Hdrop
    end.
    destruct (IH t') as [Hf Hl].
    { rewrite length_app in Hn. cbn [length] in Hn. lia. }
    split.
    + rewrite (without_cons _ 44%N), (without_cons _ close (drop_trailing_commas close 0 t')).
      rewrite without_app, (without_spaces ws Hws), (without_cons _ close t'), Hf.
      reflexivity.
    + cbn [length]. rewrite length_app. cbn [length]. lia.
Qed.

Lemma drop_trailing_commas_without_comma (close : char) (s : pystr) :
  44%N ∉ s -> drop_trailing_commas close 0 s = s.
Proof.
  induction s as [|c r IH]; [reflexivity|].
  rewrite not_elem_of_cons. intros [Hc Hr]. cbn [drop_trailing_commas].
  destruct (N.eqb_spec c 44) as [-> | _]; [contradiction|].
  rewrite (IH Hr). reflexivity.
Qed.

(** X14. The trailing-comma repair takes out commas and white space and
    nothing else: the text without its commas and white space is the same
    before and after, the result is never longer, and a text that holds no
    comma comes back as it is. *)
Theorem trailing_comma_fix_removes_only_commas_and_space (s : pystr) :
  without comma_or_space (fix_trailing_commas s) = without comma_or_space s
  /\ (length (fix_trailing_commas s) <= length s)%nat
  /\ (44%N ∉ s -> fix_trailing_commas s = s).
Proof.
  unfold fix_trailing_commas.
  destruct (drop_trailing_commas_only 125%N (length s) s) as [Hf1 Hl1]; [lia|].
  destruct (drop_trailing_commas_only 93%N _ (drop_trailing_commas 125%N 0 s) (le_n _))
    as [Hf2 Hl2].
  split; [rewrite Hf2; exact Hf1|]. split; [lia|].
  intros H. rewrite (drop_trailing_commas_without_comma 125%N s H).
  apply drop_trailing_commas_without_comma. exact H.
Qed.

Lemma trailing_comma_fix_witness :
  fix_trailing_commas (u "{a: [1 2]}") = u "{a: [1 2]}".
Proof.
  apply (trailing_comma_fix_removes_only_commas_and_space (u "{a: [1 2]}")).
  apply (bool_decide_unpack _). vm_compute. reflexivity.
Defined.

(** ** Numbers in running text *)

Lemma match_numeric_needs_digit `{U : Unicode} (s : pystr) :
  (forall c, c ∈ s -> is_digit c = false) -> match_numeric s = None.
Proof.
  intros H. unfold match_numeric.
  destruct s as [|c r]; [reflexivity|].
  assert (Hc : is_digit c = false) by (apply H; constructor).
  assert (Hsign : ((c =? 45)%N && match r with d :: _ => is_digit d | [] => false end) = false).
  { destruct r as [|d r']; [apply andb_false_r|].
    rewrite (H d) by (constructor; constructor). apply andb_false_r. }
  rewrite Hsign. cbn [take_while]. rewrite Hc. reflexivity.
Qed.

Lemma finditer_numeric_needs_digit `{U : Unicode} (skip : nat) (s : pystr) :
  (forall c, c ∈ s -> is_digit c = false) -> finditer_numeric skip s = [].
Proof.
  revert skip. induction s as [|c r IH]; intros skip H; [reflexivity|].
  assert (Hr : forall c, c ∈ r -> is_digit c = false)
    by (intros d Hd; apply H; constructor; exact Hd).
  cbn [finditer_numeric]. destruct skip as [|k]; [|apply IH; exact Hr].
  rewrite (match_numeric_needs_digit (c :: r) H). apply IH. exact Hr.
Qed.

(** X15. A text that holds no decimal digit gives no number. *)
Theorem no_digit_no_number `{U : Unicode} (s : pystr) :
  (forall c, c ∈ s -> is_digit c = false) -> _numbers_from_string s = [].
Proof.
  intros H. unfold _numbers_from_string.
  rewrite (finditer_numeric_needs_digit 0 s H). reflexivity.
Qed.

Lemma no_digit_no_number_witness :
  @_numbers_from_string plain_unicode (u "Net IRR: n/a -.x%") = [].
Proof.
  apply (@no_digit_no_number plain_unicode).
  intros c Hc. revert c Hc. apply Forall_forall.
  apply (bool_decide_unpack _). vm_compute. reflexivity.
Defined.

(** ** Ground-truth loader: the identifier column *)

Lemma index_of_some (name : pystr) (header : list pystr) (i : nat) :
  index_of name header = Some i <->
  header !! i = Some name /\ forall j, (j < i)%nat -> header !! j <> Some name.
Proof.
  revert i. induction header as [|h r IH]; intros i; cbn [index_of].
  - split; [discriminate | intros [H _]; discriminate].
  - unfold pystr_eqb. destruct (bool_decide_reflect (h = name)) as [-> | Hne].
    + split.
      * intros [= <-]. split; [reflexivity | intros j Hj; lia].
      * intros [Hi Hfirst]. destruct i as [|i]; [reflexivity|].
        exfalso. apply (Hfirst 0%nat); [lia | reflexivity].
    + destruct (index_of name r) as [k|] eqn:E; cbn [option_map].
      * split.
        -- intros [= <-]. destruct (proj1 (IH k) eq_refl) as [Hk Hfirst]. split; [exact Hk|].
           intros [|j] Hj; cbn; [congruence | apply Hfirst; lia].
        -- intros [Hi Hfirst]. destruct i as [|i]; [cbn in Hi; congruence|].
           f_equal. cbn in Hi.
           assert (G : Some k = Some i); [|congruence].
           apply IH. split; [exact Hi|].
           intros j Hj. apply (Hfirst (S j)). lia.
      * split; [discriminate|]. intros [Hi Hfirst].
        destruct i as [|i]; [cbn in Hi; congruence|]. cbn in Hi.
        exfalso. assert (G : None = Some i); [|discriminate].
        apply IH. split; [exact Hi|].
        intros j Hj. apply (Hfirst (S j)). lia.
Qed.

(** X16. The identifier column is chosen by the order of the candidate
    names, not by the order of the columns: the result is the first
    column that carries the first candidate name found in the header, and
    every candidate name before it is absent from the header. *)
Theorem id_column_by_name_priority (names header : list pystr) (i : nat) :
  find_id_col names header = Some i <->
  exists before name after,
    names = before ++ name :: after
    /\ (forall n, n ∈ before -> n ∉ header)
    /\ header !! i = Some name
    /\ forall j, (j < i)%nat -> header !! j <> Some name.
Proof.
  revert i. induction names as [|n r IH]; intros i; cbn [find_id_col].
  - split; [discriminate|]. intros (before & name & after & H & _).
    destruct before; discriminate.
  - destruct (index_of n header) as [k|] eqn:E.
    + split.
      * intros [= <-]. apply index_of_some in E as [Hk Hfirst].
        exists [], n, r. split; [reflexivity|]. split; [|split; assumption].
        intros x Hx. inversion Hx.
      * intros (before & name & after & Hnames & Habsent & Hi & Hfirst).
        destruct before as [|b before]; cbn in Hnames.
        -- injection Hnames as -> ->. rewrite <- E.
           apply index_of_some. split; assumption.
        -- injection Hnames as <- ->.
           assert (Hn : n ∉ header) by (apply Habsent; constructor).
           apply index_of_none in Hn. congruence.
    + apply index_of_none in E. rewrite IH. split.
      * intros (before & name & after & -> & Habsent & Hi & Hfirst).
        exists (n :: before), name, after. split; [reflexivity|].
        split; [|split; assumption].
        intros x Hx. apply elem_of_cons in Hx as [-> | Hx]; [exact E | apply Habsent, Hx].
      * intros (before & name & after & Hnames & Habsent & Hi & Hfirst).
        destruct before as [|b before]; cbn in Hnames.
        -- injection Hnames as -> ->. exfalso. apply E.
           apply list_elem_of_lookup_2 in Hi. exact Hi.
        -- injection Hnames as <- ->. exists before, name, after.
           split; [reflexivity|]. split; [|split; assumption].
           intros x Hx. apply Habsent. constructor. exact Hx.
Qed.

Lemma id_column_by_name_priority_witness :
  find_id_col id_cols [u "gtpdf"; u "net_irr"; u "name"; u "name"] = Some 2%nat.
Proof.
  apply (id_column_by_name_priority id_cols [u "gtpdf"; u "net_irr"; u "name"; u "name"] 2).
  exists [u "pdf"; u "filename"; u "pdf_filename"; u "test_case_id"], (u "name"), [u "gtpdf"].
  split; [reflexivity|]. split; [|split].
  - apply Forall_forall. apply (bool_decide_unpack _). vm_compute. reflexivity.
  - reflexivity.
  - intros [|[|j]] Hj; [vm_compute; discriminate | vm_compute; discriminate | lia].
Defined.

(** ** Unit reconciler: when a rate is rescaled *)

Lemma fltb_asym (a b : pyfloat) :
  fltb a b = true -> fleb b a = false /\ fltb b a = false.
Proof.
  unfold fltb, fleb, SFltb, SFleb.
  destruct a as [sa|sa| |sa ma ea], b as [sb|sb| |sb mb eb]; cbn [SFcompare];
    try destruct sa; try destruct sb; try discriminate; try (split; reflexivity).
  - rewrite (Z.compare_antisym ea eb).
    destruct (ea ?= eb)%Z; cbn [CompOpp]; try discriminate; try (split; reflexivity).
    change (Pos.compare_cont Eq mb ma) with (mb ?= ma)%positive.
    change (Pos.compare_cont Eq ma mb) with (ma ?= mb)%positive.
    rewrite (Pos.compare_antisym ma mb).
    destruct (ma ?= mb)%positive; cbn [CompOpp]; try discriminate; split; reflexivity.
  - rewrite (Z.compare_antisym ea eb).
    destruct (ea ?= eb)%Z; cbn [CompOpp]; try discriminate; try (split; reflexivity).
    change (Pos.compare_cont Eq mb ma) with (mb ?= ma)%positive.
    change (Pos.compare_cont Eq ma mb) with (ma ?= mb)%positive.
    rewrite (Pos.compare_antisym ma mb).
    destruct (ma ?= mb)%positive; cbn [CompOpp]; try discriminate; split; reflexivity.
Qed.

(** X17. The reconciler returns the prediction as read (divided by 100
    under a basis-point hint), its hundredfold or its hundredth, and
    nothing else; when the magnitudes of the prediction as read and of the
    expected value are both above 1 or both below 1, it returns the
    prediction as read, for every kind of metric. *)
Theorem rescaling_needs_opposite_sides `{U : Unicode}
    (p : pyfloat) (gt_val : option pyfloat) (metric_kind : pystr)
    (label_hint : option pystr) :
  (exists r, unit_normalize_pred (Some p) gt_val metric_kind label_hint = Some r
     /\ (r = hinted p label_hint \/ r = fmul (hinted p label_hint) f100
         \/ r = fdiv (hinted p label_hint) f100))
  /\ (forall g, gt_val = Some g -> same_side_of_one (hinted p label_hint) g ->
        unit_normalize_pred (Some p) gt_val metric_kind label_hint
        = Some (hinted p label_hint)).
Proof.
  unfold unit_normalize_pred. fold (hinted p label_hint).
  generalize (hinted p label_hint). intros q. split.
  - destruct (negb (bool_decide (metric_kind ∈ rate_metrics))); [eauto|].
    destruct gt_val as [g|]; [|eauto].
    destruct (fltb f1 (fabs g) && fleb (fabs q) f1); [eauto|].
    destruct (fltb (fabs g) f1 && fltb f1 (fabs q)
              && fltb (fabs (fsub g (fdiv q f100))) (fabs (fsub g q))); eauto.
  - intros g -> Hside.
    destruct (negb (bool_decide (metric_kind ∈ rate_metrics))); [reflexivity|].
    destruct Hside as [[Hg Hq] | [Hg Hq]].
    + destruct (fltb_asym _ _ Hq) as [Hle _]. destruct (fltb_asym _ _ Hg) as [_ Hlt].
      rewrite Hle, Hlt, andb_false_r. reflexivity.
    + destruct (fltb_asym _ _ Hq) as [_ Hlt]. destruct (fltb_asym _ _ Hg) as [_ Hlt'].
      rewrite Hlt, Hlt', andb_false_r. reflexivity.
Qed.

Lemma rescaling_needs_opposite_sides_witness :
  @unit_normalize_pred plain_unicode (Some f150) (Some f10) (u "irr") None = Some f150.
Proof.
  destruct (@rescaling_needs_opposite_sides plain_unicode f150 (Some f10) (u "irr") None)
    as [_ H].
  apply (H f10); [reflexivity|].
  left. split; vm_compute; reflexivity.
Defined.

(** ** Projected documents *)

Lemma str_find_from_shift (p s : pystr) (i j : nat) :
  match str_find_from p s i with Some _ => true | None => false end
  = match str_find_from p s j with Some _ => true | None => false end.
Proof.
  revert i j. induction s as [|c r IH]; intros i j; cbn [str_find_from].
  - destruct (starts_with p []); reflexivity.
  - destruct (starts_with p (c :: r)); [reflexivity | apply IH].
Qed.

Lemma contains_cons (p : pystr) (c : char) (s : pystr) :
  contains p (c :: s) = starts_with p (c :: s) || contains p s.
Proof.
  unfold contains, str_find. cbn [str_find_from].
  destruct (starts_with p (c :: s)); [reflexivity|].
  cbn [orb]. apply str_find_from_shift.
Qed.

Lemma starts_with_before_separator (sep : char) (p a b : pystr) :
  sep ∉ p -> starts_with p (a ++ sep :: b) = starts_with p a.
Proof.
  revert a. induction p as [|k p IH]; intros a Hp; [destruct a; reflexivity|].
  apply not_elem_of_cons in Hp as [Hk Hp].
  destruct a as [|c a]; cbn [app starts_with].
  - destruct (N.eqb_spec k sep) as [-> | _]; [contradiction | reflexivity].
  - rewrite (IH a Hp). reflexivity.
Qed.

Lemma contains_across_separator (sep : char) (p a b : pystr) :
  sep ∉ p -> contains p (a ++ sep :: b) = contains p a || contains p b.
Proof.
  intros Hp. induction a as [|c a IH]; cbn [app].
  - rewrite contains_cons.
    destruct p as [|k p]; [reflexivity|].
    apply not_elem_of_cons in Hp as [Hk _]. cbn [starts_with].
    destruct (N.eqb_spec k sep) as [-> | _]; [contradiction | reflexivity].
  - rewrite !contains_cons, IH.
    change (c :: a ++ sep :: b) with ((c :: a) ++ sep :: b).
    rewrite (starts_with_before_separator sep p (c :: a) b Hp).
    rewrite orb_assoc. reflexivity.
Qed.

(** X18. A document is projected exactly when a keyword occurs in the text
    of the document or in the identifier of the test case: the blank that
    joins the two cannot complete a keyword, so no match spans both. *)
Theorem projected_iff_either_part_names_it `{U : Unicode} (pdf_text test_case_id : pystr) :
  _is_projected_document pdf_text test_case_id
  = names_projection pdf_text || names_projection test_case_id.
Proof.
  unfold _is_projected_document, names_projection, _PROJECTED_DOC_KEYWORDS.
  cbn [existsb app].
  rewrite !contains_across_separator
    by (apply (bool_decide_unpack _); vm_compute; reflexivity).
  repeat match goal with |- context [contains ?k ?s] =>
    generalize (contains k s); intros ? end.
  repeat match goal with b : bool |- _ => destruct b end; reflexivity.
Qed.

(** ** Ground truth from JSON *)

Lemma metrics_step_fields `{U : Unicode} (out out' : json_metrics) (item : pystr * pyval) :
  metrics_step out item = Ok out' ->
  (if irr_item item then irr_of item = Ok (net_irr out') else net_irr out' = net_irr out)
  /\ (if moic_item item then number_of item = Ok (net_moic out')
      else net_moic out' = net_moic out)
  /\ (if dpi_item item then number_of item = Ok (net_dpi out')
      else net_dpi out' = net_dpi out)
  /\ (other_item item = false \/ other_metric_label out <> None ->
      other_metric_label out' = other_metric_label out
      /\ other_metric_value out' = other_metric_value out)
  /\ (other_item item = true -> other_metric_label out = None ->
      other_metric_value out = None ->
      other_metric_label out' = Some (strip item.1)
      /\ number_of item = Ok (other_metric_value out')).
Proof.
  destruct item as [key val].
  unfold metrics_step, irr_item, moic_item, dpi_item, other_item, irr_of, number_of,
    read_item. cbn [fst snd].
  destruct (bool_decide (key ∈ id_keys)); cbn [negb andb].
  { intros [= <-]. repeat split; try reflexivity; intros; discriminate. }
  assert (Hread : forall v : pyval,
    (let* num := metric_number v in
     if names_irr (upper (strip key)) then
       let* num0 := irr_number num in
       Ok {| net_irr := num0; net_moic := net_moic out; net_dpi := net_dpi out;
             other_metric_label := other_metric_label out;
             other_metric_value := other_metric_value out |}
     else if names_moic (upper (strip key)) then
       Ok {| net_irr := net_irr out; net_moic := num; net_dpi := net_dpi out;
             other_metric_label := other_metric_label out;
             other_metric_value := other_metric_value out |}
     else if names_dpi (upper (strip key)) then
       Ok {| net_irr := net_irr out; net_moic := net_moic out; net_dpi := num;
             other_metric_label := other_metric_label out;
             other_metric_value := other_metric_value out |}
     else
       match other_metric_value out, other_metric_label out with
       | None, None =>
         Ok {| net_irr := net_irr out; net_moic := net_moic out; net_dpi := net_dpi out;
               other_metric_label := Some (strip key);
               other_metric_value := num |}
       | _, _ => Ok out
       end) = Ok out' ->
    (if names_irr (upper (strip key))
     then (let* num := metric_number v in irr_number num) = Ok (net_irr out')
     else net_irr out' = net_irr out)
    /\ (if negb (names_irr (upper (strip key))) && names_moic (upper (strip key))
        then metric_number v = Ok (net_moic out') else net_moic out' = net_moic out)
    /\ (if negb (names_irr (upper (strip key))) && negb (names_moic (upper (strip key)))
           && names_dpi (upper (strip key))
        then metric_number v = Ok (net_dpi out') else net_dpi out' = net_dpi out)
    /\ (negb (names_irr (upper (strip key))) && negb (names_moic (upper (strip key)))
          && negb (names_dpi (upper (strip key))) = false
        \/ other_metric_label out <> None ->
        other_metric_label out' = other_metric_label out
        /\ other_metric_value out' = other_metric_value out)
    /\ (negb (names_irr (upper (strip key))) && negb (names_moic (upper (strip key)))
          && negb (names_dpi (upper (strip key))) = true ->
        other_metric_label out = None -> other_metric_value out = None ->
        other_metric_label out' = Some (strip key)
        /\ metric_number v = Ok (other_metric_value out'))).
  { intros v. destruct (metric_number v) as [num|e]; cbn [bind]; [|discriminate].
    destruct (names_irr (upper (strip key))); cbn [negb andb].
    { destruct (irr_number num) as [num0|e]; cbn [bind]; [|discriminate].
      intros [= <-]. cbn. repeat split; try reflexivity; intros; discriminate. }
    destruct (names_moic (upper (strip key))); cbn [negb andb].
    { intros [= <-]. cbn. repeat split; try reflexivity; intros; discriminate. }
    destruct (names_dpi (upper (strip key))); cbn [negb andb].
    { intros [= <-]. cbn. repeat split; try reflexivity; intros; discriminate. }
    destruct (other_metric_value out) as [x|] eqn:Ev;
      destruct (other_metric_label out) as [l|] eqn:El; intros [= <-]; cbn;
      rewrite ?Ev, ?El;
      (split; [reflexivity|]); (split; [reflexivity|]); (split; [reflexivity|]);
      (split; [|intros _ Hl Hv; first [discriminate Hl | discriminate Hv | split; reflexivity]]).
    all: try (intros _; split; reflexivity).
    intros [Hx | Hx]; [discriminate | contradiction]. }
  destruct val; cbn [is_null negb andb]; try apply Hread.
  intros [= <-]. repeat split; try reflexivity; intros; discriminate.
Qed.

Lemma metrics_loop_core `{U : Unicode} (items : list (pystr * pyval))
    (out0 out : json_metrics) :
  metrics_loop out0 items = Ok out ->
  match last_where irr_item items with
  | Some item => irr_of item = Ok (net_irr out)
  | None => net_irr out = net_irr out0
  end
  /\ match last_where moic_item items with
     | Some item => number_of item = Ok (net_moic out)
     | None => net_moic out = net_moic out0
     end
  /\ match last_where dpi_item items with
     | Some item => number_of item = Ok (net_dpi out)
     | None => net_dpi out = net_dpi out0
     end.
Proof.
  revert out0. induction items as [|item rest IH]; intros out0; cbn [metrics_loop].
  - intros [= <-]. repeat split.
  - intros H. apply bind_ok in H as (out1 & Hstep & Hloop).
    apply IH in Hloop as (Hi & Hm & Hd).
    apply metrics_step_fields in Hstep as (Si & Sm & Sd & _).
    cbn [last_where]. split; [|split].
    + destruct (last_where irr_item rest); [exact Hi|].
      destruct (irr_item item); congruence.
    + destruct (last_where moic_item rest); [exact Hm|].
      destruct (moic_item item); congruence.
    + destruct (last_where dpi_item rest); [exact Hd|].
      destruct (dpi_item item); congruence.
Qed.

Lemma metrics_loop_other_kept `{U : Unicode} (items : list (pystr * pyval))
    (out0 out : json_metrics) :
  metrics_loop out0 items = Ok out -> other_metric_label out0 <> None ->
  other_metric_label out = other_metric_label out0
  /\ other_metric_value out = other_metric_value out0.
Proof.
  revert out0. induction items as [|item rest IH]; intros out0; cbn [metrics_loop].
  - intros [= <-] _. split; reflexivity.
  - intros H Hl. apply bind_ok in H as (out1 & Hstep & Hloop).
    apply metrics_step_fields in Hstep as (_ & _ & _ & Hkeep & _).
    destruct Hkeep as [Hkl Hkv]; [right; exact Hl|].
    destruct (IH _ Hloop) as [Hl' Hv']; [congruence|]. split; congruence.
Qed.

Lemma metrics_loop_other `{U : Unicode} (items : list (pystr * pyval))
    (out0 out : json_metrics) :
  metrics_loop out0 items = Ok out ->
  other_metric_label out0 = None -> other_metric_value out0 = None ->
  match first_where other_item items with
  | Some item =>
    other_metric_label out = Some (strip item.1)
    /\ number_of item = Ok (other_metric_value out)
  | None => other_metric_label out = None /\ other_metric_value out = None
  end.
Proof.
  revert out0. induction items as [|item rest IH]; intros out0; cbn [metrics_loop].
  - intros [= <-] Hl Hv. split; assumption.
  - intros H Hl Hv. apply bind_ok in H as (out1 & Hstep & Hloop).
    apply metrics_step_fields in Hstep as (_ & _ & _ & Hkeep & Hset).
    cbn [first_where]. destruct (other_item item).
    + destruct (Hset eq_refl Hl Hv) as [Hl1 Hv1].
      destruct (metrics_loop_other_kept rest out1 out Hloop) as [Hl2 Hv2]; [congruence|].
      split; congruence.
    + destruct Hkeep as [Hl1 Hv1]; [left; reflexivity|].
      apply (IH out1 Hloop); congruence.
Qed.

(** X19. Among the items read for the three core metrics the last one
    wins: each of net_irr, net_moic and net_dpi is the number of the last
    item of its kind in the order of the file, even when that number is
    absent, and is absent when there is no item of that kind.  Items under
    an identifier key or with a null value are not read. *)
Theorem last_core_item_wins `{U : Unicode} (raw : list (pystr * pyval))
    (out : json_metrics) :
  _metrics_dict_from_json_metrics raw = Ok out ->
  match last_where irr_item raw with
  | Some item => irr_of item = Ok (net_irr out)
  | None => net_irr out = None
  end
  /\ match last_where moic_item raw with
     | Some item => number_of item = Ok (net_moic out)
     | None => net_moic out = None
     end
  /\ match last_where dpi_item raw with
     | Some item => number_of item = Ok (net_dpi out)
     | None => net_dpi out = None
     end.
Proof.
  intros H. apply (metrics_loop_core raw empty_json_metrics out H).
Qed.

Lemma last_core_item_wins_witness :
  @irr_of plain_unicode (u "Gross IRR", VStr (u "n/a")) = Ok None
  /\ @number_of plain_unicode (u "Net MOIC", VStr (u "1.09x")) = Ok (Some f1_09).
Proof.
  pose proof (@last_core_item_wins plain_unicode raw_two_rates
    {| net_irr := None; net_moic := Some f1_09; net_dpi := None;
       other_metric_label := Some (u "Current Yield");
       other_metric_value := Some f1_5 |}) as H.
  destruct H as (Hi & Hm & _); [vm_compute; reflexivity|].
  split; [exact Hi | exact Hm].
Defined.

(** X20. For the other metric the first item wins: its label is the
    stripped key of the first item read that names none of the core
    metrics, its value is the number of that item, and later items of that
    kind are ignored; both are absent when there is no such item. *)
Theorem first_other_item_wins `{U : Unicode} (raw : list (pystr * pyval))
    (out : json_metrics) :
  _metrics_dict_from_json_metrics raw = Ok out ->
  match first_where other_item raw with
  | Some item =>
    other_metric_label out = Some (strip item.1)
    /\ number_of item = Ok (other_metric_value out)
  | None => other_metric_label out = None /\ other_metric_value out = None
  end.
Proof.
  intros H. apply (metrics_loop_other raw empty_json_metrics out H); reflexivity.
Qed.

Lemma first_other_item_wins_witness :
  Some (u "Current Yield") = Some (strip (u "Current Yield"))
  /\ @number_of plain_unicode (u "Current Yield", VFloat f1_5) = Ok (Some f1_5).
Proof.
  apply (@first_other_item_wins plain_unicode raw_two_rates
    {| net_irr := None; net_moic := Some f1_09; net_dpi := None;
       other_metric_label := Some (u "Current Yield");
       other_metric_value := Some f1_5 |}).
  vm_compute. reflexivity.
Defined.
